(** * cloudflare-tunnel: the orchestration code, embedded and verified

    The repository holds three variants of one command-line program that
    provisions a Cloudflare tunnel: [src/unnamed/part_001] (routes, protocols,
    SOCKS5 relay), [src/main.go] (one HTTP port) and [src/unnamed/part_000]
    (a list of HTTP ports, DNS through the daemon's own CLI).

    The program is a sequence of calls into the operating system, the
    network and the [cloudflared] executable.  It is embedded as a tree of
    such calls ([Prog]): every call is an [Event], the environment's answer
    is a value of [Resp e], and the continuation is the Go code that follows
    the call.  [run] interprets a tree against an arbitrary environment
    ([Handler]) and records the calls that were made; theorems quantify over
    every environment.  The one goroutine of the program, the SOCKS5 relay of
    [part_001], runs beside the main thread ([par], [go]); the scheduler is
    part of the environment.

    What is not the repository's code is kept abstract: the JSON scanner and
    the JSON string encoder of [encoding/json] are the two fields of the class
    [EncodingJson]; the file system, the HTTP transport, the sub-processes and
    the signal are answers of the environment.  Closed examples run on one
    instance of the class ([GoJson]) and two small environments: [Fake], with
    files, DNS records and [cloudflared], and [Disk], with the permission bits
    of the files. *)

From Stdlib Require Import ZArith String Ascii List Bool Lia Sorted.
From stdpp Require Import base tactics option list strings pretty gmap.

Local Open Scope string_scope.
Local Open Scope Z_scope.
Local Open Scope list_scope.

(** ** Go values *)

(** A Go [error] only ever reaches a log line here; it is kept as its text. *)
Definition error := string.

Inductive result (A : Type) : Type :=
| Ok (a : A)
| Err (e : error).
Arguments Ok {A} a.
Arguments Err {A} e.

(** The double quote character, as a one-byte string. *)
Definition dq : string := String (ascii_of_nat 34) EmptyString.

(** The newline character, as a one-byte string. *)
Definition nl : string := String (ascii_of_nat 10) EmptyString.

(** [strings.HasPrefix s prefix] *)
Definition HasPrefix (s prefix : string) : bool := String.prefix prefix s.

(** The verb [%d] of [fmt] on an [int]. *)
Definition itoa (n : Z) : string := pretty n.

(** ** JSON values and [encoding/json] *)

#[local] Set Warnings "-register-all".
Inductive json : Type :=
| JNull
| JBool (b : bool)
| JNumber (literal : string)
| JString (s : string)
| JArray (items : list json)
| JObject (members : list (string * json)).

(** The two parts of [encoding/json] that are taken as given: the scanner that
    turns bytes into a value or reports a syntax error, and the encoder of a
    Go string as a JSON string literal (its escapes changed between Go
    releases). *)
Class EncodingJson := {
  json_scan : string -> result json;
  json_quote : string -> string
}.

(** Key folding of the decoder: a key matches a struct field when it is the
    field's name exactly or, failing that, when both fold to the same bytes.
    ASCII letters fold to upper case; the long s (U+017F, bytes C5 BF) folds to
    [S] and the Kelvin sign (U+212A, bytes E2 84 AA) to [K].  No other rune
    folds into ASCII, and every field name below is ASCII, so other bytes are
    kept as they are. *)
Definition fold_ascii (c : ascii) : ascii :=
  let n := nat_of_ascii c in
  if ((97 <=? n) && (n <=? 122))%nat then ascii_of_nat (n - 32) else c.

Fixpoint foldName (s : string) : string :=
  match s with
  | EmptyString => EmptyString
  | String c1 (String c2 (String c3 rest as t2) as t1) =>
      if ((nat_of_ascii c1 =? 226) && (nat_of_ascii c2 =? 132) && (nat_of_ascii c3 =? 170))%nat
      then String "K" (foldName rest)
      else if ((nat_of_ascii c1 =? 197) && (nat_of_ascii c2 =? 191))%nat
      then String "S" (foldName t2)
      else String (fold_ascii c1) (foldName t1)
  | String c1 (String c2 rest as t1) =>
      if ((nat_of_ascii c1 =? 197) && (nat_of_ascii c2 =? 191))%nat
      then String "S" (foldName rest)
      else String (fold_ascii c1) (foldName t1)
  | String c1 rest => String (fold_ascii c1) (foldName rest)
  end.

(** The position of the first element of [l] that satisfies [p]. *)
Fixpoint index_where {T : Type} (p : T -> bool) (l : list T) : option nat :=
  match l with
  | [] => None
  | x :: l' => if p x then Some 0%nat else option_map S (index_where p l')
  end.

(** The struct field (by position in [names], the JSON names of the fields in
    declaration order) that the object key [key] is stored into. *)
Definition field_index (names : list string) (key : string) : option nat :=
  match index_where (String.eqb key) names with
  | Some i => Some i
  | None => index_where (fun n => String.eqb (foldName n) (foldName key)) names
  end.

(** Decoding one value into a field of Go type [string]: a JSON string is
    stored, [null] leaves the field as it is, anything else is an
    [UnmarshalTypeError] (the flag) and the field is left as it is. *)
Definition decode_string (v : json) (cur : string) : string * bool :=
  match v with
  | JString s => (s, false)
  | JNull => (cur, false)
  | _ => (cur, true)
  end.

(** Decoding into a field of Go type [bool]. *)
Definition decode_bool (v : json) (cur : bool) : bool * bool :=
  match v with
  | JBool b => (b, false)
  | JNull => (cur, false)
  | _ => (cur, true)
  end.

(** Decoding an object into a struct: the members are visited in the order
    of the text; a key that matches no field is skipped; the first type error
    is remembered and decoding goes on.  [store i v s] decodes [v] into field
    number [i] of [s]. *)
Definition decode_members {S : Type} (names : list string)
    (store : nat -> json -> S -> S * bool)
    (members : list (string * json)) (cur : S) : S * bool :=
  fold_left
    (fun acc kv =>
       match field_index names (fst kv) with
       | Some i => let '(s, bad) := store i (snd kv) (fst acc) in (s, snd acc || bad)
       | None => acc
       end)
    members (cur, false).

Definition decode_struct {S : Type} (names : list string)
    (store : nat -> json -> S -> S * bool) (v : json) (cur : S) : S * bool :=
  match v with
  | JObject members => decode_members names store members cur
  | JNull => (cur, false)
  | _ => (cur, true)
  end.

(** Decoding into a slice: an array gives one element per item, [null] gives
    the nil slice, anything else is a type error.  Every element is decoded
    from the zero value: where Go would decode into a stale element of a
    reused backing array (a key given twice) the fields of that element can
    differ, its presence and the error cannot. *)
Definition decode_slice {T : Type} (elem : json -> T -> T * bool) (zero : T)
    (v : json) (cur : list T) : list T * bool :=
  match v with
  | JArray items =>
      let rs := map (fun it => elem it zero) items in
      (map fst rs, existsb snd rs)
  | JNull => ([], false)
  | _ => (cur, true)
  end.

(** ** The structs of the program (the same in the three variants) *)

(** [type DNSRecord struct], JSON names [id], [type], [name], [content]. *)
Record DNSRecord := {
  ID : string;
  Type_ : string;
  Name : string;
  Value : string
}.

(** [type TunnelCredentials struct] *)
Record TunnelCredentials := {
  AccountTag : string;
  TunnelSecret : string;
  TunnelID : string
}.

(** [type APIKeys struct], JSON names [ApiToken] and [ZoneId]. *)
Record APIKeys := {
  ApiToken : string;
  ZoneID : string
}.

(** The anonymous struct [result] of [dnsRecordExists]. *)
Record DNSQueryResult := {
  Success : bool;
  Result : list DNSRecord
}.

(** [type Route struct] of [part_001]. *)
Record Route := {
  Hostname : string;
  Service : string
}.

Definition zero_DNSRecord : DNSRecord :=
  {| ID := ""; Type_ := ""; Name := ""; Value := "" |}.
Definition zero_TunnelCredentials : TunnelCredentials :=
  {| AccountTag := ""; TunnelSecret := ""; TunnelID := "" |}.
Definition zero_APIKeys : APIKeys := {| ApiToken := ""; ZoneID := "" |}.
Definition zero_DNSQueryResult : DNSQueryResult := {| Success := false; Result := [] |}.

Definition names_DNSRecord : list string := ["id"; "type"; "name"; "content"].
Definition names_TunnelCredentials : list string := ["AccountTag"; "TunnelSecret"; "TunnelID"].
Definition names_APIKeys : list string := ["ApiToken"; "ZoneId"].
Definition names_DNSQueryResult : list string := ["success"; "result"].

Definition store_DNSRecord (i : nat) (v : json) (r : DNSRecord) : DNSRecord * bool :=
  match i with
  | 0%nat => let '(s, bad) := decode_string v (ID r) in
             ({| ID := s; Type_ := Type_ r; Name := Name r; Value := Value r |}, bad)
  | 1%nat => let '(s, bad) := decode_string v (Type_ r) in
             ({| ID := ID r; Type_ := s; Name := Name r; Value := Value r |}, bad)
  | 2%nat => let '(s, bad) := decode_string v (Name r) in
             ({| ID := ID r; Type_ := Type_ r; Name := s; Value := Value r |}, bad)
  | _ => let '(s, bad) := decode_string v (Value r) in
         ({| ID := ID r; Type_ := Type_ r; Name := Name r; Value := s |}, bad)
  end.

Definition store_TunnelCredentials (i : nat) (v : json) (c : TunnelCredentials)
    : TunnelCredentials * bool :=
  match i with
  | 0%nat => let '(s, bad) := decode_string v (AccountTag c) in
             ({| AccountTag := s; TunnelSecret := TunnelSecret c; TunnelID := TunnelID c |}, bad)
  | 1%nat => let '(s, bad) := decode_string v (TunnelSecret c) in
             ({| AccountTag := AccountTag c; TunnelSecret := s; TunnelID := TunnelID c |}, bad)
  | _ => let '(s, bad) := decode_string v (TunnelID c) in
         ({| AccountTag := AccountTag c; TunnelSecret := TunnelSecret c; TunnelID := s |}, bad)
  end.

Definition store_APIKeys (i : nat) (v : json) (k : APIKeys) : APIKeys * bool :=
  match i with
  | 0%nat => let '(s, bad) := decode_string v (ApiToken k) in
             ({| ApiToken := s; ZoneID := ZoneID k |}, bad)
  | _ => let '(s, bad) := decode_string v (ZoneID k) in
         ({| ApiToken := ApiToken k; ZoneID := s |}, bad)
  end.

Definition decode_DNSRecord : json -> DNSRecord -> DNSRecord * bool :=
  decode_struct names_DNSRecord store_DNSRecord.

Definition store_DNSQueryResult (i : nat) (v : json) (q : DNSQueryResult)
    : DNSQueryResult * bool :=
  match i with
  | 0%nat => let '(b, bad) := decode_bool v (Success q) in
             ({| Success := b; Result := Result q |}, bad)
  | _ => let '(l, bad) := decode_slice decode_DNSRecord zero_DNSRecord v (Result q) in
         ({| Success := Success q; Result := l |}, bad)
  end.

Section Json.
Context `{EncodingJson}.

(** [json.Unmarshal(data, &x)] for [x] a zero struct: a syntax error of the
    scanner, else the remembered type error (its text abridged), else the
    decoded struct. *)
Definition Unmarshal {S : Type} (names : list string)
    (store : nat -> json -> S -> S * bool) (zero : S) (data : string) : result S :=
  match json_scan data with
  | Err e => Err e
  | Ok v =>
      let '(s, bad) := decode_struct names store v zero in
      if bad then Err "json: cannot unmarshal value into Go value" else Ok s
  end.

Definition Unmarshal_TunnelCredentials : string -> result TunnelCredentials :=
  Unmarshal names_TunnelCredentials store_TunnelCredentials zero_TunnelCredentials.
Definition Unmarshal_APIKeys : string -> result APIKeys :=
  Unmarshal names_APIKeys store_APIKeys zero_APIKeys.
Definition Unmarshal_DNSQueryResult : string -> result DNSQueryResult :=
  Unmarshal names_DNSQueryResult store_DNSQueryResult zero_DNSQueryResult.

(** One member of an object as the encoder writes it. *)
Definition member (name value : string) : string :=
  dq +:+ name +:+ dq +:+ ":" +:+ json_quote value.

(** [json.Marshal(record)] for a [DNSRecord]: the fields in declaration
    order under their JSON names, none omitted; it cannot fail. *)
Definition Marshal_DNSRecord (r : DNSRecord) : string :=
  "{" +:+ member "id" (ID r) +:+ "," +:+ member "type" (Type_ r) +:+ ","
      +:+ member "name" (Name r) +:+ "," +:+ member "content" (Value r) +:+ "}".

(** One member of an object as the indenting encoder writes it. *)
Definition member_indent (indent name value : string) : string :=
  indent +:+ dq +:+ name +:+ dq +:+ ": " +:+ json_quote value.

(** [json.MarshalIndent(creds, "", "  ")] for a [TunnelCredentials]. *)
Definition MarshalIndent_TunnelCredentials (c : TunnelCredentials) : string :=
  "{" +:+ nl +:+ member_indent "  " "AccountTag" (AccountTag c) +:+ "," +:+ nl
      +:+ member_indent "  " "TunnelSecret" (TunnelSecret c) +:+ "," +:+ nl
      +:+ member_indent "  " "TunnelID" (TunnelID c) +:+ nl +:+ "}".
End Json.

(** ** Calls into the environment *)

(** An HTTP request as [cloudflareAPIRequest] builds it. *)
Record Request := {
  Method : string;
  URL : string;
  Authorization : string;
  ContentType : string;
  Payload : string
}.

(** What the program reads of an HTTP response: the status code and the
    result of [io.ReadAll(resp.Body)] (the bytes read and the error, if any). *)
Record Response := {
  StatusCode : Z;
  Body : string;
  BodyErr : option error
}.

(** The three ways [http.NewRequest] followed by [client.Do] can end. *)
Inductive HttpResult : Type :=
| NewRequestError (e : error)
| TransportError (e : error)
| Responded (r : Response).

(** [os.Stat] as the program reads it: no error, an error for which
    [os.IsNotExist] holds, or another error. *)
Inductive StatResult : Type :=
| StatOk
| StatNotExist
| StatOtherError.

(** The calls the program makes, named after the Go functions behind them.
    [os_ReadFile], [os_WriteFile], [os_Create], [os_Stat]: the functions of
    package [os].  [file_Write], [file_Close]: [fmt.Fprintf] or [fmt.Fprintln]
    on the file that [os.Create] opened, and its [Close]; the open file is
    identified by its path.  [cmd_Run], [cmd_Start], [cmd_Wait]: [Run],
    [Start], [Wait] of an [exec.Cmd] with the given argument vector.
    [http_Do]: [http.NewRequest], the two headers, [client.Do] and the reading
    of the body.  [log_Print]: [log.Println] or [log.Printf] with the
    formatted message (the prefix and the final newline of the logger are not
    part of it).  [ctx_cancel]: the cancel function of [context.WithCancel].
    [signal_Wait]: [signal.Notify] and the receive from the channel.
    [socks5_New]: [socks5.New].  [socks5_Serve]: the [go] statement of
    [startSocks5], which starts the goroutine that serves on the address.
    [socks5_ListenAndServe]: [server.ListenAndServe] in that goroutine; its
    answer is the error it returns with, if any.  [go_sched] is no call of the
    program: while a goroutine runs, the scheduler is asked before every call
    of the main thread whether the goroutine makes its next call first. *)
Inductive Event : Type :=
| os_ReadFile (path : string)
| os_WriteFile (path data : string) (perm : N)
| os_Create (path : string)
| file_Write (path chunk : string)
| file_Close (path : string)
| os_Stat (path : string)
| cmd_Run (argv : list string)
| cmd_Start (argv : list string)
| cmd_Wait (argv : list string)
| http_Do (req : Request)
| log_Print (msg : string)
| ctx_cancel
| signal_Wait
| socks5_New
| socks5_Serve (addr : string)
| socks5_ListenAndServe (addr : string)
| go_sched.

(** The type of the environment's answer to each call.  A write to the open
    file and [Close], [Wait], [cancel] answer nothing the program reads. *)
Definition Resp (e : Event) : Type :=
  match e with
  | os_ReadFile _ => result string
  | os_WriteFile _ _ _ => option error
  | os_Create _ => option error
  | os_Stat _ => StatResult
  | cmd_Run _ => option error
  | cmd_Start _ => option error
  | http_Do _ => HttpResult
  | socks5_New | socks5_ListenAndServe _ => option error
  | go_sched => bool
  | file_Write _ _ | file_Close _ | cmd_Wait _ | log_Print _
  | ctx_cancel | signal_Wait | socks5_Serve _ => unit
  end.

(** A program: it returns, or makes a call and goes on with the answer, or
    ends the process through [log.Fatal]/[log.Fatalf] (the message is printed
    and [os.Exit(1)] runs no deferred call), or panics. *)
Inductive Prog (A : Type) : Type :=
| Ret (a : A)
| Vis (e : Event) (k : Resp e -> Prog A)
| Fatal (msg : string)
| Panic (msg : string).
Arguments Ret {A} a.
Arguments Vis {A} e k.
Arguments Fatal {A} msg.
Arguments Panic {A} msg.

Fixpoint bind {A B : Type} (p : Prog A) (f : A -> Prog B) : Prog B :=
  match p with
  | Ret a => f a
  | Vis e k => Vis e (fun r => bind (k r) f)
  | Fatal m => Fatal m
  | Panic m => Panic m
  end.

Notation "'let*' x ':=' p 'in' k" := (bind p (fun x => k))
  (at level 10, x name, p at level 100, k at level 200,
   format "'[v' 'let*'  x  ':='  p  'in' '/' k ']'").
Notation "p ';;;' k" := (bind p (fun _ => k))
  (at level 90, right associativity, format "'[v' p  ';;;' '/' k ']'").

Definition call (e : Event) : Prog (Resp e) := Vis e Ret.

(** [defer d] placed before [body]: [d] runs when [body] returns and when it
    panics, not when the process exits. *)
Fixpoint defer {A : Type} (d : Prog unit) (body : Prog A) : Prog A :=
  match body with
  | Ret a => bind d (fun _ => Ret a)
  | Vis e k => Vis e (fun r => defer d (k r))
  | Fatal m => Fatal m
  | Panic m => bind d (fun _ => Panic m)
  end.

(** ** Goroutines

    [par p g] is the main thread [p] with one goroutine [g] beside it.  The
    scheduler belongs to the environment: as long as the goroutine has a call
    to make, the environment is asked before every call of the main thread
    ([go_sched]) whether the goroutine makes its call first; a goroutine that
    is blocked in a call is one whose turn has not come.  [log.Fatal] in the
    goroutine ends the process, and so does a panic there.  When the goroutine
    returns the main thread goes on alone; when the main thread returns, exits
    or panics, the process ends whatever the goroutine was doing. *)
Fixpoint par {A : Type} (p : Prog A) : Prog unit -> Prog A :=
  fix beside (g : Prog unit) : Prog A :=
    match g with
    | Ret _ => p
    | Fatal m => Fatal m
    | Panic m => Panic m
    | Vis eg kg =>
        Vis go_sched (fun turn : bool =>
          if turn then Vis eg (fun r => beside (kg r))
          else match p with
               | Vis e k => Vis e (fun r => par (k r) g)
               | _ => p
               end)
    end.

(** [go spawn p]: the process whose main thread is [p], where [spawn e] is
    the goroutine that the call [e] starts, if [e] is a [go] statement.  From
    the first such call on the goroutine runs beside the rest of the main
    thread, deferred calls included. *)
Fixpoint go {A : Type} (spawn : Event -> option (Prog unit)) (p : Prog A) : Prog A :=
  match p with
  | Vis e k =>
      match spawn e with
      | Some g => Vis e (fun r => par (k r) g)
      | None => Vis e (fun r => go spawn (k r))
      end
  | _ => p
  end.

(** ** Running a program against an environment *)

Inductive Outcome (A : Type) : Type :=
| Returned (a : A)
| Exited (msg : string)
| Panicked (msg : string).
Arguments Returned {A} a.
Arguments Exited {A} msg.
Arguments Panicked {A} msg.

(** An environment with states [W] answers every call and moves on. *)
Definition Handler (W : Type) : Type := forall e : Event, W -> Resp e * W.

Record Run (A W : Type) : Type := {
  outcome : Outcome A;
  world : W;
  trace : list Event
}.
Arguments outcome {A W} r.
Arguments world {A W} r.
Arguments trace {A W} r.

Fixpoint run {W A : Type} (h : Handler W) (p : Prog A) (w : W) : Run A W :=
  match p with
  | Ret a => {| outcome := Returned a; world := w; trace := [] |}
  | Vis e k =>
      let '(r, w') := h e w in
      let rest := run h (k r) w' in
      {| outcome := outcome rest; world := world rest; trace := e :: trace rest |}
  | Fatal m => {| outcome := Exited m; world := w; trace := [] |}
  | Panic m => {| outcome := Panicked m; world := w; trace := [] |}
  end.

(** Every call a program can make, whatever the environment answers,
    satisfies [P]. *)
Inductive AllCalls {A : Type} (P : Event -> Prop) : Prog A -> Prop :=
| AllCalls_Ret a : AllCalls P (Ret a)
| AllCalls_Fatal m : AllCalls P (Fatal m)
| AllCalls_Panic m : AllCalls P (Panic m)
| AllCalls_Vis e k : P e -> (forall r, AllCalls P (k r)) -> AllCalls P (Vis e k).

(** Projections of a trace. *)
Definition http_requests (t : list Event) : list Request :=
  omap (fun e => match e with http_Do r => Some r | _ => None end) t.

Definition commands (t : list Event) : list (list string) :=
  omap (fun e => match e with cmd_Run a | cmd_Start a => Some a | _ => None end) t.

(** The chunks written to the file [path], one per [fmt.Fprintf] or
    [fmt.Fprintln], and the text they make up. *)
Definition writes_to (path : string) (t : list Event) : list string :=
  omap (fun e => match e with
                 | file_Write p c => if String.eqb p path then Some c else None
                 | _ => None
                 end) t.

Definition written_text (path : string) (t : list Event) : string :=
  String.concat "" (writes_to path t).

(** [for _, x := range l { body x }] *)
Fixpoint for_range {T : Type} (l : list T) (body : T -> Prog unit) : Prog unit :=
  match l with
  | [] => Ret tt
  | x :: l' => body x ;;; for_range l' body
  end.

(** The permission bits [0600]: read and write for the owner only. *)
Definition perm_0600 : N := 6 * 64 + 0 * 8 + 0.

(** * [src/unnamed/part_001]: routes, protocols and the SOCKS5 relay *)

Module Part_001.
Section Program.
Context `{EncodingJson}.

Definition loadAPIKeys (filePath : string) : Prog (result APIKeys) :=
  let* r := call (os_ReadFile filePath) in
  match r with
  | Err err => Ret (Err ("failed to read API keys file: " +:+ err))
  | Ok data =>
      match Unmarshal_APIKeys data with
      | Err err => Ret (Err ("failed to unmarshal API keys: " +:+ err))
      | Ok keys =>
          if String.eqb (ApiToken keys) "" || String.eqb (ZoneID keys) ""
          then Ret (Err "ApiToken or ZoneId missing in API keys file")
          else Ret (Ok keys)
      end
  end.

Definition loadCredentials (filePath : string) : Prog (result TunnelCredentials) :=
  let* r := call (os_ReadFile filePath) in
  match r with
  | Err err => Ret (Err ("failed to read credentials file: " +:+ err))
  | Ok data =>
      match Unmarshal_TunnelCredentials data with
      | Err err => Ret (Err ("failed to unmarshal credentials: " +:+ err))
      | Ok creds => Ret (Ok creds)
      end
  end.

(** [json.MarshalIndent] cannot fail on a struct of strings, so the error
    branch of the source is never taken. *)
Definition saveCredentials (filePath : string) (creds : TunnelCredentials)
    : Prog (option error) :=
  let data := MarshalIndent_TunnelCredentials creds in
  call (os_WriteFile filePath data perm_0600).

Definition authenticateCloudflare : Prog unit :=
  call (log_Print "Authenticating with Cloudflare...") ;;;
  let* r := call (cmd_Run ["cloudflared"; "tunnel"; "login"]) in
  match r with
  | Some err => Fatal ("Cloudflare authentication failed: " +:+ err)
  | None => call (log_Print "Cloudflare authentication successful.")
  end.

Definition createTunnel (tunnelName credentialsPath : string) : Prog TunnelCredentials :=
  call (log_Print ("Creating tunnel " +:+ tunnelName +:+ "..." +:+ nl)) ;;;
  let* r := call (cmd_Run ["cloudflared"; "tunnel"; "--credentials-file"; credentialsPath;
                           "create"; tunnelName]) in
  match r with
  | Some err => Fatal ("Failed to create tunnel: " +:+ err)
  | None =>
      let* c := loadCredentials credentialsPath in
      match c with
      | Err err => Fatal ("Failed to load tunnel credentials: " +:+ err)
      | Ok creds => call (log_Print "Tunnel created successfully.") ;;; Ret creds
      end
  end.

(** The body is read in full and its read error dropped ([body, _ :=]);
    closing the body is part of the environment's answer. *)
Definition cloudflareAPIRequest (method url apiToken payload : string)
    : Prog (result string) :=
  let* r := call (http_Do {| Method := method; URL := url;
                             Authorization := "Bearer " +:+ apiToken;
                             ContentType := "application/json";
                             Payload := payload |}) in
  match r with
  | NewRequestError err => Ret (Err ("failed to create API request: " +:+ err))
  | TransportError err => Ret (Err ("API request failed: " +:+ err))
  | Responded resp =>
      if 400 <=? StatusCode resp
      then Ret (Err ("API error: " +:+ Body resp))
      else Ret (Ok (Body resp))
  end.

Definition dnsRecordExists (zoneID domain apiToken : string) : Prog bool :=
  let url := "https://api.cloudflare.com/client/v4/zones/" +:+ zoneID
             +:+ "/dns_records?name=" +:+ domain in
  let* r := cloudflareAPIRequest "GET" url apiToken "" in
  match r with
  | Err err => Fatal ("Failed to query DNS record: " +:+ err)
  | Ok resp =>
      match Unmarshal_DNSQueryResult resp with
      | Err err => Fatal ("Failed to parse DNS record response: " +:+ err)
      | Ok result => Ret (0 <? length (Result result))%nat
      end
  end.

Definition ensureDNSRecord (zoneID domain tunnelID apiToken : string) : Prog unit :=
  let* found := dnsRecordExists zoneID domain apiToken in
  if found
  then call (log_Print ("DNS record for " +:+ domain +:+ " already exists, skipping." +:+ nl))
  else
    let record := {| ID := ""; Type_ := "CNAME"; Name := domain;
                     Value := tunnelID +:+ ".cfargotunnel.com" |} in
    let payload := Marshal_DNSRecord record in
    let url := "https://api.cloudflare.com/client/v4/zones/" +:+ zoneID +:+ "/dns_records" in
    let* r := cloudflareAPIRequest "POST" url apiToken payload in
    match r with
    | Err err => Fatal ("Failed to create DNS record: " +:+ err)
    | Ok _ => call (log_Print ("Created DNS record for " +:+ domain +:+ "." +:+ nl))
    end.

(** The started command is identified by its argument vector. *)
Definition startTunnel (configPath : string) : Prog (list string) :=
  let argv := ["cloudflared"; "--config"; configPath; "tunnel"; "run"] in
  let* r := call (cmd_Start argv) in
  match r with
  | Some err => Fatal ("Failed to start Cloudflare Tunnel: " +:+ err)
  | None => call (log_Print "Cloudflared tunnel started.") ;;; Ret argv
  end.

Definition logoutCloudflare : Prog unit :=
  call (log_Print "Logging out of Cloudflare...") ;;;
  let* r := call (cmd_Run ["cloudflared"; "tunnel"; "logout"]) in
  match r with
  | Some err => call (log_Print ("Logout failed: " +:+ err))
  | None => call (log_Print "Successfully logged out.")
  end.

(** The fallback service chosen from [routes[0]]. *)
Definition fallback_of (r0 : Route) : string :=
  if HasPrefix (Service r0) "http://" || HasPrefix (Service r0) "https://"
  then "http_status:404"
  else "tcp://localhost:0".

(** The open file is identified by its path; [routes[0]] on an empty slice
    is a run-time panic, after which the deferred [Close] still runs. *)
Definition writeConfigFile (tunnelID credentialsPath : string) (routes : list Route)
    : Prog string :=
  let configPath := "./" +:+ tunnelID +:+ "-config.yml" in
  let* r := call (os_Create configPath) in
  match r with
  | Some err => Fatal ("Failed to create config file: " +:+ err)
  | None =>
      defer (call (file_Close configPath))
        (call (file_Write configPath ("tunnel: " +:+ tunnelID +:+ nl)) ;;;
         call (file_Write configPath ("credentials-file: " +:+ credentialsPath +:+ nl)) ;;;
         call (file_Write configPath ("ingress:" +:+ nl)) ;;;
         for_range routes (fun r =>
           call (file_Write configPath ("  - hostname: " +:+ Hostname r +:+ nl)) ;;;
           call (file_Write configPath ("    service: " +:+ Service r +:+ nl))) ;;;
         match routes with
         | [] => Panic "runtime error: index out of range [0] with length 0"
         | r0 :: _ =>
             let fallback := fallback_of r0 in
             call (file_Write configPath ("  - service: " +:+ fallback +:+ nl)) ;;;
             call (log_Print ("Config file written to " +:+ configPath +:+ nl)) ;;;
             Ret configPath
         end)
  end.

(** The goroutine of [startSocks5]: it logs the address, serves, and ends the
    process when [ListenAndServe] returns an error. *)
Definition relay (addr : string) : Prog unit :=
  call (log_Print ("SOCKS5 proxy listening on " +:+ addr +:+ nl)) ;;;
  let* r := call (socks5_ListenAndServe addr) in
  match r with
  | Some err => Fatal ("SOCKS5 server error: " +:+ err)
  | None => Ret tt
  end.

(** The goroutine that a call starts: [relay], started by the [go] statement
    of [startSocks5]. *)
Definition spawn (e : Event) : option (Prog unit) :=
  match e with
  | socks5_Serve addr => Some (relay addr)
  | _ => None
  end.

(** [socks5.New] and the [go] statement; the goroutine is [relay] on
    [127.0.0.1:<port>]. *)
Definition startSocks5 (port : Z) : Prog unit :=
  let* r := call socks5_New in
  match r with
  | Some err => Fatal ("Failed to create SOCKS5 server: " +:+ err)
  | None => call (socks5_Serve ("127.0.0.1:" +:+ itoa port))
  end.

(** The command line after [flag.Parse]. *)
Record Flags := {
  port : Z;
  tunnel : string;
  domain : string;
  apiKeys : string;
  credentials : string;
  protocol : string;
  socks5_port : Z;
  proxy_domain : string
}.

(** The [switch *protocol] of [main] that builds the ingress routes. *)
Definition build_routes (f : Flags) (keys : APIKeys) (creds : TunnelCredentials)
    : Prog (list Route) :=
  if String.eqb (protocol f) "http" then
    Ret [ {| Hostname := domain f; Service := "http://localhost:" +:+ itoa (port f) |} ]
  else if String.eqb (protocol f) "tcp" then
    Ret [ {| Hostname := domain f; Service := "tcp://localhost:" +:+ itoa (port f) |} ]
  else if String.eqb (protocol f) "all" then
    if String.eqb (proxy_domain f) ""
    then Fatal "proxy-domain is required when protocol=all"
    else
      ensureDNSRecord (ZoneID keys) (proxy_domain f) (TunnelID creds) (ApiToken keys) ;;;
      let routes := app [] [ {| Hostname := domain f;
                                Service := "tcp://localhost:" +:+ itoa (port f) |} ] in
      let routes := app routes [ {| Hostname := proxy_domain f;
                                    Service := "tcp://localhost:" +:+ itoa (socks5_port f) |} ] in
      Ret routes
  else Fatal ("Unsupported protocol: " +:+ protocol f).

(** The branch of [main] taken when a flag is missing: reuse the previous
    configuration. *)
Definition main_reuse (f : Flags) : Prog unit :=
  let* r := loadCredentials (credentials f) in
  match r with
  | Err err => Fatal ("Previous configuration not found: " +:+ err)
  | Ok creds =>
      let cfg := "./" +:+ TunnelID creds +:+ "-config.yml" in
      let* st := call (os_Stat cfg) in
      match st with
      | StatNotExist => Fatal ("Config " +:+ cfg +:+ " not found")
      | _ =>
          defer (call ctx_cancel) (defer logoutCloudflare
            (let* cmd := startTunnel cfg in
             call signal_Wait ;;;
             call ctx_cancel ;;;
             call (cmd_Wait cmd)))
      end
  end.

(** The credentials of the run: those of the file when it loads, else a
    login, a new tunnel and the file written back. *)
Definition resolve_credentials (f : Flags) : Prog TunnelCredentials :=
  let* r := loadCredentials (credentials f) in
  match r with
  | Ok creds => Ret creds
  | Err _ =>
      authenticateCloudflare ;;;
      let* creds := createTunnel (tunnel f) (credentials f) in
      let* e := saveCredentials (credentials f) creds in
      match e with
      | Some err => Fatal ("Failed to save credentials: " +:+ err)
      | None => Ret creds
      end
  end.

(** The body of [func main], as the main thread runs it. *)
Definition main_thread (f : Flags) : Prog unit :=
  if (port f =? 0) || String.eqb (tunnel f) "" || String.eqb (domain f) ""
  then main_reuse f
  else
    let* k := loadAPIKeys (apiKeys f) in
    match k with
    | Err err => Fatal ("Failed to load API keys: " +:+ err)
    | Ok keys =>
        let* creds := resolve_credentials f in
        ensureDNSRecord (ZoneID keys) (domain f) (TunnelID creds) (ApiToken keys) ;;;
        let* routes := build_routes f keys creds in
        defer (call ctx_cancel) (defer logoutCloudflare
          (let* configPath := writeConfigFile (TunnelID creds) (credentials f) routes in
           (if String.eqb (protocol f) "all" then startSocks5 (socks5_port f) else Ret tt) ;;;
           let* cmd := startTunnel configPath in
           call signal_Wait ;;;
           call ctx_cancel ;;;
           call (cmd_Wait cmd) ;;;
           call (log_Print "Cloudflare Tunnel stopped.")))
    end.

(** [main] as the process runs it: the main thread, with the relay beside it
    once [startSocks5] has started it. *)
Definition main (f : Flags) : Prog unit := go spawn (main_thread f).
End Program.
End Part_001.

(** * [src/main.go]: one HTTP port *)

Module Main_go.
Section Program.
Context `{EncodingJson}.

Definition loadAPIKeys (filePath : string) : Prog (result APIKeys) :=
  let* r := call (os_ReadFile filePath) in
  match r with
  | Err err => Ret (Err err)
  | Ok data =>
      match Unmarshal_APIKeys data with
      | Err err => Ret (Err err)
      | Ok keys => Ret (Ok keys)
      end
  end.

Definition loadCredentials (filePath : string) : Prog (result TunnelCredentials) :=
  let* r := call (os_ReadFile filePath) in
  match r with
  | Err err => Ret (Err err)
  | Ok data =>
      match Unmarshal_TunnelCredentials data with
      | Err err => Ret (Err err)
      | Ok creds => Ret (Ok creds)
      end
  end.

Definition saveCredentials (filePath : string) (creds : TunnelCredentials)
    : Prog (option error) :=
  let data := MarshalIndent_TunnelCredentials creds in
  call (os_WriteFile filePath data perm_0600).

Definition authenticateCloudflare : Prog unit :=
  call (log_Print "Authenticating with Cloudflare...") ;;;
  let* r := call (cmd_Run ["cloudflared"; "tunnel"; "login"]) in
  match r with
  | Some err => Fatal ("Cloudflare authentication failed: " +:+ err)
  | None => call (log_Print "Cloudflare authentication successful.")
  end.

Definition createTunnel (tunnelName credentialsPath : string) : Prog TunnelCredentials :=
  call (log_Print ("Creating tunnel: " +:+ tunnelName +:+ nl)) ;;;
  let* r := call (cmd_Run ["cloudflared"; "tunnel"; "--credentials-file"; credentialsPath;
                           "create"; tunnelName]) in
  match r with
  | Some err => Fatal ("Failed to create tunnel: " +:+ err)
  | None =>
      call (log_Print "Tunnel created successfully.") ;;;
      let* c := loadCredentials credentialsPath in
      match c with
      | Err err => Fatal ("Failed to load tunnel credentials: " +:+ err)
      | Ok creds => Ret creds
      end
  end.

(** Here a status of 400 or more ends the process inside the function, and
    the result of [io.ReadAll] is returned with its error. *)
Definition cloudflareAPIRequest (method url apiToken payload : string)
    : Prog (result string) :=
  let* r := call (http_Do {| Method := method; URL := url;
                             Authorization := "Bearer " +:+ apiToken;
                             ContentType := "application/json";
                             Payload := payload |}) in
  match r with
  | NewRequestError err => Ret (Err err)
  | TransportError err => Ret (Err err)
  | Responded resp =>
      if 400 <=? StatusCode resp
      then Fatal ("Cloudflare API request failed: " +:+ Body resp +:+ nl)
      else match BodyErr resp with
           | Some err => Ret (Err err)
           | None => Ret (Ok (Body resp))
           end
  end.

Definition dnsRecordExists (zoneID domain apiToken : string) : Prog bool :=
  call (log_Print ("Checking if DNS record exists for " +:+ domain +:+ "..." +:+ nl)) ;;;
  let url := "https://api.cloudflare.com/client/v4/zones/" +:+ zoneID
             +:+ "/dns_records?name=" +:+ domain in
  let* r := cloudflareAPIRequest "GET" url apiToken "" in
  match r with
  | Err err => Fatal ("Failed to query DNS record: " +:+ err)
  | Ok resp =>
      match Unmarshal_DNSQueryResult resp with
      | Err err => Fatal ("Failed to parse DNS record query response: " +:+ err)
      | Ok result => Ret (0 <? length (Result result))%nat
      end
  end.

Definition ensureDNSRecord (zoneID domain tunnelID apiToken : string) : Prog unit :=
  let* found := dnsRecordExists zoneID domain apiToken in
  if found
  then call (log_Print "DNS record already exists. Skipping creation.")
  else
    call (log_Print ("Creating DNS record for " +:+ domain +:+ "..." +:+ nl)) ;;;
    let url := "https://api.cloudflare.com/client/v4/zones/" +:+ zoneID +:+ "/dns_records" in
    let record := {| ID := ""; Type_ := "CNAME"; Name := domain;
                     Value := tunnelID +:+ ".cfargotunnel.com" |} in
    let payload := Marshal_DNSRecord record in
    let* r := cloudflareAPIRequest "POST" url apiToken payload in
    match r with
    | Err err => Fatal ("Failed to create DNS record: " +:+ err)
    | Ok _ => call (log_Print "DNS record created successfully.")
    end.

Definition writeConfigFile (tunnelName tunnelID : string) (port : Z)
    (domain credentialsPath : string) : Prog string :=
  let configPath := "./" +:+ tunnelID +:+ "-config.yml" in
  let* r := call (os_Create configPath) in
  match r with
  | Some err => Fatal ("Failed to create config file: " +:+ err)
  | None =>
      defer (call (file_Close configPath))
        (call (file_Write configPath ("tunnel: " +:+ tunnelID +:+ nl)) ;;;
         call (file_Write configPath ("credentials-file: " +:+ credentialsPath +:+ nl)) ;;;
         call (file_Write configPath ("ingress:" +:+ nl)) ;;;
         call (file_Write configPath ("  - hostname: " +:+ domain +:+ nl)) ;;;
         call (file_Write configPath ("    service: http://localhost:" +:+ itoa port +:+ nl)) ;;;
         call (file_Write configPath ("  - service: http_status:404" +:+ nl)) ;;;
         call (log_Print ("Config file created at: " +:+ configPath +:+ nl)) ;;;
         Ret configPath)
  end.

Definition startTunnel (configPath : string) : Prog (list string) :=
  call (log_Print "Starting Cloudflare Tunnel...") ;;;
  let argv := ["cloudflared"; "--config"; configPath; "tunnel"; "run"] in
  let* r := call (cmd_Start argv) in
  match r with
  | Some err => Fatal ("Failed to start Cloudflare Tunnel: " +:+ err)
  | None => Ret argv
  end.

Record Flags := {
  port : Z;
  tunnel : string;
  domain : string;
  apiKeys : string;
  credentials : string
}.

(** The branch of [main] taken when a flag is missing. *)
Definition main_reuse (f : Flags) : Prog unit :=
  call (log_Print "No arguments provided, attempting to load previous configuration.") ;;;
  let* r := loadCredentials (credentials f) in
  match r with
  | Err err =>
      Fatal ("Previous configuration not found and required arguments not passed: " +:+ err)
  | Ok creds =>
      let configPath := "./" +:+ TunnelID creds +:+ "-config.yml" in
      let* st := call (os_Stat configPath) in
      match st with
      | StatNotExist => Fatal ("Previous config file " +:+ configPath +:+ " not found.")
      | _ =>
          call (log_Print ("Using previous configuration: " +:+ configPath)) ;;;
          let* tunnelCmd := startTunnel configPath in
          call signal_Wait ;;;
          call (log_Print "Termination signal received...") ;;;
          call (cmd_Wait tunnelCmd)
      end
  end.

(** The credentials of the run: those of the file when it loads, else a
    login, a new tunnel and the file written back. *)
Definition resolve_credentials (f : Flags) : Prog TunnelCredentials :=
  let* r := loadCredentials (credentials f) in
  match r with
  | Ok creds => Ret creds
  | Err _ =>
      call (log_Print "Credentials not found. Authenticating and creating a new tunnel...") ;;;
      authenticateCloudflare ;;;
      let* creds := createTunnel (tunnel f) (credentials f) in
      let* e := saveCredentials (credentials f) creds in
      match e with
      | Some err => Fatal ("Failed to save tunnel credentials: " +:+ err)
      | None => Ret creds
      end
  end.

Definition main (f : Flags) : Prog unit :=
  if (port f =? 0) || String.eqb (tunnel f) "" || String.eqb (domain f) ""
  then main_reuse f
  else
    let* k := loadAPIKeys (apiKeys f) in
    match k with
    | Err err => Fatal ("Failed to load API keys: " +:+ err)
    | Ok keys =>
        let* creds := resolve_credentials f in
        ensureDNSRecord (ZoneID keys) (domain f) (TunnelID creds) (ApiToken keys) ;;;
        defer (call ctx_cancel)
          (let* configPath := writeConfigFile (tunnel f) (TunnelID creds) (port f)
                                (domain f) (credentials f) in
           let* tunnelCmd := startTunnel configPath in
           call signal_Wait ;;;
           call (log_Print "Termination signal received...") ;;;
           call ctx_cancel ;;;
           call (cmd_Wait tunnelCmd) ;;;
           call (log_Print "Cloudflare Tunnel stopped."))
    end.
End Program.
End Main_go.

(** * [src/unnamed/part_000]: a list of HTTP ports *)

Module Part_000.
(** The first parameter is named [tunnelName]; [main] passes the tunnel ID. *)
Definition writeConfigFile (tunnelName : string) (ports : list Z)
    (domain credentialsPath : string) : Prog string :=
  let configPath := "./" +:+ tunnelName +:+ "-config.yml" in
  let* r := call (os_Create configPath) in
  match r with
  | Some err => Fatal ("Failed to create config file: " +:+ err)
  | None =>
      defer (call (file_Close configPath))
        (call (file_Write configPath ("tunnel: " +:+ tunnelName +:+ nl)) ;;;
         call (file_Write configPath ("credentials-file: " +:+ credentialsPath +:+ nl)) ;;;
         call (file_Write configPath ("ingress:" +:+ nl)) ;;;
         for_range ports (fun port =>
           call (file_Write configPath ("  - hostname: " +:+ domain +:+ nl)) ;;;
           call (file_Write configPath ("    service: http://localhost:" +:+ itoa port +:+ nl))) ;;;
         call (file_Write configPath ("  - service: http_status:404" +:+ nl)) ;;;
         call (log_Print ("Config file created at: " +:+ configPath +:+ nl)) ;;;
         Ret configPath)
  end.

(** [strings.Split(s, sep)] for a separator of one byte: the fields between
    the occurrences of [sep], in order.  A string without [sep], the empty
    string included, is one field. *)
Fixpoint Split (s : string) (sep : ascii) : list string :=
  match s with
  | EmptyString => [EmptyString]
  | String c rest =>
      if Ascii.eqb c sep then EmptyString :: Split rest sep
      else match Split rest sep with
           | field :: fields => String c field :: fields
           | [] => [String c EmptyString]
           end
  end.

(** [strings.TrimSpace] and [strconv.Atoi] are taken as given. *)
Class GoStrings := {
  TrimSpace : string -> string;
  Atoi : string -> result Z
}.

Section Program.
Context `{EncodingJson} `{GoStrings}.

Definition loadCredentials (filePath : string) : Prog (result TunnelCredentials) :=
  let* r := call (os_ReadFile filePath) in
  match r with
  | Err err => Ret (Err err)
  | Ok data =>
      match Unmarshal_TunnelCredentials data with
      | Err err => Ret (Err err)
      | Ok creds => Ret (Ok creds)
      end
  end.

Definition saveCredentials (filePath : string) (creds : TunnelCredentials)
    : Prog (option error) :=
  let data := MarshalIndent_TunnelCredentials creds in
  call (os_WriteFile filePath data perm_0600).

Definition authenticateCloudflare : Prog unit :=
  call (log_Print "Authenticating with Cloudflare...") ;;;
  let* r := call (cmd_Run ["cloudflared"; "tunnel"; "login"]) in
  match r with
  | Some err => Fatal ("Cloudflare authentication failed: " +:+ err)
  | None => call (log_Print "Cloudflare authentication successful.")
  end.

Definition createTunnel (tunnelName credentialsPath : string) : Prog TunnelCredentials :=
  call (log_Print ("Creating tunnel: " +:+ tunnelName +:+ nl)) ;;;
  let* r := call (cmd_Run ["cloudflared"; "tunnel"; "--credentials-file"; credentialsPath;
                           "create"; tunnelName]) in
  match r with
  | Some err => Fatal ("Failed to create tunnel: " +:+ err)
  | None =>
      call (log_Print "Tunnel created successfully.") ;;;
      let* c := loadCredentials credentialsPath in
      match c with
      | Err err => Fatal ("Failed to load tunnel credentials: " +:+ err)
      | Ok creds => Ret creds
      end
  end.

(** Here the DNS record is left to the daemon's own command line; the
    tunnel is named, not identified. *)
Definition ensureDNSRecord (tunnelName domain : string) : Prog unit :=
  call (log_Print ("Ensuring DNS record exists for " +:+ domain +:+ "..." +:+ nl)) ;;;
  let* r := call (cmd_Run ["cloudflared"; "tunnel"; "route"; "dns"; tunnelName; domain]) in
  match r with
  | Some err => Fatal ("Failed to create or verify DNS record: " +:+ err)
  | None => call (log_Print "DNS record verified/created successfully.")
  end.

Definition startTunnel (configPath : string) : Prog (list string) :=
  call (log_Print "Starting Cloudflare Tunnel...") ;;;
  let argv := ["cloudflared"; "--config"; configPath; "tunnel"; "run"] in
  let* r := call (cmd_Start argv) in
  match r with
  | Some err => Fatal ("Failed to start Cloudflare Tunnel: " +:+ err)
  | None => Ret argv
  end.

Record Flags := {
  ports : string;
  tunnel : string;
  domain : string;
  credentials : string
}.

(** The loop of [main] over the fields of [--ports]: [ports] is the slice
    built so far, and the first field that is not a number ends the process
    with the field as it was given. *)
Fixpoint parse_ports (fields : list string) (ports : list Z) : Prog (list Z) :=
  match fields with
  | [] => Ret ports
  | portStr :: fields' =>
      match Atoi (TrimSpace portStr) with
      | Err _ => Fatal ("Invalid port specified: " +:+ portStr)
      | Ok port => parse_ports fields' (app ports [port])
      end
  end.

(** The credentials of the run: those of the file when it loads, else a
    login, a new tunnel and the file written back. *)
Definition resolve_credentials (f : Flags) : Prog TunnelCredentials :=
  let* r := loadCredentials (credentials f) in
  match r with
  | Ok creds => call (log_Print "Reusing existing tunnel credentials.") ;;; Ret creds
  | Err _ =>
      call (log_Print "Credentials not found. Authenticating and creating a new tunnel...") ;;;
      authenticateCloudflare ;;;
      let* creds := createTunnel (tunnel f) (credentials f) in
      let* e := saveCredentials (credentials f) creds in
      match e with
      | Some err => Fatal ("Failed to save tunnel credentials: " +:+ err)
      | None => Ret creds
      end
  end.

Definition main (f : Flags) : Prog unit :=
  if String.eqb (ports f) ""
  then Fatal "No ports specified. Use --ports to specify ports."
  else
    let* port_list := parse_ports (Split (ports f) ",") [] in
    let* creds := resolve_credentials f in
    ensureDNSRecord (tunnel f) (domain f) ;;;
    defer (call ctx_cancel)
      (let* configPath := writeConfigFile (TunnelID creds) port_list (domain f)
                            (credentials f) in
       let* tunnelCmd := startTunnel configPath in
       call signal_Wait ;;;
       call (log_Print "Termination signal received...") ;;;
       call ctx_cancel ;;;
       call (cmd_Wait tunnelCmd) ;;;
       call (log_Print "Cloudflare Tunnel stopped.")).
End Program.
End Part_000.

(** * An instance of [EncodingJson] for closed examples

    A scanner for the JSON grammar of RFC 8259 and the string encoder of
    [json.Marshal] (HTML-safe escapes, the short escapes of current Go).
    Bytes above 0x7F inside strings are copied as they are: the instance
    agrees with [encoding/json] on texts whose strings are valid UTF-8.
    The theorems hold for every instance; this one runs the examples. *)

Module GoJson.
Definition code (c : ascii) : N := N_of_ascii c.
Definition byte (n : N) : ascii := ascii_of_N n.

Definition is_space (c : ascii) : bool :=
  let n := code c in ((n =? 32) || (n =? 9) || (n =? 10) || (n =? 13))%N.

Fixpoint skip_space (s : string) : string :=
  match s with
  | String c rest => if is_space c then skip_space rest else s
  | EmptyString => s
  end.

Definition is_digit (c : ascii) : bool := ((48 <=? code c) && (code c <=? 57))%N.

Definition hex_value (c : ascii) : option N :=
  let n := code c in
  if ((48 <=? n) && (n <=? 57))%N then Some (n - 48)%N
  else if ((97 <=? n) && (n <=? 102))%N then Some (n - 87)%N
  else if ((65 <=? n) && (n <=? 70))%N then Some (n - 55)%N
  else None.

(** Four hexadecimal digits at the head of [s]. *)
Definition hex4 (s : string) : option (N * string) :=
  match s with
  | String a (String b (String c (String d rest))) =>
      match hex_value a, hex_value b, hex_value c, hex_value d with
      | Some x, Some y, Some z, Some t => Some ((((x * 16 + y) * 16 + z) * 16 + t)%N, rest)
      | _, _, _, _ => None
      end
  | _ => None
  end.

(** The UTF-8 encoding of a code point. *)
Definition utf8 (r : N) : string :=
  if (r <? 128)%N then String (byte r) EmptyString
  else if (r <? 2048)%N then
    String (byte (192 + r / 64)) (String (byte (128 + r mod 64)) EmptyString)
  else if (r <? 65536)%N then
    String (byte (224 + r / 4096))
      (String (byte (128 + (r / 64) mod 64)) (String (byte (128 + r mod 64)) EmptyString))
  else
    String (byte (240 + r / 262144))
      (String (byte (128 + (r / 4096) mod 64))
         (String (byte (128 + (r / 64) mod 64)) (String (byte (128 + r mod 64)) EmptyString))).

Definition replacement : N := 65533.

(** The code point of a [\u] escape whose digits start [s]: a surrogate
    pair is combined, a lone surrogate is the replacement character. *)
Definition escaped_rune (s : string) : option (N * string) :=
  match hex4 s with
  | None => None
  | Some (r, rest) =>
      if ((55296 <=? r) && (r <? 56320))%N then
        match rest with
        | String "\" (String "u" rest') =>
            match hex4 rest' with
            | Some (r2, rest'') =>
                if ((56320 <=? r2) && (r2 <? 57344))%N
                then Some ((65536 + (r - 55296) * 1024 + (r2 - 56320))%N, rest'')
                else Some (replacement, rest)
            | None => Some (replacement, rest)
            end
        | _ => Some (replacement, rest)
        end
      else if ((56320 <=? r) && (r <? 57344))%N then Some (replacement, rest)
      else Some (r, rest)
  end.

(** The rest of a string literal after its opening quote. *)
Fixpoint scan_string (fuel : nat) (s : string) : option (string * string) :=
  match fuel with
  | O => None
  | S fuel =>
      match s with
      | EmptyString => None
      | String c rest =>
          if (code c =? 34)%N then Some (EmptyString, rest)
          else if (code c =? 92)%N then
            match rest with
            | String e rest' =>
                let simple (b : N) :=
                  match scan_string fuel rest' with
                  | Some (t, r) => Some (String (byte b) t, r)
                  | None => None
                  end in
                if (code e =? 34)%N then simple 34%N
                else if (code e =? 92)%N then simple 92%N
                else if (code e =? 47)%N then simple 47%N
                else if (code e =? 98)%N then simple 8%N
                else if (code e =? 102)%N then simple 12%N
                else if (code e =? 110)%N then simple 10%N
                else if (code e =? 114)%N then simple 13%N
                else if (code e =? 116)%N then simple 9%N
                else if (code e =? 117)%N then
                  match escaped_rune rest' with
                  | Some (r, rest'') =>
                      match scan_string fuel rest'' with
                      | Some (t, r') => Some (utf8 r +:+ t, r')
                      | None => None
                      end
                  | None => None
                  end
                else None
            | EmptyString => None
            end
          else if (code c <? 32)%N then None
          else
            match scan_string fuel rest with
            | Some (t, r) => Some (String c t, r)
            | None => None
            end
      end
  end.

Fixpoint take_digits (s : string) : string * string :=
  match s with
  | String c rest =>
      if is_digit c then let '(d, r) := take_digits rest in (String c d, r)
      else (EmptyString, s)
  | EmptyString => (EmptyString, s)
  end.

(** A number literal at the head of [s]. *)
Definition scan_number (s : string) : option (string * string) :=
  let '(sign, s1) := match s with
                     | String "-" rest => ("-", rest)
                     | _ => (EmptyString, s)
                     end in
  let '(int, s2) := take_digits s1 in
  match int with
  | EmptyString => None
  | String d more =>
      if (code d =? 48)%N && negb (String.eqb more EmptyString) then None
      else
        let frac :=
          match s2 with
          | String "." rest =>
              let '(f, s3) := take_digits rest in
              if String.eqb f EmptyString then None else Some ("." +:+ f, s3)
          | _ => Some (EmptyString, s2)
          end in
        match frac with
        | None => None
        | Some (f, s3) =>
            let expo :=
              match s3 with
              | String e rest =>
                  if ((code e =? 101) || (code e =? 69))%N then
                    let '(sg, rest') :=
                      match rest with
                      | String "+" r => ("+", r)
                      | String "-" r => ("-", r)
                      | _ => (EmptyString, rest)
                      end in
                    let '(x, s4) := take_digits rest' in
                    if String.eqb x EmptyString then None
                    else Some (String e sg +:+ x, s4)
                  else Some (EmptyString, s3)
              | EmptyString => Some (EmptyString, s3)
              end in
            match expo with
            | None => None
            | Some (x, s4) => Some (sign +:+ int +:+ f +:+ x, s4)
            end
        end
  end.

Definition strip (lit s : string) : option string :=
  if String.prefix lit s
  then Some (String.substring (String.length lit) (String.length s - String.length lit) s)
  else None.

(** A value at the head of [s] (after white space), and what follows it. *)
Fixpoint scan_value (fuel : nat) (s : string) : option (json * string) :=
  match fuel with
  | O => None
  | S fuel =>
      match skip_space s with
      | EmptyString => None
      | String c rest as s' =>
          if (code c =? 34)%N then
            match scan_string (String.length rest + 1)%nat rest with
            | Some (t, r) => Some (JString t, r)
            | None => None
            end
          else if (code c =? 91)%N then
            match skip_space rest with
            | String "]" r => Some (JArray [], r)
            | _ =>
                match scan_items fuel rest with
                | Some (l, r) => Some (JArray l, r)
                | None => None
                end
            end
          else if (code c =? 123)%N then
            match skip_space rest with
            | String "}" r => Some (JObject [], r)
            | _ =>
                match scan_members fuel rest with
                | Some (l, r) => Some (JObject l, r)
                | None => None
                end
            end
          else if (code c =? 110)%N then option_map (pair JNull) (strip "null" s')
          else if (code c =? 116)%N then option_map (pair (JBool true)) (strip "true" s')
          else if (code c =? 102)%N then option_map (pair (JBool false)) (strip "false" s')
          else
            match scan_number s' with
            | Some (lit, r) => Some (JNumber lit, r)
            | None => None
            end
      end
  end
with scan_items (fuel : nat) (s : string) : option (list json * string) :=
  match fuel with
  | O => None
  | S fuel =>
      match scan_value fuel s with
      | None => None
      | Some (v, r) =>
          match skip_space r with
          | String "," r' =>
              match scan_items fuel r' with
              | Some (l, r'') => Some (v :: l, r'')
              | None => None
              end
          | String "]" r' => Some ([v], r')
          | _ => None
          end
      end
  end
with scan_members (fuel : nat) (s : string) : option (list (string * json) * string) :=
  match fuel with
  | O => None
  | S fuel =>
      match skip_space s with
      | String c rest =>
          if (code c =? 34)%N then
            match scan_string (String.length rest + 1)%nat rest with
            | None => None
            | Some (key, r) =>
                match skip_space r with
                | String ":" r1 =>
                    match scan_value fuel r1 with
                    | None => None
                    | Some (v, r2) =>
                        match skip_space r2 with
                        | String "," r3 =>
                            match scan_members fuel r3 with
                            | Some (l, r4) => Some ((key, v) :: l, r4)
                            | None => None
                            end
                        | String "}" r3 => Some ([(key, v)], r3)
                        | _ => None
                        end
                    end
                | _ => None
                end
            end
          else None
      | EmptyString => None
      end
  end.

Definition scan (data : string) : result json :=
  match scan_value (2 * String.length data + 4)%nat data with
  | Some (v, rest) =>
      if String.eqb (skip_space rest) EmptyString then Ok v
      else Err "invalid character after top-level value"
  | None => Err "invalid character or unexpected end of JSON input"
  end.

Definition hex_digit (n : N) : ascii :=
  if (n <? 10)%N then byte (48 + n) else byte (87 + n).

Definition u00 (n : N) : string :=
  "\u00" +:+ String (hex_digit (n / 16)) (String (hex_digit (n mod 16)) EmptyString).

(** One byte below 0x80, or a byte copied as it is. *)
Definition escape_byte (c : ascii) : string :=
  let n := code c in
  if (n =? 34)%N then String "\" (String c EmptyString)
  else if (n =? 92)%N then "\\"
  else if (n =? 8)%N then "\b"
  else if (n =? 12)%N then "\f"
  else if (n =? 10)%N then "\n"
  else if (n =? 13)%N then "\r"
  else if (n =? 9)%N then "\t"
  else if ((n <? 32) || (n =? 60) || (n =? 62) || (n =? 38))%N then u00 n
  else String c EmptyString.

(** The body of a string literal as the encoder writes it; the line and
    paragraph separators U+2028 and U+2029 (bytes E2 80 A8 and E2 80 A9)
    are escaped. *)
Fixpoint escape (s : string) : string :=
  match s with
  | EmptyString => EmptyString
  | String c1 (String c2 (String c3 rest3) as rest) =>
      if ((code c1 =? 226) && (code c2 =? 128) && (code c3 =? 168))%N
      then "\u2028" +:+ escape rest3
      else if ((code c1 =? 226) && (code c2 =? 128) && (code c3 =? 169))%N
      then "\u2029" +:+ escape rest3
      else escape_byte c1 +:+ escape rest
  | String c1 rest => escape_byte c1 +:+ escape rest
  end.

Definition quote (s : string) : string := dq +:+ escape s +:+ dq.

#[export] Instance encoding_json : EncodingJson := {| json_scan := scan; json_quote := quote |}.
End GoJson.

(** * An instance of [GoStrings] for closed examples

    [Atoi] as [strconv.Atoi] where [int] has 64 bits: an optional sign, then
    decimal digits only, and a value that fits.  [TrimSpace] strips the six
    ASCII white space bytes from both ends; it agrees with
    [strings.TrimSpace] on ASCII strings.  The theorems hold for every
    instance; this one runs the examples. *)

Module AsciiStrings.
Definition is_space (c : ascii) : bool :=
  let n := N_of_ascii c in
  ((n =? 9) || (n =? 10) || (n =? 11) || (n =? 12) || (n =? 13) || (n =? 32))%N.

Fixpoint trim_left (s : string) : string :=
  match s with
  | String c rest => if is_space c then trim_left rest else s
  | EmptyString => s
  end.

Definition reverse (s : string) : string :=
  string_of_list_ascii (rev (list_ascii_of_string s)).

Definition trim_space (s : string) : string :=
  reverse (trim_left (reverse (trim_left s))).

Fixpoint digits (s : string) (acc : Z) : option Z :=
  match s with
  | EmptyString => Some acc
  | String c rest =>
      let n := N_of_ascii c in
      if ((48 <=? n) && (n <=? 57))%N then digits rest (acc * 10 + Z.of_N (n - 48))
      else None
  end.

Definition atoi (s : string) : result Z :=
  let failed (why : string) := Err ("strconv.Atoi: parsing " +:+ dq +:+ s +:+ dq +:+ ": " +:+ why) in
  let '(negative, body) :=
    match s with
    | String "-" rest => (true, rest)
    | String "+" rest => (false, rest)
    | _ => (false, s)
    end in
  match body with
  | EmptyString => failed "invalid syntax"
  | _ =>
      match digits body 0 with
      | None => failed "invalid syntax"
      | Some n =>
          let v := if negative then - n else n in
          if (v <? - 2 ^ 63) || (2 ^ 63 - 1 <? v) then failed "value out of range"
          else Ok v
      end
  end.

#[export] Instance go_strings : Part_000.GoStrings :=
  {| Part_000.TrimSpace := trim_space; Part_000.Atoi := atoi |}.
End AsciiStrings.

(** Test texts are written with apostrophes for double quotes. *)
Fixpoint json_text (s : string) : string :=
  match s with
  | EmptyString => EmptyString
  | String c rest => String (if Ascii.eqb c "'" then ascii_of_nat 34 else c) (json_text rest)
  end.


(** * A small environment for closed examples

    Files are a map from paths to contents; the DNS API keeps the records of
    one zone, answers a lookup with the records whose name the URL asks for
    and stores the record of a create call; [cloudflared tunnel create]
    writes the credentials file.  Every answer of the API carries the status
    [api_status]. *)

Module Fake.
Import GoJson.

Record World := {
  files : gmap string string;
  zone : list DNSRecord;
  api_status : Z;
  new_identity : TunnelCredentials
}.

Definition with_files (w : World) (fs : gmap string string) : World :=
  {| files := fs; zone := zone w; api_status := api_status w;
     new_identity := new_identity w |}.

Definition with_zone (w : World) (z : list DNSRecord) : World :=
  {| files := files w; zone := z; api_status := api_status w;
     new_identity := new_identity w |}.

Definition has_suffix (s suffix : string) : bool :=
  (String.length suffix <=? String.length s)%nat
  && String.eqb (String.substring (String.length s - String.length suffix)
                   (String.length suffix) s) suffix.

Definition lookup_body (records : list DNSRecord) : string :=
  "{" +:+ dq +:+ "success" +:+ dq +:+ ":true," +:+ dq +:+ "result" +:+ dq +:+ ":["
      +:+ String.concat "," (map Marshal_DNSRecord records) +:+ "]}".

Definition create_body (r : DNSRecord) : string :=
  "{" +:+ dq +:+ "success" +:+ dq +:+ ":true," +:+ dq +:+ "result" +:+ dq +:+ ":"
      +:+ Marshal_DNSRecord r +:+ "}".

Definition respond (w : World) (body : string) : HttpResult :=
  Responded {| StatusCode := api_status w; Body := body; BodyErr := None |}.

Definition api (req : Request) (w : World) : HttpResult * World :=
  if String.eqb (Method req) "GET" then
    (respond w (lookup_body
                  (filter (fun r => has_suffix (URL req) ("?name=" +:+ Name r) = true) (zone w))),
     w)
  else if String.eqb (Method req) "POST" then
    match Unmarshal names_DNSRecord store_DNSRecord zero_DNSRecord (Payload req) with
    | Ok r =>
        if 400 <=? api_status w then (respond w (create_body r), w)
        else (respond w (create_body r), with_zone w (zone w ++ [r]))
    | Err e => (Responded {| StatusCode := 400; Body := e; BodyErr := None |}, w)
    end
  else (Responded {| StatusCode := 405; Body := ""; BodyErr := None |}, w).

Definition cloudflared (argv : list string) (w : World) : option error * World :=
  match argv with
  | [_; _; "--credentials-file"; path; "create"; _] =>
      (None, with_files w (<[path := MarshalIndent_TunnelCredentials (new_identity w)]> (files w)))
  | _ => (None, w)
  end.

Definition env : Handler World := fun e =>
  match e as e' return World -> Resp e' * World with
  | os_ReadFile path => fun w =>
      (match files w !! path with
       | Some data => Ok data
       | None => Err ("open " +:+ path +:+ ": no such file or directory")
       end, w)
  | os_WriteFile path data _ => fun w => (None, with_files w (<[path := data]> (files w)))
  | os_Create path => fun w => (None, with_files w (<[path := ""]> (files w)))
  | file_Write path chunk => fun w =>
      (tt, with_files w (alter (fun s => s +:+ chunk) path (files w)))
  | file_Close _ => fun w => (tt, w)
  | os_Stat path => fun w =>
      (match files w !! path with Some _ => StatOk | None => StatNotExist end, w)
  | cmd_Run argv => cloudflared argv
  | cmd_Start _ => fun w => (None, w)
  | cmd_Wait _ => fun w => (tt, w)
  | http_Do req => api req
  | log_Print _ => fun w => (tt, w)
  | ctx_cancel => fun w => (tt, w)
  | signal_Wait => fun w => (tt, w)
  | socks5_New => fun w => (None, w)
  | socks5_Serve _ => fun w => (tt, w)
  | socks5_ListenAndServe _ => fun w => (None, w)
  | go_sched => fun w => (false, w)
  end.

(** A working directory with an API keys file and nothing else, an empty
    zone and an API that answers 200. *)
Definition fresh : World :=
  {| files := {[ "./api-keys.json" := json_text "{'ApiToken':'tok','ZoneId':'z1'}" ]};
     zone := [];
     api_status := 200;
     new_identity := {| AccountTag := "acc"; TunnelSecret := "c2VjcmV0"; TunnelID := "abc123" |} |}.



(** The same directory with a credentials file already in place. *)
Definition provisioned : World :=
  with_files fresh
    (<[ "./credentials.json" :=
          json_text "{'AccountTag':'acc','TunnelSecret':'c2VjcmV0','TunnelID':'abc123'}" ]>
       (files fresh)).


(** A provisioned directory whose API keys file has no [ApiToken] member. *)
Definition keys_without_token : World :=
  with_files provisioned
    (<[ "./api-keys.json" := json_text "{'ZoneId':'z1'}" ]> (files provisioned)).

(** Command lines for the examples: a complete one for [part_001] and for
    [main.go]. *)
Definition flags_001 : Part_001.Flags :=
  {| Part_001.port := 8080; Part_001.tunnel := "t1"; Part_001.domain := "a.test";
     Part_001.apiKeys := "./api-keys.json"; Part_001.credentials := "./credentials.json";
     Part_001.protocol := "http"; Part_001.socks5_port := 1080;
     Part_001.proxy_domain := "" |}.

Definition flags_main_go : Main_go.Flags :=
  {| Main_go.port := 8080; Main_go.tunnel := "t1"; Main_go.domain := "a.test";
     Main_go.apiKeys := "./api-keys.json"; Main_go.credentials := "./credentials.json" |}.
End Fake.

(** * A file system with permission bits

    What package [os] documents of [os.WriteFile]: "If the file does not
    exist, WriteFile creates it with permissions perm (before umask);
    otherwise WriteFile truncates it before writing, without changing
    permissions."  [os.Create] does the same with the permissions [0666].
    Nothing else of the environment is modelled here: sub-processes succeed
    and do nothing, the network is down. *)

Module Disk.
Record File := {
  mode : N;
  content : string
}.

Record World := {
  files : gmap string File;
  umask : N
}.

Definition WriteFile (name data : string) (perm : N) (w : World) : World :=
  let file :=
    match files w !! name with
    | Some old => {| mode := mode old; content := data |}
    | None => {| mode := N.ldiff perm (umask w); content := data |}
    end in
  {| files := <[name := file]> (files w); umask := umask w |}.

Definition append (name chunk : string) (w : World) : World :=
  {| files := alter (fun f => {| mode := mode f; content := content f +:+ chunk |}) name
                (files w);
     umask := umask w |}.

Definition env : Handler World := fun e =>
  match e as e' return World -> Resp e' * World with
  | os_ReadFile name => fun w =>
      (match files w !! name with
       | Some f => Ok (content f)
       | None => Err ("open " +:+ name +:+ ": no such file or directory")
       end, w)
  | os_WriteFile name data perm => fun w => (None, WriteFile name data perm w)
  | os_Create name => fun w => (None, WriteFile name "" (6 * 64 + 6 * 8 + 6) w)
  | file_Write name chunk => fun w => (tt, append name chunk w)
  | os_Stat name => fun w =>
      (match files w !! name with Some _ => StatOk | None => StatNotExist end, w)
  | http_Do _ => fun w => (TransportError "network is unreachable", w)
  | cmd_Run _ | cmd_Start _ | socks5_New | socks5_ListenAndServe _ => fun w => (None, w)
  | go_sched => fun w => (false, w)
  | file_Close _ | cmd_Wait _ | log_Print _ | ctx_cancel | signal_Wait | socks5_Serve _ =>
      fun w => (tt, w)
  end.

(** A directory whose credentials file is there already, readable by the
    group and by the others (mode [0644]), with the usual umask [022]. *)
Definition shared : World :=
  {| files := {[ "./credentials.json" := {| mode := 6 * 64 + 4 * 8 + 4; content := "{}" |} ]};
     umask := 2 * 8 + 2 |}.
End Disk.

(** ** The shape of an ingress configuration, in the words of the specification *)

Module Spec.
(** The tunnel identity line. *)
Definition tunnel_line (tunnelID : string) : string := "tunnel: " +:+ tunnelID +:+ nl.
(** The credentials-file path line. *)
Definition credentials_line (credentialsPath : string) : string :=
  "credentials-file: " +:+ credentialsPath +:+ nl.
(** The ingress header. *)
Definition ingress_header : string := "ingress:" +:+ nl.
(** One hostname/service mapping block. *)
Definition mapping_block (hostname service : string) : list string :=
  [ "  - hostname: " +:+ hostname +:+ nl; "    service: " +:+ service +:+ nl ].
(** The fallback line. *)
Definition fallback_line (service : string) : string := "  - service: " +:+ service +:+ nl.
(** The whole configuration: the three leading lines, the given blocks in
    order, one fallback line. *)
Definition ingress_config (tunnelID credentialsPath : string)
    (blocks : list (list string)) (fallback : string) : list string :=
  [tunnel_line tunnelID; credentials_line credentialsPath; ingress_header]
    ++ concat blocks ++ [fallback_line fallback].
(** A written chunk is a fallback line when it starts like one. *)
Definition is_fallback_line (chunk : string) : bool := HasPrefix chunk "  - service: ".
(** The output path of the configuration of a tunnel. *)
Definition config_path (tunnelID : string) : string := "./" +:+ tunnelID +:+ "-config.yml".

(** An authenticated call of the DNS API. *)
Definition api_request (method url token payload : string) : Request :=
  {| Method := method; URL := url; Authorization := "Bearer " +:+ token;
     ContentType := "application/json"; Payload := payload |}.

(** The lookup of the records of a zone by exact hostname. *)
Definition lookup_request (zoneID hostname token : string) : Request :=
  api_request "GET"
    ("https://api.cloudflare.com/client/v4/zones/" +:+ zoneID +:+ "/dns_records?name="
       +:+ hostname)
    token "".

(** The CNAME record that binds a hostname to a tunnel. *)
Definition cname_record (hostname tunnelID : string) : DNSRecord :=
  {| ID := ""; Type_ := "CNAME"; Name := hostname;
     Value := tunnelID +:+ ".cfargotunnel.com" |}.

(** The create call for that record. *)
Definition create_request `{EncodingJson} (zoneID hostname tunnelID token : string)
    : Request :=
  api_request "POST"
    ("https://api.cloudflare.com/client/v4/zones/" +:+ zoneID +:+ "/dns_records")
    token (Marshal_DNSRecord (cname_record hostname tunnelID)).

(** The create calls among the requests of a trace. *)
Definition create_calls (t : list Event) : list Request :=
  List.filter (fun r => String.eqb (Method r) "POST") (http_requests t).

(** The sub-process calls that log in or create a tunnel. *)
Definition is_provisioning (argv : list string) : bool :=
  match argv with
  | [_; _; verb] => String.eqb verb "login"
  | [_; _; flag; _; verb; _] => String.eqb flag "--credentials-file" && String.eqb verb "create"
  | _ => false
  end.
End Spec.

(** A program is safe for [Q] when, whatever the environment answers, it
    never panics and every value it returns satisfies [Q]. *)
Inductive Safe {A : Type} (Q : A -> Prop) : Prog A -> Prop :=
| Safe_Ret a : Q a -> Safe Q (Ret a)
| Safe_Fatal m : Safe Q (Fatal m)
| Safe_Vis e k : (forall r, Safe Q (k r)) -> Safe Q (Vis e k).

(** No panic can be reached in a program. *)
Definition NoPanic {A : Type} (p : Prog A) : Prop := Safe (fun _ => True) p.

(** ** Reasoning on runs *)

(** [wp h p w t0 R]: running [p] in the environment [h] from the state [w],
    after the calls [t0] were made, ends in a trace, a state and an outcome
    that satisfy [R]. *)
Definition wp {W A : Type} (h : Handler W) (p : Prog A) (w : W) (t0 : list Event)
    (R : list Event -> W -> Outcome A -> Prop) : Prop :=
  let r := run h p w in R (t0 ++ trace r) (world r) (outcome r).

(** [Does P Q p]: whatever the environment answers, [p] never panics, every
    call it makes satisfies [P] and every value it returns satisfies [Q]. *)
Inductive Does {A : Type} (P : Event -> Prop) (Q : A -> Prop) : Prog A -> Prop :=
| Does_Ret a : Q a -> Does P Q (Ret a)
| Does_Fatal m : Does P Q (Fatal m)
| Does_Vis e k : P e -> (forall r, Does P Q (k r)) -> Does P Q (Vis e k).

(** ** The calls of a run, by kind *)

Module Calls.
(** The argument vectors of the uses of [cloudflared]. *)
Definition login : list string := ["cloudflared"; "tunnel"; "login"].
Definition create (credentialsPath tunnelName : string) : list string :=
  ["cloudflared"; "tunnel"; "--credentials-file"; credentialsPath; "create"; tunnelName].
Definition logout : list string := ["cloudflared"; "tunnel"; "logout"].
Definition tunnel_run (configPath : string) : list string :=
  ["cloudflared"; "--config"; configPath; "tunnel"; "run"].
Definition route_dns (tunnelName domain : string) : list string :=
  ["cloudflared"; "tunnel"; "route"; "dns"; tunnelName; domain].

(** The ingress routes of a command line of [part_001], by protocol: the
    port over HTTP, the port over TCP, or the port and the SOCKS5 relay over
    TCP under their two hostnames; none for another protocol. *)
Definition routes_for (f : Part_001.Flags) : list Route :=
  let to (scheme : string) (p : Z) := scheme +:+ "://localhost:" +:+ itoa p in
  if String.eqb (Part_001.protocol f) "http" then
    [ {| Hostname := Part_001.domain f; Service := to "http" (Part_001.port f) |} ]
  else if String.eqb (Part_001.protocol f) "tcp" then
    [ {| Hostname := Part_001.domain f; Service := to "tcp" (Part_001.port f) |} ]
  else if String.eqb (Part_001.protocol f) "all" then
    [ {| Hostname := Part_001.domain f; Service := to "tcp" (Part_001.port f) |};
      {| Hostname := Part_001.proxy_domain f; Service := to "tcp" (Part_001.socks5_port f) |} ]
  else [].

(** The fallback service of a command line of [part_001], by protocol. *)
Definition fallback_for (f : Part_001.Flags) : string :=
  if String.eqb (Part_001.protocol f) "http" then "http_status:404" else "tcp://localhost:0".

(** A call that starts a sub-process in the background. *)
Definition is_start (e : Event) : bool :=
  match e with cmd_Start _ => true | _ => false end.

(** A call that writes to an open file. *)
Definition is_write (e : Event) : bool :=
  match e with file_Write _ _ => true | _ => false end.

(** A call of the steps that come after the routes are built: the
    configuration file, the relay, the daemon and the signal. *)
Definition is_launch (e : Event) : bool :=
  match e with
  | os_Create _ | file_Write _ _ | file_Close _ | cmd_Start _ | cmd_Wait _
  | socks5_New | socks5_Serve _ | socks5_ListenAndServe _ | go_sched | signal_Wait => true
  | _ => false
  end.

(** A call that neither starts a sub-process nor writes to a file. *)
Definition idle (e : Event) : Prop := is_start e = false /\ is_write e = false.

Section Allowed.
Context `{EncodingJson}.

(** A request to the DNS API about the hostname [host]: the lookup of its
    records, or the create call of its CNAME record. *)
Definition dns_request (host : string) (r : Request) : Prop :=
  exists zone token,
    r = Spec.lookup_request zone host token \/
    exists tunnelID, r = Spec.create_request zone host tunnelID token.

(** What a run of [part_001] may call, for the command line [f]. *)
Definition allowed_part_001 (f : Part_001.Flags) (e : Event) : Prop :=
  match e with
  | os_ReadFile p => p = Part_001.apiKeys f \/ p = Part_001.credentials f
  | os_WriteFile p _ perm => p = Part_001.credentials f /\ perm = perm_0600
  | os_Create p | file_Write p _ | file_Close p | os_Stat p =>
      exists tunnelID, p = Spec.config_path tunnelID
  | cmd_Run argv =>
      argv = login \/ argv = create (Part_001.credentials f) (Part_001.tunnel f) \/ argv = logout
  | cmd_Start argv | cmd_Wait argv =>
      exists tunnelID, argv = tunnel_run (Spec.config_path tunnelID)
  | http_Do r => dns_request (Part_001.domain f) r \/ dns_request (Part_001.proxy_domain f) r
  | socks5_New | go_sched => Part_001.protocol f = "all"
  | socks5_Serve addr | socks5_ListenAndServe addr =>
      Part_001.protocol f = "all" /\ addr = "127.0.0.1:" +:+ itoa (Part_001.socks5_port f)
  | log_Print _ | ctx_cancel | signal_Wait => True
  end.

(** What a run of [part_001] may call when it reuses the previous
    configuration. *)
Definition reused_part_001 (f : Part_001.Flags) (e : Event) : Prop :=
  match e with
  | os_ReadFile p => p = Part_001.credentials f
  | os_Stat p => exists tunnelID, p = Spec.config_path tunnelID
  | cmd_Start argv | cmd_Wait argv =>
      exists tunnelID, argv = tunnel_run (Spec.config_path tunnelID)
  | cmd_Run argv => argv = logout
  | log_Print _ | ctx_cancel | signal_Wait => True
  | _ => False
  end.

(** What a run of [main.go] may call when it reuses the previous
    configuration. *)
Definition reused_main_go (f : Main_go.Flags) (e : Event) : Prop :=
  match e with
  | os_ReadFile p => p = Main_go.credentials f
  | os_Stat p => exists tunnelID, p = Spec.config_path tunnelID
  | cmd_Start argv | cmd_Wait argv =>
      exists tunnelID, argv = tunnel_run (Spec.config_path tunnelID)
  | log_Print _ | signal_Wait => True
  | _ => False
  end.

(** What a run may call when it reuses the identity [creds]: no login, no
    creation of a tunnel and no write to the credentials file; the
    configuration file, the daemon and the CNAME records are those of the
    tunnel ID of [creds]. *)
Definition reusing (creds : TunnelCredentials) (e : Event) : Prop :=
  match e with
  | os_WriteFile _ _ _ => False
  | cmd_Run argv => argv = logout
  | os_Stat p | os_Create p | file_Write p _ | file_Close p =>
      p = Spec.config_path (TunnelID creds)
  | cmd_Start argv | cmd_Wait argv => argv = tunnel_run (Spec.config_path (TunnelID creds))
  | http_Do r =>
      exists zone host token,
        r = Spec.lookup_request zone host token
        \/ r = Spec.create_request zone host (TunnelID creds) token
  | _ => True
  end.

(** The same for [part_000], whose DNS record is a [cloudflared] command
    on the name of the tunnel; no file is read any more. *)
Definition reusing_part_000 (f : Part_000.Flags) (creds : TunnelCredentials) (e : Event)
    : Prop :=
  match e with
  | cmd_Run argv => argv = route_dns (Part_000.tunnel f) (Part_000.domain f)
  | os_Create p | file_Write p _ | file_Close p => p = Spec.config_path (TunnelID creds)
  | cmd_Start argv | cmd_Wait argv => argv = tunnel_run (Spec.config_path (TunnelID creds))
  | log_Print _ | ctx_cancel | signal_Wait => True
  | _ => False
  end.

(** What a run of [main.go] may call. *)
Definition allowed_main_go (f : Main_go.Flags) (e : Event) : Prop :=
  match e with
  | os_ReadFile p => p = Main_go.apiKeys f \/ p = Main_go.credentials f
  | os_WriteFile p _ perm => p = Main_go.credentials f /\ perm = perm_0600
  | os_Create p | file_Write p _ | file_Close p | os_Stat p =>
      exists tunnelID, p = Spec.config_path tunnelID
  | cmd_Run argv =>
      argv = login \/ argv = create (Main_go.credentials f) (Main_go.tunnel f)
  | cmd_Start argv | cmd_Wait argv =>
      exists tunnelID, argv = tunnel_run (Spec.config_path tunnelID)
  | http_Do r => dns_request (Main_go.domain f) r
  | socks5_New | socks5_Serve _ | socks5_ListenAndServe _ | go_sched => False
  | log_Print _ | ctx_cancel | signal_Wait => True
  end.
End Allowed.

(** What a run of [part_000] may call. *)
Definition allowed_part_000 (f : Part_000.Flags) (e : Event) : Prop :=
  match e with
  | os_ReadFile p => p = Part_000.credentials f
  | os_WriteFile p _ perm => p = Part_000.credentials f /\ perm = perm_0600
  | os_Create p | file_Write p _ | file_Close p =>
      exists tunnelID, p = Spec.config_path tunnelID
  | cmd_Run argv =>
      argv = login \/ argv = create (Part_000.credentials f) (Part_000.tunnel f) \/
      argv = route_dns (Part_000.tunnel f) (Part_000.domain f)
  | cmd_Start argv | cmd_Wait argv =>
      exists tunnelID, argv = tunnel_run (Spec.config_path tunnelID)
  | os_Stat _ | http_Do _ | socks5_New | socks5_Serve _ | socks5_ListenAndServe _
  | go_sched => False
  | log_Print _ | ctx_cancel | signal_Wait => True
  end.
End Calls.

(** ** The main thread of a process *)

(** What a goroutine adds to a trace: the turns of the scheduler, the return
    of [ListenAndServe], and log lines (which the main thread writes too). *)
Definition noise (e : Event) : bool :=
  match e with
  | log_Print _ | go_sched | socks5_ListenAndServe _ => true
  | _ => false
  end.

(** The calls of a trace that only the main thread makes. *)
Definition steps (t : list Event) : list Event :=
  List.filter (fun e => negb (noise e)) t.

(** A goroutine that makes only such calls, never panics, and ends the
    process only with a message in [M]. *)
Inductive Goroutine (M : string -> Prop) : Prog unit -> Prop :=
| Goroutine_Ret u : Goroutine M (Ret u)
| Goroutine_Fatal m : M m -> Goroutine M (Fatal m)
| Goroutine_Vis e k :
    noise e = true -> (forall r, Goroutine M (k r)) -> Goroutine M (Vis e k).

Section Beside.
Context {W : Type} (h : Handler W).

(** The calls the goroutine [g] makes before the next call of the main
    thread, as the scheduler of [h] decides from the state [w]: the state
    they lead to and what is left of the goroutine. *)
Fixpoint advance (g : Prog unit) (w : W) : W * Prog unit :=
  match g with
  | Vis eg kg =>
      let '(turn, w1) := h go_sched w in
      if (turn : bool) then let '(r, w2) := h eg w1 in advance (kg r) w2
      else (w1, g)
  | _ => (w, Ret tt)
  end.

(** The environment as the main thread alone meets it: [h] with the
    goroutine folded into the state.  The second component of a state is the
    goroutine that runs, if one was started. *)
Definition beside (spawn : Event -> option (Prog unit))
    : Handler (W * option (Prog unit)) :=
  fun e s =>
    match snd s with
    | None => let '(r, w1) := h e (fst s) in (r, (w1, spawn e))
    | Some g =>
        let '(w1, g1) := advance g (fst s) in
        let '(r, w2) := h e w1 in
        (r, (w2, Some g1))
    end.

(** How the run [r] of a process compares with the run [r'] of its main
    thread alone in the environment [beside]: the same outcome and the same
    steps, or the goroutine ended the process, with a message in [M], after
    some of these steps. *)
Definition simulated (M : string -> Prop) {A : Type} (r : Run A W)
    (r' : Run A (W * option (Prog unit))) : Prop :=
  (outcome r = outcome r' /\ steps (trace r) = steps (trace r'))
  \/ (exists m, outcome r = Exited m /\ M m /\ steps (trace r) `prefix_of` steps (trace r')).
End Beside.

(** The message with which the relay of [part_001] ends the process. *)
Definition relay_error (m : string) : Prop :=
  exists err, m = "SOCKS5 server error: " +:+ err.

(** ** The steps of a run *)

Module Pipeline.
Definition is_logout (argv : list string) : bool :=
  match argv with
  | [_; _; verb] => String.eqb verb "logout"
  | _ => false
  end.

Definition is_route_dns (argv : list string) : bool :=
  match argv with
  | [_; _; verb; object; _; _] => String.eqb verb "route" && String.eqb object "dns"
  | _ => false
  end.

(** The step of the pipeline a call belongs to: 1 the API keys and the
    tunnel identity (their files read and written, the login, the creation of
    the tunnel), 2 the DNS record, 3 the ingress configuration, 4 the SOCKS5
    relay, 5 the start of the daemon, 6 the wait for the signal, 7 the wait
    for the daemon, 8 the logout.  Step 4 is the launch of the relay
    ([socks5.New] and the [go] statement).  Log lines, the cancel function,
    and what happens in the goroutine afterwards (the turns of the scheduler,
    the return of [ListenAndServe]) belong to no step. *)
Definition stage (e : Event) : option nat :=
  match e with
  | os_ReadFile _ | os_WriteFile _ _ _ => Some 1%nat
  | cmd_Run argv =>
      if Spec.is_provisioning argv then Some 1%nat
      else if is_route_dns argv then Some 2%nat
      else if is_logout argv then Some 8%nat
      else None
  | http_Do _ => Some 2%nat
  | os_Stat _ | os_Create _ | file_Write _ _ | file_Close _ => Some 3%nat
  | socks5_New | socks5_Serve _ => Some 4%nat
  | cmd_Start _ => Some 5%nat
  | signal_Wait => Some 6%nat
  | cmd_Wait _ => Some 7%nat
  | log_Print _ | ctx_cancel | socks5_ListenAndServe _ | go_sched => None
  end.

(** A call of step [k], or of no step. *)
Definition in_stage (k : nat) (e : Event) : Prop := stage e = None \/ stage e = Some k.

(** The steps of the calls of [t] never go back, and none is beyond [k]. *)
Definition staged (k : nat) (t : list Event) : Prop :=
  StronglySorted le (omap stage t) /\ Forall (fun a => a <= k)%nat (omap stage t).
End Pipeline.

(** The calls that clean up at the end of a run: the logout and the cancel
    function. *)
Definition is_cleanup (e : Event) : bool :=
  match e with
  | cmd_Run argv => Pipeline.is_logout argv
  | ctx_cancel => true
  | _ => false
  end.

(** A command line of [part_000] for the examples: two ports, the second
    after a space. *)
Definition flags_part_000 : Part_000.Flags :=
  {| Part_000.ports := "3000, 5173"; Part_000.tunnel := "t1"; Part_000.domain := "a.test";
     Part_000.credentials := "./credentials.json" |}.

(** The environment [h] with a fixed answer to [os.Stat]. *)
Definition with_stat {W : Type} (answer : StatResult) (h : Handler W) : Handler W :=
  fun e =>
    match e as e' return W -> Resp e' * W with
    | os_Stat _ => fun w => (answer, w)
    | e' => h e'
    end.

(** A command line of [part_001] without a port, and one of [main.go]. *)
Definition flags_reuse_001 : Part_001.Flags :=
  {| Part_001.port := 0; Part_001.tunnel := ""; Part_001.domain := "";
     Part_001.apiKeys := "./api-keys.json"; Part_001.credentials := "./credentials.json";
     Part_001.protocol := "http"; Part_001.socks5_port := 1080;
     Part_001.proxy_domain := "" |}.

Definition flags_reuse_main_go : Main_go.Flags :=
  {| Main_go.port := 0; Main_go.tunnel := ""; Main_go.domain := "";
     Main_go.apiKeys := "./api-keys.json"; Main_go.credentials := "./credentials.json" |}.

(** A complete command line of [part_001] with a protocol it does not know. *)
Definition flags_udp : Part_001.Flags :=
  {| Part_001.port := 8080; Part_001.tunnel := "t1"; Part_001.domain := "a.test";
     Part_001.apiKeys := "./api-keys.json"; Part_001.credentials := "./credentials.json";
     Part_001.protocol := "udp"; Part_001.socks5_port := 1080;
     Part_001.proxy_domain := "" |}.

(** ** The answers of a run *)

(** A call together with the answer the environment gave. *)
Definition Answered : Type := { e : Event & Resp e }.

Definition got (e : Event) (a : Resp e) : Answered := @existT Event Resp e a.

Definition asked (x : Answered) : Event := projT1 x.

(** The answers of a handler to the calls of a trace, from the world [w] on.
    A run makes its calls in the order of its trace, each in the world the
    call before it left, so replaying the trace of a run from its first world
    gives the answers the run got. *)
Fixpoint replay {W : Type} (h : Handler W) (w : W) (t : list Event) : list Answered :=
  match t with
  | [] => []
  | e :: t' => got e (fst (h e w)) :: replay h (snd (h e w)) t'
  end.

Definition is_log (e : Event) : bool :=
  match e with log_Print _ => true | _ => false end.

Definition unlogged (l : list Answered) : list Answered :=
  List.filter (fun x => negb (is_log (asked x))) l.

(** The calls of a run other than those to the logger, with their answers. *)
Definition answers {A W : Type} (h : Handler W) (w : W) (r : Run A W) : list Answered :=
  unlogged (replay h w (trace r)).

(** [wp] over the calls with their answers: [l0] holds the calls made so
    far and what they were answered. *)
Definition wpa {W A : Type} (h : Handler W) (p : Prog A) (w : W) (l0 : list Answered)
    (R : list Answered -> W -> Outcome A -> Prop) : Prop :=
  let r := run h p w in R (l0 ++ replay h w (trace r)) (world r) (outcome r).

Section Resolution.
Context `{EncodingJson}.

(** The answer to the read of a credentials file from which no identity
    comes: the read fails, or the bytes do not decode. *)
Definition fails_to_load (a : result string) : Prop :=
  match a with
  | Err _ => True
  | Ok data => exists err, Unmarshal_TunnelCredentials data = Err err
  end.

(** How the credentials of a run are resolved, as calls and answers: the
    file loads and that is all; or the load fails and the login is made, the
    tunnel is created with the credentials file as its target, the file that
    [cloudflared] wrote is loaded and the decoded identity is written back
    with mode [0600], each call only after the one before it succeeded.  The
    index is the identity the run goes on with, or [None] when the step ends
    the process. *)
Inductive resolution (path name : string)
    : list Answered -> option TunnelCredentials -> Prop :=
| resolution_loaded (data : string) (creds : TunnelCredentials) :
    Unmarshal_TunnelCredentials data = Ok creds ->
    resolution path name [got (os_ReadFile path) (Ok data)] (Some creds)
| resolution_login_failed (a : result string) (err : error) :
    fails_to_load a ->
    resolution path name
      [got (os_ReadFile path) a; got (cmd_Run Calls.login) (Some err)] None
| resolution_create_failed (a : result string) (err : error) :
    fails_to_load a ->
    resolution path name
      [got (os_ReadFile path) a; got (cmd_Run Calls.login) None;
       got (cmd_Run (Calls.create path name)) (Some err)] None
| resolution_reload_failed (a b : result string) :
    fails_to_load a -> fails_to_load b ->
    resolution path name
      [got (os_ReadFile path) a; got (cmd_Run Calls.login) None;
       got (cmd_Run (Calls.create path name)) None; got (os_ReadFile path) b] None
| resolution_save_failed (a : result string) (data : string) (creds : TunnelCredentials)
    (err : error) :
    fails_to_load a -> Unmarshal_TunnelCredentials data = Ok creds ->
    resolution path name
      [got (os_ReadFile path) a; got (cmd_Run Calls.login) None;
       got (cmd_Run (Calls.create path name)) None; got (os_ReadFile path) (Ok data);
       got (os_WriteFile path (MarshalIndent_TunnelCredentials creds) perm_0600) (Some err)]
      None
| resolution_saved (a : result string) (data : string) (creds : TunnelCredentials) :
    fails_to_load a -> Unmarshal_TunnelCredentials data = Ok creds ->
    resolution path name
      [got (os_ReadFile path) a; got (cmd_Run Calls.login) None;
       got (cmd_Run (Calls.create path name)) None; got (os_ReadFile path) (Ok data);
       got (os_WriteFile path (MarshalIndent_TunnelCredentials creds) perm_0600) None]
      (Some creds).

(** The calls [l] of a run that ended with [o] begin with the resolution of
    the credentials; when that ends the process nothing follows, and
    otherwise every later call satisfies [later] of the resolved identity. *)
Definition resolves_then (path name : string) (later : TunnelCredentials -> Event -> Prop)
    (l : list Answered) (o : Outcome unit) : Prop :=
  exists (step rest : list Answered) (identity : option TunnelCredentials),
    l = step ++ rest /\
    resolution path name step identity /\
    match identity with
    | Some creds => Forall (fun x => later creds (asked x)) rest
    | None => rest = [] /\ exists m, o = Exited m
    end.
End Resolution.

(** ** The requests of a run *)

Definition is_request (e : Event) : bool :=
  match e with http_Do _ => true | _ => false end.

(** A call that is neither a request nor the start of the daemon. *)
Definition offline (e : Event) : Prop :=
  is_request e = false /\ Calls.is_start e = false.

Section Requests.
Context `{EncodingJson}.

(** The requests that ensure the record of [host]: the lookup alone, or the
    lookup and the create call. *)
Definition ensured (keys : APIKeys) (creds : TunnelCredentials) (host : string)
    (l : list Request) : Prop :=
  l = [Spec.lookup_request (ZoneID keys) host (ApiToken keys)]
  \/ l = [Spec.lookup_request (ZoneID keys) host (ApiToken keys);
          Spec.create_request (ZoneID keys) host (TunnelID creds) (ApiToken keys)].

(** The requests of a run of [part_001] that gets past its DNS steps: those
    for the domain and, with the protocol [all], those for the proxy domain
    after them. *)
Definition ensured_part_001 (f : Part_001.Flags) (keys : APIKeys)
    (creds : TunnelCredentials) (l : list Request) : Prop :=
  exists l1,
    ensured keys creds (Part_001.domain f) l1
    /\ if String.eqb (Part_001.protocol f) "all"
       then exists l2, ensured keys creds (Part_001.proxy_domain f) l2 /\ l = l1 ++ l2
       else l = l1.

(** The requests of a run are the first ones of such a list, and all of it
    when the run starts the daemon. *)
Definition requests_in_order (complete : list Request -> Prop) (t : list Event) : Prop :=
  exists full,
    complete full
    /\ http_requests t `prefix_of` full
    /\ (forall argv, In (cmd_Start argv) t -> http_requests t = full).
End Requests.

(** A complete command line of [part_001] with the protocol [all]. *)
Definition flags_all : Part_001.Flags :=
  {| Part_001.port := 22; Part_001.tunnel := "t1"; Part_001.domain := "a.test";
     Part_001.apiKeys := "./api-keys.json"; Part_001.credentials := "./credentials.json";
     Part_001.protocol := "all"; Part_001.socks5_port := 1080;
     Part_001.proxy_domain := "p.test" |}.


(** * The embedding at work

    A first run in an empty working directory: login, tunnel creation, the
    credentials written back, the DNS record created, and the configuration
    file of the repository's README. *)

Example first_run_commands :
  commands (trace (run Fake.env (Part_001.main (H := GoJson.encoding_json) Fake.flags_001)
                     Fake.fresh))
  = [ ["cloudflared"; "tunnel"; "login"];
      ["cloudflared"; "tunnel"; "--credentials-file"; "./credentials.json"; "create"; "t1"];
      ["cloudflared"; "--config"; "./abc123-config.yml"; "tunnel"; "run"];
      ["cloudflared"; "tunnel"; "logout"] ].
Proof. vm_compute. reflexivity. Qed.

Example first_run_config :
  Fake.files (world (run Fake.env (Part_001.main (H := GoJson.encoding_json) Fake.flags_001)
                       Fake.fresh)) !! "./abc123-config.yml"
  = Some ("tunnel: abc123" +:+ nl +:+ "credentials-file: ./credentials.json" +:+ nl
          +:+ "ingress:" +:+ nl +:+ "  - hostname: a.test" +:+ nl
          +:+ "    service: http://localhost:8080" +:+ nl
          +:+ "  - service: http_status:404" +:+ nl).
Proof. vm_compute. reflexivity. Qed.

(** The decoder stores a key under a field whatever its case, keeps a field
    on [null], and refuses a value of another type. *)
Example decode_keys_case_insensitive :
  Unmarshal_APIKeys (H := GoJson.encoding_json) (json_text "{'apitoken':'t','ZONEID':'z'}")
  = Ok {| ApiToken := "t"; ZoneID := "z" |}.
Proof. vm_compute. reflexivity. Qed.

Example decode_null_keeps_field :
  Unmarshal_APIKeys (H := GoJson.encoding_json) (json_text "{'ApiToken':null,'ZoneId':'z'}")
  = Ok {| ApiToken := ""; ZoneID := "z" |}.
Proof. vm_compute. reflexivity. Qed.

Example decode_number_is_an_error :
  Unmarshal_APIKeys (H := GoJson.encoding_json) (json_text "{'ApiToken':5,'ZoneId':'z'}")
  = Err "json: cannot unmarshal value into Go value".
Proof. vm_compute. reflexivity. Qed.

Example decode_result_set :
  Unmarshal_DNSQueryResult (H := GoJson.encoding_json)
    (json_text "{'success':true,'errors':[],'result':[{'id':'r1','type':'CNAME','name':'a.test','content':'abc123.cfargotunnel.com','ttl':1}]}")
  = Ok {| Success := true;
          Result := [ {| ID := "r1"; Type_ := "CNAME"; Name := "a.test";
                         Value := "abc123.cfargotunnel.com" |} ] |}.
Proof. vm_compute. reflexivity. Qed.

(** * Properties *)

(** ** Running composed programs *)

Section Run.
Context {W : Type} (h : Handler W).

Lemma run_bind {A B : Type} (p : Prog A) (f : A -> Prog B) (w : W) :
  run h (bind p f) w =
  match outcome (run h p w) with
  | Returned a =>
      let r2 := run h (f a) (world (run h p w)) in
      {| outcome := outcome r2; world := world r2;
         trace := trace (run h p w) ++ trace r2 |}
  | Exited m =>
      {| outcome := Exited m; world := world (run h p w); trace := trace (run h p w) |}
  | Panicked m =>
      {| outcome := Panicked m; world := world (run h p w); trace := trace (run h p w) |}
  end.
Proof.
  revert w. induction p as [a | e k IH | m | m]; intros w; simpl.
  - destruct (run h (f a) w); reflexivity.
  - destruct (h e w) as [r w']. rewrite IH. simpl.
    destruct (outcome (run h (k r) w')); reflexivity.
  - reflexivity.
  - reflexivity.
Qed.

Lemma run_defer {A : Type} (d : Prog unit) (p : Prog A) (w : W) :
  run h (defer d p) w =
  let r1 := run h p w in
  match outcome r1 with
  | Returned a =>
      let r2 := run h d (world r1) in
      {| outcome := match outcome r2 with
                    | Returned _ => Returned a
                    | Exited m => Exited m
                    | Panicked m => Panicked m
                    end;
         world := world r2; trace := trace r1 ++ trace r2 |}
  | Exited m => r1
  | Panicked m =>
      let r2 := run h d (world r1) in
      {| outcome := match outcome r2 with
                    | Returned _ => Panicked m
                    | Exited m' => Exited m'
                    | Panicked m' => Panicked m'
                    end;
         world := world r2; trace := trace r1 ++ trace r2 |}
  end.
Proof.
  revert w. induction p as [a | e k IH | m | m]; intros w; simpl.
  - rewrite run_bind. destruct (outcome (run h d w)); simpl; rewrite ?app_nil_r; reflexivity.
  - destruct (h e w) as [r w']. rewrite IH. simpl.
    destruct (run h (k r) w') as [[a | m | m] w2 t]; reflexivity.
  - reflexivity.
  - rewrite run_bind. destruct (outcome (run h d w)); simpl; rewrite ?app_nil_r; reflexivity.
Qed.

Lemma run_call_bind {A : Type} (e : Event) (k : Resp e -> Prog A) (w : W) :
  run h (bind (call e) k) w =
  let '(r, w') := h e w in
  let rest := run h (k r) w' in
  {| outcome := outcome rest; world := world rest; trace := e :: trace rest |}.
Proof. reflexivity. Qed.

(** A loop that writes two chunks per element, as the loops of
    [writeConfigFile] do: it always completes and writes the chunks of the
    elements in order. *)
Lemma run_block_loop {T : Type} (path : string) (f g : T -> string) (l : list T) (w : W) :
  let r := run h (for_range l (fun x =>
             call (file_Write path (f x)) ;;; call (file_Write path (g x)))) w in
  outcome r = Returned tt /\
  trace r = map (file_Write path) (concat (map (fun x => [f x; g x]) l)).
Proof.
  revert w. induction l as [| x l IH]; intros w; simpl.
  - split; reflexivity.
  - destruct (h _ w) as [[] w1]. destruct (h _ w1) as [[] w2]. simpl.
    destruct (IH w2) as [Ho Ht]. simpl in Ho, Ht. split.
    + exact Ho.
    + rewrite Ht. reflexivity.
Qed.

Lemma AllCalls_trace {A : Type} (P : Event -> Prop) (p : Prog A) (w : W) :
  AllCalls P p -> Forall P (trace (run h p w)).
Proof.
  intros Hp. revert w. induction Hp as [a | m | m | e k He Hk IH]; intros w; simpl.
  - constructor.
  - constructor.
  - constructor.
  - destruct (h e w) as [r w']. simpl. constructor; [exact He | apply IH].
Qed.

Lemma Safe_run {A : Type} (Q : A -> Prop) (p : Prog A) (w : W) :
  Safe Q p ->
  match outcome (run h p w) with
  | Returned a => Q a
  | Exited _ => True
  | Panicked _ => False
  end.
Proof.
  intros Hp. revert w. induction Hp as [a Ha | m | e k Hk IH]; intros w; simpl.
  - exact Ha.
  - exact I.
  - destruct (h e w) as [r w']. simpl. apply IH.
Qed.
End Run.

(** One call of the program under [run]: name the environment's answer, or
    use the hypothesis that gives it. *)
Ltac name_answer h e w :=
  first [ match goal with Hc : h e w = _ |- _ => rewrite Hc end
        | let r := fresh "r" in
          let w' := fresh "w" in
          destruct (h e w) as [r w'];
          try (let T := type of r in
               let T' := eval cbv in T in
               match T' with unit => destruct r end) ];
  cbn [outcome world trace].

Ltac run_call h :=
  match goal with
  | |- context [run h (bind (call ?e) ?k) ?w] =>
      change (run h (bind (call e) k) w)
        with (let '(r, w') := h e w in
              let rest := run h (k r) w' in
              {| outcome := outcome rest; world := world rest; trace := e :: trace rest |});
      name_answer h e w
  end.

Ltac run_last h :=
  match goal with
  | |- context [run h (call ?e) ?w] =>
      change (run h (call e) w)
        with (let '(r, w') := h e w in
              {| outcome := Returned r; world := w'; trace := [e] |});
      name_answer h e w
  end.

(** ** Calls and safety of composed programs *)

Lemma AllCalls_bind {A B : Type} (P : Event -> Prop) (p : Prog A) (f : A -> Prog B) :
  AllCalls P p -> (forall a, AllCalls P (f a)) -> AllCalls P (bind p f).
Proof.
  intros Hp Hf. induction Hp; simpl; try constructor; auto.
Qed.

Lemma AllCalls_defer {A : Type} (P : Event -> Prop) (d : Prog unit) (p : Prog A) :
  AllCalls P d -> AllCalls P p -> AllCalls P (defer d p).
Proof.
  intros Hd Hp. induction Hp; simpl.
  - apply AllCalls_bind; [exact Hd | intros; constructor].
  - constructor.
  - apply AllCalls_bind; [exact Hd | intros; constructor].
  - constructor; auto.
Qed.

Lemma AllCalls_for_range {T : Type} (P : Event -> Prop) (l : list T) (body : T -> Prog unit) :
  (forall x, AllCalls P (body x)) -> AllCalls P (for_range l body).
Proof.
  intros Hb. induction l as [| x l IH]; simpl.
  - constructor.
  - apply AllCalls_bind; [apply Hb | intros; exact IH].
Qed.

Lemma Safe_bind {A B : Type} (Q : A -> Prop) (R : B -> Prop) (p : Prog A) (f : A -> Prog B) :
  Safe Q p -> (forall a, Q a -> Safe R (f a)) -> Safe R (bind p f).
Proof.
  intros Hp Hf. induction Hp as [a Ha | m | e k Hk IH]; simpl.
  - apply Hf. exact Ha.
  - constructor.
  - constructor. exact IH.
Qed.

Lemma Safe_defer {A : Type} (Q : A -> Prop) (d : Prog unit) (p : Prog A) :
  Safe (fun _ => True) d -> Safe Q p -> Safe Q (defer d p).
Proof.
  intros Hd Hp. induction Hp as [a Ha | m | e k Hk IH]; simpl.
  - apply (Safe_bind (fun _ => True)); [exact Hd | intros; constructor; exact Ha].
  - constructor.
  - constructor. exact IH.
Qed.

Lemma Safe_for_range {T : Type} (l : list T) (body : T -> Prog unit) :
  (forall x, Safe (fun _ => True) (body x)) -> Safe (fun _ => True) (for_range l body).
Proof.
  intros Hb. induction l as [| x l IH]; simpl.
  - constructor. exact I.
  - apply (Safe_bind (fun _ => True)); [apply Hb | intros; exact IH].
Qed.

(** ** Goroutines *)

Lemma AllCalls_par {A : Type} (P : Event -> Prop) (p : Prog A) (g : Prog unit) :
  P go_sched -> AllCalls P p -> AllCalls P g -> AllCalls P (par p g).
Proof.
  intros Hs Hp. revert g.
  induction Hp as [a | m | m | e k He Hk IH]; intros g Hg;
    induction Hg as [u | mg | mg | eg kg Heg Hkg IHg]; simpl;
    try (constructor; fail); try (constructor; assumption).
  all: constructor; [exact Hs |]; intros [|];
    [ constructor; [exact Heg | exact IHg] | ].
  1-3: constructor.
  constructor; [exact He |]. intros r. apply IH. constructor; assumption.
Qed.

Lemma AllCalls_go {A : Type} (P : Event -> Prop) (spawn : Event -> option (Prog unit))
    (p : Prog A) :
  (forall e g, spawn e = Some g -> P e -> P go_sched /\ AllCalls P g) ->
  AllCalls P p -> AllCalls P (go spawn p).
Proof.
  intros Hg Hp. induction Hp as [a | m | m | e k He Hk IH]; simpl; try (constructor; fail).
  destruct (spawn e) as [g |] eqn:Hse.
  - destruct (Hg e g Hse He) as [Hs Hag].
    constructor; [exact He |]. intros r. apply AllCalls_par; auto.
  - constructor; [exact He | exact IH].
Qed.

Lemma Safe_par {A : Type} (Q : A -> Prop) (p : Prog A) (g : Prog unit) :
  Safe Q p -> Safe (fun _ => True) g -> Safe Q (par p g).
Proof.
  intros Hp. revert g.
  induction Hp as [a Ha | m | e k Hk IH]; intros g Hg;
    induction Hg as [u _ | mg | eg kg Hkg IHg]; simpl;
    try (constructor; fail); try (constructor; assumption).
  all: constructor; intros [|]; [ constructor; exact IHg | ].
  - constructor. exact Ha.
  - constructor.
  - constructor. intros r. apply IH. constructor. exact Hkg.
Qed.

Lemma Safe_go {A : Type} (Q : A -> Prop) (spawn : Event -> option (Prog unit)) (p : Prog A) :
  (forall e g, spawn e = Some g -> Safe (fun _ => True) g) ->
  Safe Q p -> Safe Q (go spawn p).
Proof.
  intros Hg Hp. induction Hp as [a Ha | m | e k Hk IH]; simpl; try (constructor; assumption).
  destruct (spawn e) as [g |] eqn:Hse.
  - constructor. intros r. apply Safe_par; [apply Hk | exact (Hg e g Hse)].
  - constructor. exact IH.
Qed.

(** A part of the main thread that starts no goroutine runs as it is. *)
Lemma run_go_bind {W A B : Type} (h : Handler W) (spawn : Event -> option (Prog unit))
    (p : Prog A) (k : A -> Prog B) (w : W) :
  AllCalls (fun e => spawn e = None) p ->
  run h (go spawn (bind p k)) w = run h (bind p (fun a => go spawn (k a))) w.
Proof.
  intros Hp. revert w. induction Hp as [a | m | m | e k' He Hk IH]; intros w; simpl;
    try reflexivity.
  rewrite He. simpl. destruct (h e w) as [r w']. rewrite IH. reflexivity.
Qed.

Lemma run_go_free {W A : Type} (h : Handler W) (spawn : Event -> option (Prog unit))
    (p : Prog A) (w : W) :
  AllCalls (fun e => spawn e = None) p -> run h (go spawn p) w = run h p w.
Proof.
  intros Hp. revert w. induction Hp as [a | m | m | e k' He Hk IH]; intros w; simpl;
    try reflexivity.
  rewrite He. simpl. destruct (h e w) as [r w']. rewrite IH. reflexivity.
Qed.

(** ** Projections of traces *)

Lemma writes_to_app (path : string) (t1 t2 : list Event) :
  writes_to path (t1 ++ t2) = writes_to path t1 ++ writes_to path t2.
Proof. unfold writes_to. apply omap_app. Qed.

Lemma writes_to_map (path : string) (chunks : list string) :
  writes_to path (map (file_Write path) chunks) = chunks.
Proof.
  unfold writes_to. induction chunks as [| c chunks IH]; simpl.
  - reflexivity.
  - rewrite String.eqb_refl. simpl. f_equal. exact IH.
Qed.

Lemma writes_to_write (path chunk : string) (t : list Event) :
  writes_to path (file_Write path chunk :: t) = chunk :: writes_to path t.
Proof. unfold writes_to. simpl. rewrite String.eqb_refl. reflexivity. Qed.

Lemma writes_to_other (path : string) (e : Event) (t : list Event) :
  match e with file_Write _ _ => False | _ => True end ->
  writes_to path (e :: t) = writes_to path t.
Proof. destruct e; intros He; try reflexivity. destruct He. Qed.

Lemma writes_to_nil (path : string) : writes_to path [] = [].
Proof. reflexivity. Qed.

(** The chunks written to [path] in a trace given call by call. *)
Ltac simpl_writes :=
  repeat first [ rewrite writes_to_app
               | rewrite writes_to_map
               | rewrite writes_to_write
               | rewrite writes_to_other by exact I
               | rewrite writes_to_nil ].

Lemma http_requests_app (t1 t2 : list Event) :
  http_requests (t1 ++ t2) = http_requests t1 ++ http_requests t2.
Proof. unfold http_requests. apply omap_app. Qed.

(** ** The ingress config writers *)

Section WriteConfigFile.
Context `{EncodingJson} {W : Type} (h : Handler W).

(** What [writeConfigFile] does once the file is created: the calls it
    makes and how it ends, for every list of routes. *)
Lemma run_writeConfigFile (tunnelID credentialsPath : string) (routes : list Route)
    (w w1 : W) :
  let path := Spec.config_path tunnelID in
  h (os_Create path) w = (None, w1) ->
  let r := run h (Part_001.writeConfigFile tunnelID credentialsPath routes) w in
  outcome r = match routes with
              | [] => Panicked "runtime error: index out of range [0] with length 0"
              | _ :: _ => Returned path
              end /\
  trace r =
    os_Create path ::
    map (file_Write path)
      ([Spec.tunnel_line tunnelID; Spec.credentials_line credentialsPath; Spec.ingress_header]
       ++ concat (map (fun r => Spec.mapping_block (Hostname r) (Service r)) routes))
    ++ match routes with
       | [] => [file_Close path]
       | r0 :: _ =>
           [file_Write path (Spec.fallback_line (Part_001.fallback_of r0));
            log_Print ("Config file written to " +:+ path +:+ nl);
            file_Close path]
       end.
Proof.
  intros path Hc r. subst r. unfold Part_001.writeConfigFile.
  fold (Spec.config_path tunnelID). fold path.
  run_call h.
  rewrite run_defer.
  do 3 run_call h.
  rewrite run_bind.
  pose proof (run_block_loop h path
                (fun r => "  - hostname: " +:+ Hostname r +:+ nl)
                (fun r => "    service: " +:+ Service r +:+ nl) routes) as Hl.
  cbn beta zeta in Hl.
  match goal with |- context [run h (for_range _ _) ?w] => destruct (Hl w) as [Ho Ht] end.
  rewrite Ho, Ht. clear Ho Ht Hl. cbn [outcome world trace].
  match goal with |- context [run h _ ?w] => generalize w end. intros wl.
  destruct routes as [| rt routes].
  - cbn [run outcome world trace]. run_last h. split; reflexivity.
  - do 2 run_call h. cbn [run outcome world trace]. run_last h.
    split; [reflexivity |].
    cbn [map app concat]. rewrite !map_app. cbn [map].
    rewrite <- !app_assoc. reflexivity.
Qed.
End WriteConfigFile.

Section OtherWriters.
Context {W : Type} (h : Handler W).

(** The writer of [main.go]: one block for the HTTP port, then the 404
    fallback. *)
Lemma run_writeConfigFile_main_go (tunnelName tunnelID : string) (port : Z)
    (domain credentialsPath : string) (w w1 : W) :
  let path := Spec.config_path tunnelID in
  h (os_Create path) w = (None, w1) ->
  let r := run h (Main_go.writeConfigFile tunnelName tunnelID port domain credentialsPath) w in
  outcome r = Returned path /\
  writes_to path (trace r) =
    Spec.ingress_config tunnelID credentialsPath
      [Spec.mapping_block domain ("http://localhost:" +:+ itoa port)] "http_status:404".
Proof.
  intros path Hc r. subst r. unfold Main_go.writeConfigFile.
  fold (Spec.config_path tunnelID). fold path.
  run_call h. rewrite run_defer. do 7 run_call h.
  cbn [run outcome world trace]. run_last h.
  split; [reflexivity |].
  cbn [app]. simpl_writes. reflexivity.
Qed.

(** The writer of [part_000]: one block per port in order, then the 404
    fallback, for every list of ports. *)
Lemma run_writeConfigFile_part_000 (tunnelName : string) (ports : list Z)
    (domain credentialsPath : string) (w w1 : W) :
  let path := Spec.config_path tunnelName in
  h (os_Create path) w = (None, w1) ->
  let r := run h (Part_000.writeConfigFile tunnelName ports domain credentialsPath) w in
  outcome r = Returned path /\
  writes_to path (trace r) =
    Spec.ingress_config tunnelName credentialsPath
      (map (fun port => Spec.mapping_block domain ("http://localhost:" +:+ itoa port)) ports)
      "http_status:404".
Proof.
  intros path Hc r. subst r. unfold Part_000.writeConfigFile.
  fold (Spec.config_path tunnelName). fold path.
  run_call h. rewrite run_defer. do 3 run_call h. rewrite run_bind.
  pose proof (run_block_loop h path
                (fun _ : Z => "  - hostname: " +:+ domain +:+ nl)
                (fun port => "    service: http://localhost:" +:+ itoa port +:+ nl) ports) as Hl.
  cbn beta zeta in Hl.
  match goal with |- context [run h (for_range _ _) ?w] => destruct (Hl w) as [Ho Ht] end.
  rewrite Ho, Ht. clear Ho Ht Hl. cbn [outcome world trace].
  match goal with |- context [run h _ ?w] => generalize w end. intros wl.
  do 2 run_call h. cbn [run outcome world trace]. run_last h.
  split; [reflexivity |].
  simpl_writes. unfold Spec.ingress_config. cbn [app].
  rewrite app_nil_r. reflexivity.
Qed.
End OtherWriters.

Lemma no_fallback_in_blocks {T : Type} (f g : T -> string) (l : list T) :
  List.filter Spec.is_fallback_line (concat (map (fun x => Spec.mapping_block (f x) (g x)) l)) = [].
Proof.
  induction l as [| x l IH]; [reflexivity |].
  cbn [map concat]. rewrite List.filter_app, IH. reflexivity.
Qed.

Lemma prefix_empty (s : string) : String.prefix "" s = true.
Proof. destruct s; reflexivity. Qed.

Lemma is_fallback_line_fallback (service : string) :
  Spec.is_fallback_line (Spec.fallback_line service) = true.
Proof.
  unfold Spec.is_fallback_line, HasPrefix, Spec.fallback_line. simpl. apply prefix_empty.
Qed.

Lemma one_fallback_line (tunnelID credentialsPath : string) (blocks : list (list string))
    (fallback : string) :
  List.filter Spec.is_fallback_line (concat blocks) = [] ->
  List.filter Spec.is_fallback_line
    (Spec.ingress_config tunnelID credentialsPath blocks fallback)
  = [Spec.fallback_line fallback].
Proof.
  intros Hb. unfold Spec.ingress_config. rewrite !List.filter_app, Hb.
  cbn [List.filter]. rewrite is_fallback_line_fallback. reflexivity.
Qed.

(** ** C1: the fallback rule is chosen from the first route *)

(** C1.  For every non-empty list of routes [r0 :: rest], once the file is
    created, [writeConfigFile] of [part_001] returns and what it has written
    is the header, the blocks of the routes and one fallback line; exactly one
    written chunk is a fallback line, and its service is computed from the
    service of [r0] alone: [http_status:404] when that service starts with
    [http://] or [https://], [tcp://localhost:0] otherwise.  The writer of
    [main.go] has one route, [http://localhost:<port>], and the fallback the
    same rule gives for it. *)
Theorem C1_fallback_chosen_from_first_route {W : Type} (h : Handler W) (w w1 : W)
    (tunnelID credentialsPath : string) (r0 : Route) (rest : list Route) :
  let path := Spec.config_path tunnelID in
  let fallback :=
    if HasPrefix (Service r0) "http://" || HasPrefix (Service r0) "https://"
    then "http_status:404" else "tcp://localhost:0" in
  h (os_Create path) w = (None, w1) ->
  let written :=
    writes_to path
      (trace (run h (Part_001.writeConfigFile tunnelID credentialsPath (r0 :: rest)) w)) in
  written = Spec.ingress_config tunnelID credentialsPath
              (map (fun r => Spec.mapping_block (Hostname r) (Service r)) (r0 :: rest))
              fallback /\
  List.filter Spec.is_fallback_line written = [Spec.fallback_line fallback] /\
  forall (tunnelName domain : string) (port : Z),
    let written' :=
      writes_to path
        (trace (run h (Main_go.writeConfigFile tunnelName tunnelID port domain
                         credentialsPath) w)) in
    HasPrefix ("http://localhost:" +:+ itoa port) "http://" = true /\
    List.filter Spec.is_fallback_line written' = [Spec.fallback_line "http_status:404"].
Proof.
  intros path fallback Hc written.
  assert (Hw : written = Spec.ingress_config tunnelID credentialsPath
              (map (fun r => Spec.mapping_block (Hostname r) (Service r)) (r0 :: rest))
              fallback).
  { subst written.
    destruct (run_writeConfigFile h tunnelID credentialsPath (r0 :: rest) w w1 Hc) as [_ Ht].
    cbn zeta in Ht. fold path in Ht. rewrite Ht. simpl_writes.
    unfold Spec.ingress_config. rewrite <- !app_assoc. reflexivity. }
  split; [exact Hw |]. split.
  - rewrite Hw. apply one_fallback_line. apply no_fallback_in_blocks.
  - intros tunnelName domain port written'. split; [reflexivity |].
    subst written'.
    destruct (run_writeConfigFile_main_go h tunnelName tunnelID port domain credentialsPath
                w w1 Hc) as [_ Ht].
    cbn zeta in Ht. fold path in Ht. rewrite Ht.
    apply one_fallback_line. reflexivity.
Qed.
(** The witness of C1: a TCP route followed by an HTTP route, in the example
    environment.  The fallback is the one for TCP: only the first route
    counts. *)
Lemma C1_witness :
  let tcp := {| Hostname := "a.test"; Service := "tcp://localhost:22" |} in
  let web := {| Hostname := "b.test"; Service := "http://localhost:8080" |} in
  let path := Spec.config_path "abc123" in
  let written :=
    writes_to path
      (trace (run Fake.env (Part_001.writeConfigFile "abc123" "./credentials.json" [tcp; web])
                Fake.fresh)) in
  written = [ "tunnel: abc123" +:+ nl; "credentials-file: ./credentials.json" +:+ nl;
              "ingress:" +:+ nl;
              "  - hostname: a.test" +:+ nl; "    service: tcp://localhost:22" +:+ nl;
              "  - hostname: b.test" +:+ nl; "    service: http://localhost:8080" +:+ nl;
              "  - service: tcp://localhost:0" +:+ nl ] /\
  List.filter Spec.is_fallback_line written = ["  - service: tcp://localhost:0" +:+ nl].
Proof.
  intros tcp web path written.
  assert (Hc : Fake.env (os_Create path) Fake.fresh
               = (None, snd (Fake.env (os_Create path) Fake.fresh)))
    by (vm_compute; reflexivity).
  destruct (C1_fallback_chosen_from_first_route Fake.env Fake.fresh _
              "abc123" "./credentials.json" tcp [web] Hc) as [Hw [Hf _]].
  fold path written in Hw, Hf.
  split.
  - rewrite Hw. reflexivity.
  - rewrite Hf. reflexivity.
Defined.

(** ** C5: the path of the configuration *)

Section C5.
Context {W : Type} (h : Handler W).

Lemma writeConfigFile_creates_first (tunnelID credentialsPath : string)
    (routes : list Route) (w : W) :
  hd_error (trace (run h (Part_001.writeConfigFile tunnelID credentialsPath routes) w))
  = Some (os_Create (Spec.config_path tunnelID)).
Proof.
  unfold Part_001.writeConfigFile. fold (Spec.config_path tunnelID).
  rewrite run_call_bind. destruct (h _ w) as [r w']. reflexivity.
Qed.
End C5.

(** C5, as the code has it.  For every tunnel ID, credentials path and list
    of routes: the file [writeConfigFile] of [part_001] creates is
    [./<tunnelID>-config.yml], whatever the routes are, and it returns no
    other value than that path; once the file is created it does return that
    path when the list of routes is not empty.  The writers of [main.go] and
    [part_000] return that path for every input once the file is created.
    For the tunnel ID [abc123] the path is [./abc123-config.yml]. *)
Theorem C5_config_path_from_tunnel_id {W : Type} (h : Handler W) (w w1 : W)
    (tunnelID credentialsPath : string) (routes : list Route) :
  let path := "./" +:+ tunnelID +:+ "-config.yml" in
  let r := run h (Part_001.writeConfigFile tunnelID credentialsPath routes) w in
  h (os_Create path) w = (None, w1) ->
  hd_error (trace r) = Some (os_Create path) /\
  (forall p, outcome r = Returned p -> p = path) /\
  (routes <> [] -> outcome r = Returned path) /\
  (forall (tunnelName domain : string) (port : Z),
     outcome (run h (Main_go.writeConfigFile tunnelName tunnelID port domain credentialsPath) w)
     = Returned path) /\
  (forall (ports : list Z) (domain : string),
     outcome (run h (Part_000.writeConfigFile tunnelID ports domain credentialsPath) w)
     = Returned path) /\
  Spec.config_path "abc123" = "./abc123-config.yml".
Proof.
  intros path r Hc. subst r.
  destruct (run_writeConfigFile h tunnelID credentialsPath routes w w1 Hc) as [Ho _].
  cbn zeta in Ho. change (Spec.config_path tunnelID) with path in Ho.
  split; [apply writeConfigFile_creates_first |].
  split; [| split; [| split; [| split]]].
  - intros p Hp. rewrite Ho in Hp. destruct routes; [discriminate | congruence].
  - intros Hne. rewrite Ho. destruct routes; [contradiction | reflexivity].
  - intros tunnelName domain port.
    apply (run_writeConfigFile_main_go h tunnelName tunnelID port domain credentialsPath w w1 Hc).
  - intros ports domain.
    apply (run_writeConfigFile_part_000 h tunnelID ports domain credentialsPath w w1 Hc).
  - reflexivity.
Qed.

(** The witness of C5: two different route lists, one path. *)
Lemma C5_witness :
  let path := "./" +:+ "abc123" +:+ "-config.yml" in
  Fake.env (os_Create path) Fake.fresh = (None, snd (Fake.env (os_Create path) Fake.fresh)) /\
  outcome (run Fake.env (Part_001.writeConfigFile "abc123" "./credentials.json"
             [ {| Hostname := "a.test"; Service := "http://localhost:8080" |} ]) Fake.fresh)
  = Returned path /\
  outcome (run Fake.env (Part_001.writeConfigFile "abc123" "./credentials.json"
             [ {| Hostname := "b.test"; Service := "tcp://localhost:22" |};
               {| Hostname := "c.test"; Service := "tcp://localhost:1080" |} ]) Fake.fresh)
  = Returned path.
Proof.
  intros path.
  assert (Hc : Fake.env (os_Create path) Fake.fresh
               = (None, snd (Fake.env (os_Create path) Fake.fresh)))
    by (vm_compute; reflexivity).
  split; [exact Hc |]. split.
  - destruct (C5_config_path_from_tunnel_id Fake.env Fake.fresh _ "abc123" "./credentials.json"
                [ {| Hostname := "a.test"; Service := "http://localhost:8080" |} ] Hc)
      as (_ & _ & Hr & _).
    apply Hr. discriminate.
  - destruct (C5_config_path_from_tunnel_id Fake.env Fake.fresh _ "abc123" "./credentials.json"
                [ {| Hostname := "b.test"; Service := "tcp://localhost:22" |};
                  {| Hostname := "c.test"; Service := "tcp://localhost:1080" |} ] Hc)
      as (_ & _ & Hr & _).
    apply Hr. discriminate.
Defined.

(** The counterexample to C5 as stated: for the empty list of routes the
    writer does not return a path, it panics. *)
Lemma C5_counterexample :
  outcome (run Fake.env (Part_001.writeConfigFile "abc123" "./credentials.json" []) Fake.fresh)
  = Panicked "runtime error: index out of range [0] with length 0".
Proof. vm_compute. reflexivity. Qed.
(** ** C7: the layout of the generated configuration *)

(** C7, as the code has it.  For every non-empty list of routes, once the
    file is created, what [writeConfigFile] of [part_001] writes is, in
    order: the tunnel line, the credentials-file line, the ingress header, the
    hostname/service block of every route in the order of the list, and one
    fallback line; nothing else is written to the file.  The writer of
    [part_000] writes the same layout for every list of ports, the empty one
    included, with one block per port. *)
Theorem C7_config_layout {W : Type} (h : Handler W) (w w1 : W)
    (tunnelID credentialsPath : string) (r0 : Route) (rest : list Route) :
  let path := Spec.config_path tunnelID in
  h (os_Create path) w = (None, w1) ->
  writes_to path
    (trace (run h (Part_001.writeConfigFile tunnelID credentialsPath (r0 :: rest)) w))
  = [Spec.tunnel_line tunnelID; Spec.credentials_line credentialsPath; Spec.ingress_header]
    ++ concat (map (fun r => Spec.mapping_block (Hostname r) (Service r)) (r0 :: rest))
    ++ [Spec.fallback_line (Part_001.fallback_of r0)]
  /\
  forall (ports : list Z) (domain : string),
    writes_to path
      (trace (run h (Part_000.writeConfigFile tunnelID ports domain credentialsPath) w))
    = [Spec.tunnel_line tunnelID; Spec.credentials_line credentialsPath; Spec.ingress_header]
      ++ concat (map (fun port => Spec.mapping_block domain ("http://localhost:" +:+ itoa port))
                   ports)
      ++ [Spec.fallback_line "http_status:404"].
Proof.
  intros path Hc. split.
  - destruct (run_writeConfigFile h tunnelID credentialsPath (r0 :: rest) w w1 Hc) as [_ Ht].
    cbn zeta in Ht. fold path in Ht. rewrite Ht. simpl_writes.
    rewrite <- !app_assoc. reflexivity.
  - intros ports domain.
    destruct (run_writeConfigFile_part_000 h tunnelID ports domain credentialsPath w w1 Hc)
      as [_ Ht].
    exact Ht.
Qed.

(** The witness of C7: two routes in the example environment, and the file
    that results. *)
Lemma C7_witness :
  let path := Spec.config_path "abc123" in
  let routes := [ {| Hostname := "a.test"; Service := "tcp://localhost:22" |};
                  {| Hostname := "p.test"; Service := "tcp://localhost:1080" |} ] in
  let r := run Fake.env (Part_001.writeConfigFile "abc123" "./credentials.json" routes)
             Fake.fresh in
  writes_to path (trace r)
  = [ "tunnel: abc123" +:+ nl; "credentials-file: ./credentials.json" +:+ nl;
      "ingress:" +:+ nl;
      "  - hostname: a.test" +:+ nl; "    service: tcp://localhost:22" +:+ nl;
      "  - hostname: p.test" +:+ nl; "    service: tcp://localhost:1080" +:+ nl;
      "  - service: tcp://localhost:0" +:+ nl ] /\
  Fake.files (world r) !! path = Some (written_text path (trace r)).
Proof.
  intros path routes r.
  assert (Hc : Fake.env (os_Create path) Fake.fresh
               = (None, snd (Fake.env (os_Create path) Fake.fresh)))
    by (vm_compute; reflexivity).
  destruct (C7_config_layout Fake.env Fake.fresh _ "abc123" "./credentials.json"
              {| Hostname := "a.test"; Service := "tcp://localhost:22" |}
              [ {| Hostname := "p.test"; Service := "tcp://localhost:1080" |} ] Hc)
    as [Hw _].
  fold path in Hw. split.
  - subst r routes. rewrite Hw. reflexivity.
  - vm_compute. reflexivity.
Defined.

(** The counterexample to C7 as stated: for the empty list of routes the
    three leading lines are written and no fallback line follows. *)
Lemma C7_counterexample :
  let t := trace (run Fake.env (Part_001.writeConfigFile "abc123" "./credentials.json" [])
                    Fake.fresh) in
  writes_to "./abc123-config.yml" t
  = [ "tunnel: abc123" +:+ nl; "credentials-file: ./credentials.json" +:+ nl;
      "ingress:" +:+ nl ] /\
  List.filter Spec.is_fallback_line (writes_to "./abc123-config.yml" t) = [].
Proof. vm_compute. split; reflexivity. Qed.
(** ** C10: the routes given to the writer are never empty *)

Create HintDb safe.

(** Safety of a program built from calls, sequencing, [defer], loops and
    case distinctions; the functions already shown safe are hints. *)
Ltac safe_step :=
  first
    [ exact I
    | solve [eauto with safe nocore]
    | match goal with
      | |- Safe _ (Ret _) => apply Safe_Ret
      | |- Safe _ (Fatal _) => apply Safe_Fatal
      | |- Safe _ (Vis _ _) => apply Safe_Vis; intros ?
      | |- Safe _ (call _) => unfold call
      | |- Safe _ (defer _ _) => apply Safe_defer
      | |- Safe _ (for_range _ _) => apply Safe_for_range; intros ?
      | |- Safe _ (bind _ _) =>
          first [ eapply Safe_bind; [solve [eauto with safe nocore] | intros ? ?]
                | apply (Safe_bind (fun _ => True)); [| intros ? ?] ]
      | |- Safe _ (match ?x with _ => _ end) => destruct x
      end ].
Ltac safe := cbv beta zeta; repeat (safe_step; cbv beta zeta).

Section SafePart001.
Context `{EncodingJson}.
Import Part_001.

Lemma Safe_loadAPIKeys (p : string) : Safe (fun _ => True) (loadAPIKeys p).
Proof. unfold loadAPIKeys. safe. Qed.

Lemma Safe_loadCredentials (p : string) : Safe (fun _ => True) (loadCredentials p).
Proof. unfold loadCredentials. safe. Qed.

Lemma Safe_saveCredentials (p : string) (c : TunnelCredentials) :
  Safe (fun _ => True) (saveCredentials p c).
Proof. unfold saveCredentials. safe. Qed.

Lemma Safe_authenticateCloudflare : Safe (fun _ => True) authenticateCloudflare.
Proof. unfold authenticateCloudflare. safe. Qed.

Hint Resolve Safe_loadAPIKeys Safe_loadCredentials Safe_saveCredentials
  Safe_authenticateCloudflare : safe.

Lemma Safe_createTunnel (n p : string) : Safe (fun _ => True) (createTunnel n p).
Proof. unfold createTunnel. safe. Qed.

Lemma Safe_cloudflareAPIRequest (m u t p : string) :
  Safe (fun _ => True) (cloudflareAPIRequest m u t p).
Proof. unfold cloudflareAPIRequest. safe. Qed.

Hint Resolve Safe_createTunnel Safe_cloudflareAPIRequest : safe.

Lemma Safe_dnsRecordExists (z d t : string) : Safe (fun _ => True) (dnsRecordExists z d t).
Proof. unfold dnsRecordExists. safe. Qed.

Hint Resolve Safe_dnsRecordExists : safe.

Lemma Safe_ensureDNSRecord (z d i t : string) : Safe (fun _ => True) (ensureDNSRecord z d i t).
Proof. unfold ensureDNSRecord. safe. Qed.

Lemma Safe_startTunnel (p : string) : Safe (fun _ => True) (startTunnel p).
Proof. unfold startTunnel. safe. Qed.

Lemma Safe_logoutCloudflare : Safe (fun _ => True) logoutCloudflare.
Proof. unfold logoutCloudflare. safe. Qed.

Lemma Safe_startSocks5 (p : Z) : Safe (fun _ => True) (startSocks5 p).
Proof. unfold startSocks5. safe. Qed.

Lemma Safe_writeConfigFile (i c : string) (r0 : Route) (rest : list Route) :
  Safe (fun _ => True) (writeConfigFile i c (r0 :: rest)).
Proof. unfold writeConfigFile. safe. Qed.

Hint Resolve Safe_ensureDNSRecord Safe_startTunnel Safe_logoutCloudflare Safe_startSocks5
  : safe.

Lemma Safe_build_routes (f : Flags) (keys : APIKeys) (creds : TunnelCredentials) :
  Safe (fun routes => routes <> []) (build_routes f keys creds).
Proof. unfold build_routes. safe; discriminate. Qed.

Lemma Safe_main_reuse (f : Flags) : Safe (fun _ => True) (main_reuse f).
Proof. unfold main_reuse. safe. Qed.

Lemma Safe_resolve_credentials (f : Flags) : Safe (fun _ => True) (resolve_credentials f).
Proof. unfold resolve_credentials. safe. Qed.

Hint Resolve Safe_main_reuse Safe_resolve_credentials Safe_build_routes : safe.

Lemma Safe_main_thread (f : Flags) : Safe (fun _ => True) (main_thread f).
Proof.
  unfold main_thread. safe.
  match goal with
  | Hne : _ ?routes |- Safe _ (writeConfigFile _ _ ?routes) =>
      cbv beta in Hne; destruct routes; [contradiction |]
  end.
  apply Safe_writeConfigFile.
Qed.

Lemma Safe_relay (addr : string) : Safe (fun _ => True) (relay addr).
Proof. unfold relay. safe. Qed.

Lemma Safe_spawn (e : Event) (g : Prog unit) : spawn e = Some g -> Safe (fun _ => True) g.
Proof. destruct e; intros Hs; try discriminate Hs. injection Hs as <-. apply Safe_relay. Qed.

Lemma Safe_main (f : Flags) : Safe (fun _ => True) (main f).
Proof. unfold main. apply Safe_go; [exact Safe_spawn | apply Safe_main_thread]. Qed.
End SafePart001.

(** C10.  The index [routes[0]] of [writeConfigFile] is not guarded: on the
    empty list, once the file is created, the function panics with an index
    out of range.  On a non-empty list it never panics.  The [switch] of
    [main] that builds the routes returns only non-empty lists, so the one
    call site meets the precondition, and [main] as a whole never panics,
    whatever the command line and the environment. *)
Theorem C10_writer_needs_a_route `{EncodingJson} {W : Type} (h : Handler W) (w w1 : W)
    (tunnelID credentialsPath : string) :
  h (os_Create (Spec.config_path tunnelID)) w = (None, w1) ->
  outcome (run h (Part_001.writeConfigFile tunnelID credentialsPath []) w)
  = Panicked "runtime error: index out of range [0] with length 0" /\
  (forall (r0 : Route) (rest : list Route) (w' : W) (m : string),
     outcome (run h (Part_001.writeConfigFile tunnelID credentialsPath (r0 :: rest)) w')
     <> Panicked m) /\
  (forall (f : Part_001.Flags) (keys : APIKeys) (creds : TunnelCredentials) (w' : W)
          (routes : list Route),
     outcome (run h (Part_001.build_routes f keys creds) w') = Returned routes ->
     routes <> []) /\
  (forall (f : Part_001.Flags) (w' : W) (m : string),
     outcome (run h (Part_001.main f) w') <> Panicked m).
Proof.
  intros Hc. split; [| split; [| split]].
  - apply (run_writeConfigFile h tunnelID credentialsPath [] w w1 Hc).
  - intros r0 rest w' m Hp.
    pose proof (Safe_run h _ _ w' (Safe_writeConfigFile tunnelID credentialsPath r0 rest)) as Hs.
    rewrite Hp in Hs. exact Hs.
  - intros f keys creds w' routes Hr.
    pose proof (Safe_run h _ _ w' (Safe_build_routes f keys creds)) as Hs.
    rewrite Hr in Hs. exact Hs.
  - intros f w' m Hp.
    pose proof (Safe_run h _ _ w' (Safe_main f)) as Hs.
    rewrite Hp in Hs. exact Hs.
Qed.

(** The witness of C10: the empty list in the example environment. *)
Lemma C10_witness :
  Fake.env (os_Create (Spec.config_path "abc123")) Fake.fresh
  = (None, snd (Fake.env (os_Create (Spec.config_path "abc123")) Fake.fresh)) /\
  outcome (run Fake.env (Part_001.writeConfigFile "abc123" "./credentials.json" []) Fake.fresh)
  = Panicked "runtime error: index out of range [0] with length 0".
Proof.
  assert (Hc : Fake.env (os_Create (Spec.config_path "abc123")) Fake.fresh
               = (None, snd (Fake.env (os_Create (Spec.config_path "abc123")) Fake.fresh)))
    by (vm_compute; reflexivity).
  split; [exact Hc |].
  exact (proj1 (C10_writer_needs_a_route (H := GoJson.encoding_json) Fake.env Fake.fresh _
                  "abc123" "./credentials.json" Hc)).
Defined.
(** ** The DNS client *)

Section DNS.
Context `{EncodingJson} {W : Type} (h : Handler W).

(** The existence check of [part_001], by the answer of the environment. *)
Lemma run_dnsRecordExists (zoneID domain apiToken : string) (w : W) :
  let req := Spec.lookup_request zoneID domain apiToken in
  let r := run h (Part_001.dnsRecordExists zoneID domain apiToken) w in
  trace r = [http_Do req] /\ world r = snd (h (http_Do req) w) /\
  outcome r =
    match fst (h (http_Do req) w) with
    | NewRequestError e =>
        Exited ("Failed to query DNS record: " +:+ "failed to create API request: " +:+ e)
    | TransportError e =>
        Exited ("Failed to query DNS record: " +:+ "API request failed: " +:+ e)
    | Responded resp =>
        if 400 <=? StatusCode resp
        then Exited ("Failed to query DNS record: " +:+ "API error: " +:+ Body resp)
        else match Unmarshal_DNSQueryResult (Body resp) with
             | Err e => Exited ("Failed to parse DNS record response: " +:+ e)
             | Ok q => Returned (0 <? length (Result q))%nat
             end
    end.
Proof.
  intros req r. subst r. unfold Part_001.dnsRecordExists, Part_001.cloudflareAPIRequest.
  cbv zeta. fold (Spec.api_request "GET"
    ("https://api.cloudflare.com/client/v4/zones/" +:+ zoneID +:+ "/dns_records?name=" +:+ domain)
    apiToken ""). fold (Spec.lookup_request zoneID domain apiToken). fold req.
  rewrite run_bind. run_call h. cbn [fst snd].
  match goal with x : Resp (http_Do _) |- _ => destruct x as [e | e | resp] end; cbn [run outcome world trace app].
  - repeat split.
  - repeat split.
  - destruct (400 <=? StatusCode resp); cbn [run outcome world trace app].
    + repeat split.
    + destruct (Unmarshal_DNSQueryResult (Body resp)); repeat split.
Qed.

(** The existence check of [main.go], by the answer of the environment. *)
Lemma run_dnsRecordExists_main_go (zoneID domain apiToken : string) (w : W) :
  let req := Spec.lookup_request zoneID domain apiToken in
  let w0 := snd (h (log_Print ("Checking if DNS record exists for " +:+ domain +:+ "..."
                                 +:+ nl)) w) in
  let r := run h (Main_go.dnsRecordExists zoneID domain apiToken) w in
  http_requests (trace r) = [req] /\ world r = snd (h (http_Do req) w0) /\
  outcome r =
    match fst (h (http_Do req) w0) with
    | NewRequestError e => Exited ("Failed to query DNS record: " +:+ e)
    | TransportError e => Exited ("Failed to query DNS record: " +:+ e)
    | Responded resp =>
        if 400 <=? StatusCode resp
        then Exited ("Cloudflare API request failed: " +:+ Body resp +:+ nl)
        else match BodyErr resp with
             | Some e => Exited ("Failed to query DNS record: " +:+ e)
             | None =>
                 match Unmarshal_DNSQueryResult (Body resp) with
                 | Err e => Exited ("Failed to parse DNS record query response: " +:+ e)
                 | Ok q => Returned (0 <? length (Result q))%nat
                 end
             end
    end.
Proof.
  intros req w0 r. subst r w0.
  unfold Main_go.dnsRecordExists, Main_go.cloudflareAPIRequest.
  cbv zeta. fold (Spec.api_request "GET"
    ("https://api.cloudflare.com/client/v4/zones/" +:+ zoneID +:+ "/dns_records?name=" +:+ domain)
    apiToken ""). fold (Spec.lookup_request zoneID domain apiToken). fold req.
  run_call h. cbn [fst snd]. rewrite run_bind. run_call h. cbn [fst snd].
  match goal with x : Resp (http_Do _) |- _ => destruct x as [e | e | resp] end; cbn [run outcome world trace app].
  - repeat split.
  - repeat split.
  - destruct (400 <=? StatusCode resp); cbn [run outcome world trace app].
    + repeat split.
    + destruct (BodyErr resp); cbn [run outcome world trace app]; [repeat split |].
      destruct (Unmarshal_DNSQueryResult (Body resp)); repeat split.
Qed.

(** [ensureDNSRecord] of [part_001], by the result of its existence check. *)
Lemma run_ensureDNSRecord (zoneID domain tunnelID apiToken : string) (w : W) :
  let lookup := Spec.lookup_request zoneID domain apiToken in
  let create := Spec.create_request zoneID domain tunnelID apiToken in
  let r := run h (Part_001.ensureDNSRecord zoneID domain tunnelID apiToken) w in
  match outcome (run h (Part_001.dnsRecordExists zoneID domain apiToken) w) with
  | Returned true => outcome r = Returned tt /\ http_requests (trace r) = [lookup]
  | Returned false =>
      http_requests (trace r) = [lookup; create] /\
      (outcome r = Returned tt \/ exists m, outcome r = Exited m)
  | Exited m => outcome r = Exited m /\ http_requests (trace r) = [lookup]
  | Panicked _ => False
  end.
Proof.
  intros lookup create r. subst r.
  destruct (run_dnsRecordExists zoneID domain apiToken w) as (Ht & _ & _).
  cbv zeta in Ht. fold lookup in Ht.
  pose proof (Safe_run h _ _ w (Safe_dnsRecordExists zoneID domain apiToken)) as Hs.
  unfold Part_001.ensureDNSRecord. rewrite run_bind, Ht.
  destruct (outcome (run h (Part_001.dnsRecordExists zoneID domain apiToken) w))
    as [[|] | m | m]; [| | | exact Hs].
  - match goal with |- context [run h (call ?e) ?w'] => generalize w' end. intros w'.
    run_last h. split; reflexivity.
  - cbv zeta. unfold Part_001.cloudflareAPIRequest.
    fold (Spec.cname_record domain tunnelID).
    fold (Spec.api_request "POST"
      ("https://api.cloudflare.com/client/v4/zones/" +:+ zoneID +:+ "/dns_records")
      apiToken (Marshal_DNSRecord (Spec.cname_record domain tunnelID))).
    fold (Spec.create_request zoneID domain tunnelID apiToken). fold create.
    match goal with |- context [run h _ ?w'] => generalize w' end. intros w'.
    rewrite run_bind. run_call h.
    match goal with x : Resp (http_Do _) |- _ => destruct x as [e | e | resp] end; cbn [run outcome world trace app].
    + split; [reflexivity | right; eexists; reflexivity].
    + split; [reflexivity | right; eexists; reflexivity].
    + destruct (400 <=? StatusCode resp); cbn [run outcome world trace app].
      * split; [reflexivity | right; eexists; reflexivity].
      * run_last h. split; [reflexivity | left; reflexivity].
  - split; reflexivity.
Qed.

Lemma Safe_dnsRecordExists_main_go (z d t : string) :
  Safe (fun _ => True) (Main_go.dnsRecordExists z d t).
Proof. unfold Main_go.dnsRecordExists, Main_go.cloudflareAPIRequest. safe. Qed.

(** [ensureDNSRecord] of [main.go], by the result of its existence check. *)
Lemma run_ensureDNSRecord_main_go (zoneID domain tunnelID apiToken : string) (w : W) :
  let lookup := Spec.lookup_request zoneID domain apiToken in
  let create := Spec.create_request zoneID domain tunnelID apiToken in
  let r := run h (Main_go.ensureDNSRecord zoneID domain tunnelID apiToken) w in
  match outcome (run h (Main_go.dnsRecordExists zoneID domain apiToken) w) with
  | Returned true => outcome r = Returned tt /\ http_requests (trace r) = [lookup]
  | Returned false =>
      http_requests (trace r) = [lookup; create] /\
      (outcome r = Returned tt \/ exists m, outcome r = Exited m)
  | Exited m => outcome r = Exited m /\ http_requests (trace r) = [lookup]
  | Panicked _ => False
  end.
Proof.
  intros lookup create r. subst r.
  destruct (run_dnsRecordExists_main_go zoneID domain apiToken w) as (Ht & _ & _).
  cbv zeta in Ht. fold lookup in Ht.
  pose proof (Safe_run h _ _ w (Safe_dnsRecordExists_main_go zoneID domain apiToken)) as Hs.
  unfold Main_go.ensureDNSRecord. rewrite run_bind.
  destruct (outcome (run h (Main_go.dnsRecordExists zoneID domain apiToken) w))
    as [[|] | m | m]; [| | | exact Hs]; cbn [outcome world trace];
    rewrite ?http_requests_app, ?Ht.
  - match goal with |- context [run h (call ?e) ?w'] => generalize w' end. intros w'.
    run_last h. split; reflexivity.
  - cbv zeta. unfold Main_go.cloudflareAPIRequest.
    fold (Spec.cname_record domain tunnelID).
    fold (Spec.api_request "POST"
      ("https://api.cloudflare.com/client/v4/zones/" +:+ zoneID +:+ "/dns_records")
      apiToken (Marshal_DNSRecord (Spec.cname_record domain tunnelID))).
    fold (Spec.create_request zoneID domain tunnelID apiToken). fold create.
    match goal with |- context [run h _ ?w'] => generalize w' end. intros w'.
    run_call h. rewrite run_bind. run_call h.
    match goal with x : Resp (http_Do _) |- _ => destruct x as [e | e | resp] end;
      cbn [run outcome world trace app].
    + split; [reflexivity | right; eexists; reflexivity].
    + split; [reflexivity | right; eexists; reflexivity].
    + destruct (400 <=? StatusCode resp); cbn [run outcome world trace app].
      * split; [reflexivity | right; eexists; reflexivity].
      * destruct (BodyErr resp); cbn [run outcome world trace app].
        -- split; [reflexivity | right; eexists; reflexivity].
        -- run_last h. split; [reflexivity | left; reflexivity].
  - split; reflexivity.
Qed.
End DNS.

(** ** C6: what the existence check returns *)


(** ** C2: [ensureDNSRecord] is idempotent *)

Section Idempotent.
Context `{EncodingJson} {W : Type} (h : Handler W).
Variables (check : Prog bool) (ensure : Prog unit) (lookup create : Request).
Hypothesis lookup_is_get : String.eqb (Method lookup) "POST" = false.
Hypothesis create_is_post : String.eqb (Method create) "POST" = true.
Hypothesis by_check : forall w : W,
  let r := run h ensure w in
  match outcome (run h check w) with
  | Returned true => outcome r = Returned tt /\ http_requests (trace r) = [lookup]
  | Returned false =>
      http_requests (trace r) = [lookup; create] /\
      (outcome r = Returned tt \/ exists m, outcome r = Exited m)
  | Exited m => outcome r = Exited m /\ http_requests (trace r) = [lookup]
  | Panicked _ => False
  end.

Lemma ensure_requests (w : W) :
  http_requests (trace (run h ensure w)) = [lookup] \/
  http_requests (trace (run h ensure w)) = [lookup; create].
Proof.
  pose proof (by_check w) as Hc. cbv zeta in Hc.
  destruct (outcome (run h check w)) as [[|] | m | m].
  - left. apply Hc.
  - right. apply Hc.
  - left. apply Hc.
  - destruct Hc.
Qed.

Lemma ensure_when_present (w : W) :
  outcome (run h check w) = Returned true ->
  outcome (run h ensure w) = Returned tt /\
  http_requests (trace (run h ensure w)) = [lookup].
Proof. intros Hp. pose proof (by_check w) as Hc. cbv zeta in Hc. rewrite Hp in Hc. exact Hc. Qed.

Lemma ensure_twice (w : W) :
  let first := run h ensure w in
  let second := run h ensure (world first) in
  outcome (run h check (world first)) = Returned true ->
  outcome second = Returned tt /\
  http_requests (trace second) = [lookup] /\
  Spec.create_calls (trace second) = [] /\
  (length (Spec.create_calls (trace first ++ trace second)) <= 1)%nat.
Proof.
  intros first second Hp.
  destruct (ensure_when_present (world first) Hp) as [Ho Ht].
  fold second in Ho, Ht.
  assert (Hs : Spec.create_calls (trace second) = []).
  { unfold Spec.create_calls. rewrite Ht. simpl. rewrite lookup_is_get. reflexivity. }
  split; [exact Ho |]. split; [exact Ht |]. split; [exact Hs |].
  unfold Spec.create_calls in *. rewrite http_requests_app, List.filter_app, Hs, app_nil_r.
  destruct (ensure_requests w) as [Hq | Hq]; fold first in Hq; rewrite Hq; simpl;
    rewrite lookup_is_get; [| rewrite create_is_post]; simpl; lia.
Qed.
End Idempotent.

(** C2.  In every environment [ensureDNSRecord] first makes the existence
    check and then at most one create call, and never another request: the
    requests of a run are the lookup alone, or the lookup followed by the
    create.  When the check finds the record, the function returns after the
    lookup and creates nothing.  So when the record is present after a first
    call, a second call for the same hostname only looks the record up and the
    two calls together have made at most one create call.  This holds for
    [part_001] and, second half, for [main.go]. *)
Theorem C2_ensure_record_is_idempotent `{EncodingJson} {W : Type} (h : Handler W)
    (zoneID hostname tunnelID token : string) :
  let lookup := Spec.lookup_request zoneID hostname token in
  let create := Spec.create_request zoneID hostname tunnelID token in
  let idempotent (check : Prog bool) (ensure : Prog unit) : Prop :=
    (forall w : W,
       http_requests (trace (run h ensure w)) = [lookup] \/
       http_requests (trace (run h ensure w)) = [lookup; create]) /\
    (forall w : W,
       outcome (run h check w) = Returned true ->
       outcome (run h ensure w) = Returned tt /\
       http_requests (trace (run h ensure w)) = [lookup]) /\
    (forall w : W,
       let first := run h ensure w in
       let second := run h ensure (world first) in
       outcome (run h check (world first)) = Returned true ->
       outcome second = Returned tt /\
       http_requests (trace second) = [lookup] /\
       Spec.create_calls (trace second) = [] /\
       (length (Spec.create_calls (trace first ++ trace second)) <= 1)%nat) in
  idempotent (Part_001.dnsRecordExists zoneID hostname token)
             (Part_001.ensureDNSRecord zoneID hostname tunnelID token) /\
  idempotent (Main_go.dnsRecordExists zoneID hostname token)
             (Main_go.ensureDNSRecord zoneID hostname tunnelID token).
Proof.
  intros lookup create idempotent. subst idempotent. cbv beta.
  pose proof (run_ensureDNSRecord h zoneID hostname tunnelID token) as H1.
  pose proof (run_ensureDNSRecord_main_go h zoneID hostname tunnelID token) as H2.
  split; (split; [| split]); intros w.
  - exact (ensure_requests h _ _ lookup create H1 w).
  - exact (ensure_when_present h _ _ lookup create H1 w).
  - exact (ensure_twice h _ _ lookup create eq_refl eq_refl H1 w).
  - exact (ensure_requests h _ _ lookup create H2 w).
  - exact (ensure_when_present h _ _ lookup create H2 w).
  - exact (ensure_twice h _ _ lookup create eq_refl eq_refl H2 w).
Qed.

(** The witness of C2: two calls in the example environment, starting from an
    empty zone.  The first call creates the record, the zone holds it, the
    second call only looks it up and leaves the zone as it is. *)
Lemma C2_witness :
  let ensure := Part_001.ensureDNSRecord (H := GoJson.encoding_json) "z1" "a.test" "abc123" "tok" in
  let first := run Fake.env ensure Fake.fresh in
  let second := run Fake.env ensure (world first) in
  outcome (run Fake.env (Part_001.dnsRecordExists (H := GoJson.encoding_json) "z1" "a.test" "tok")
             (world first)) = Returned true /\
  length (Spec.create_calls (trace first)) = 1%nat /\
  Spec.create_calls (trace second) = [] /\
  Fake.zone (world second) = Fake.zone (world first) /\
  (length (Spec.create_calls (trace first ++ trace second)) <= 1)%nat.
Proof.
  intros ensure first second.
  assert (Hp : outcome (run Fake.env
                          (Part_001.dnsRecordExists (H := GoJson.encoding_json) "z1" "a.test" "tok")
                          (world first)) = Returned true)
    by (vm_compute; reflexivity).
  destruct (C2_ensure_record_is_idempotent (H := GoJson.encoding_json) Fake.env
              "z1" "a.test" "abc123" "tok") as [(_ & _ & Htwice) _].
  destruct (Htwice Fake.fresh Hp) as (_ & _ & Hnone & Hle).
  split; [exact Hp |]. split; [vm_compute; reflexivity |].
  split; [exact Hnone |]. split; [vm_compute; reflexivity | exact Hle].
Defined.
(** ** C8: the record that is created *)

(** C8.  When the existence check returns [false], [ensureDNSRecord] makes
    exactly one more request: a POST to the records of the zone whose payload
    is the JSON of a record of type [CNAME], named by the requested hostname,
    whose content is the tunnel ID followed by [.cfargotunnel.com] (the [id]
    member is present and empty).  The same holds in [main.go]. *)
Theorem C8_creates_cname_to_tunnel `{EncodingJson} {W : Type} (h : Handler W) (w : W)
    (zoneID hostname tunnelID token : string) :
  let record := {| ID := ""; Type_ := "CNAME"; Name := hostname;
                   Value := tunnelID +:+ ".cfargotunnel.com" |} in
  let create :=
    {| Method := "POST";
       URL := "https://api.cloudflare.com/client/v4/zones/" +:+ zoneID +:+ "/dns_records";
       Authorization := "Bearer " +:+ token;
       ContentType := "application/json";
       Payload := Marshal_DNSRecord record |} in
  outcome (run h (Part_001.dnsRecordExists zoneID hostname token) w) = Returned false ->
  http_requests (trace (run h (Part_001.ensureDNSRecord zoneID hostname tunnelID token) w))
  = [Spec.lookup_request zoneID hostname token; create] /\
  Payload create
  = "{" +:+ dq +:+ "id" +:+ dq +:+ ":" +:+ json_quote "" +:+ ","
        +:+ dq +:+ "type" +:+ dq +:+ ":" +:+ json_quote "CNAME" +:+ ","
        +:+ dq +:+ "name" +:+ dq +:+ ":" +:+ json_quote hostname +:+ ","
        +:+ dq +:+ "content" +:+ dq +:+ ":" +:+ json_quote (tunnelID +:+ ".cfargotunnel.com")
        +:+ "}" /\
  (outcome (run h (Main_go.dnsRecordExists zoneID hostname token) w) = Returned false ->
   http_requests (trace (run h (Main_go.ensureDNSRecord zoneID hostname tunnelID token) w))
   = [Spec.lookup_request zoneID hostname token; create]).
Proof.
  intros record create Hf. split; [| split].
  - pose proof (run_ensureDNSRecord h zoneID hostname tunnelID token w) as Hr.
    cbv zeta in Hr. rewrite Hf in Hr. apply Hr.
  - reflexivity.
  - intros Hf'.
    pose proof (run_ensureDNSRecord_main_go h zoneID hostname tunnelID token w) as Hr.
    cbv zeta in Hr. rewrite Hf' in Hr. apply Hr.
Qed.

(** The witness of C8: an empty zone in the example environment. *)
Lemma C8_witness :
  outcome (run Fake.env (Part_001.dnsRecordExists (H := GoJson.encoding_json) "z1" "a.test" "tok")
             Fake.fresh) = Returned false /\
  http_requests
    (trace (run Fake.env
              (Part_001.ensureDNSRecord (H := GoJson.encoding_json) "z1" "a.test" "abc123" "tok")
              Fake.fresh))
  = [ Spec.lookup_request "z1" "a.test" "tok";
      {| Method := "POST";
         URL := "https://api.cloudflare.com/client/v4/zones/z1/dns_records";
         Authorization := "Bearer tok";
         ContentType := "application/json";
         Payload := json_text
           "{'id':'','type':'CNAME','name':'a.test','content':'abc123.cfargotunnel.com'}" |} ].
Proof.
  assert (Hf : outcome (run Fake.env
                          (Part_001.dnsRecordExists (H := GoJson.encoding_json) "z1" "a.test" "tok")
                          Fake.fresh) = Returned false)
    by (vm_compute; reflexivity).
  split; [exact Hf |].
  destruct (C8_creates_cname_to_tunnel (H := GoJson.encoding_json) Fake.env Fake.fresh
              "z1" "a.test" "abc123" "tok" Hf) as [Hq _].
  rewrite Hq. vm_compute. reflexivity.
Defined.
(** ** C9: saving the credentials *)

Lemma owner_only_after_umask (mask : N) : N.land (N.ldiff perm_0600 mask) 63 = 0%N.
Proof.
  apply N.bits_inj. intros i.
  rewrite N.land_spec, N.ldiff_spec, N.bits_0.
  destruct (N.testbit 63 i) eqn:Hi; [| rewrite andb_false_r; reflexivity].
  assert (Hlt : (i < 6)%N).
  { destruct (N.lt_ge_cases i 6) as [Hl | Hg]; [exact Hl |].
    rewrite (N.bits_above_log2 63 i) in Hi; [discriminate Hi |].
    change (N.log2 63) with 5%N. lia. }
  assert (Hcases : i = 0%N \/ i = 1%N \/ i = 2%N \/ i = 3%N \/ i = 4%N \/ i = 5%N) by lia.
  destruct Hcases as [-> | [-> | [-> | [-> | [-> | ->]]]]]; reflexivity.
Qed.

(** C9.  [saveCredentials] makes one call, [os.WriteFile] on the given path
    with the permission bits [0600] (read and write for the owner, nothing for
    the group and the others), and returns its error.  The bytes written are a
    function of the identity alone: the indented object with the members
    [AccountTag], [TunnelSecret], [TunnelID] in that order.  The same holds in
    [main.go].  What the file's permissions are afterwards is the file
    system's doing: when the call creates the file they are [0600] less the
    umask, so nothing for the group and the others; a file that is there
    already gets the new bytes and keeps the permissions it had. *)
Theorem C9_credentials_saved_owner_only `{EncodingJson} {W : Type} (h : Handler W) (w : W)
    (d : Disk.World) (filePath : string) (creds : TunnelCredentials) :
  let data :=
    "{" +:+ nl
    +:+ "  " +:+ dq +:+ "AccountTag" +:+ dq +:+ ": " +:+ json_quote (AccountTag creds) +:+ "," +:+ nl
    +:+ "  " +:+ dq +:+ "TunnelSecret" +:+ dq +:+ ": " +:+ json_quote (TunnelSecret creds) +:+ ","
    +:+ nl
    +:+ "  " +:+ dq +:+ "TunnelID" +:+ dq +:+ ": " +:+ json_quote (TunnelID creds) +:+ nl
    +:+ "}" in
  let write := os_WriteFile filePath data perm_0600 in
  let r := run h (Part_001.saveCredentials filePath creds) w in
  let d' := world (run Disk.env (Part_001.saveCredentials filePath creds) d) in
  trace r = [write] /\
  outcome r = Returned (fst (h write w)) /\
  run h (Main_go.saveCredentials filePath creds) w = r /\
  perm_0600 = 384%N /\
  N.shiftr perm_0600 6 = 6%N /\
  N.land perm_0600 63 = 0%N /\
  Disk.files d' !! filePath
  = Some {| Disk.mode := match Disk.files d !! filePath with
                         | Some old => Disk.mode old
                         | None => N.ldiff perm_0600 (Disk.umask d)
                         end;
            Disk.content := data |} /\
  (Disk.files d !! filePath = None ->
   exists file, Disk.files d' !! filePath = Some file /\ N.land (Disk.mode file) 63 = 0%N).
Proof.
  intros data write r d'. subst r d'.
  unfold Part_001.saveCredentials, Main_go.saveCredentials.
  cbv zeta. change (MarshalIndent_TunnelCredentials creds) with data. fold write.
  assert (Hd : Disk.files (world (run Disk.env (call write) d)) !! filePath
               = Some {| Disk.mode := match Disk.files d !! filePath with
                                      | Some old => Disk.mode old
                                      | None => N.ldiff perm_0600 (Disk.umask d)
                                      end;
                         Disk.content := data |}).
  { change (world (run Disk.env (call write) d))
      with (Disk.WriteFile filePath data perm_0600 d).
    unfold Disk.WriteFile. cbn [Disk.files]. rewrite lookup_insert_eq.
    destruct (Disk.files d !! filePath); reflexivity. }
  split; [| split; [| split; [| split; [| split; [| split; [| split]]]]]].
  - simpl. destruct (h write w) as [e w']. reflexivity.
  - simpl. destruct (h write w) as [e w']. reflexivity.
  - reflexivity.
  - reflexivity.
  - reflexivity.
  - reflexivity.
  - exact Hd.
  - intros Hnew. rewrite Hnew in Hd. eexists. split; [exact Hd |].
    apply owner_only_after_umask.
Qed.

(** The counterexample to C9 as stated: the credentials file exists and is
    readable by everyone (mode [0644]).  [saveCredentials] passes [0600] and
    the file still has the mode [0644] afterwards: its group and other bits
    are [044]. *)
Lemma C9_counterexample :
  let creds := {| AccountTag := "acc"; TunnelSecret := "c2VjcmV0"; TunnelID := "abc123" |} in
  let r := run Disk.env
             (Part_001.saveCredentials (H := GoJson.encoding_json) "./credentials.json" creds)
             Disk.shared in
  trace r
  = [os_WriteFile "./credentials.json"
       (MarshalIndent_TunnelCredentials (H := GoJson.encoding_json) creds) perm_0600] /\
  option_map Disk.mode (Disk.files (world r) !! "./credentials.json") = Some 420%N /\
  N.land 420 63 = 36%N.
Proof. vm_compute. repeat split. Qed.

(** In a directory without the file, the call creates it with the mode
    [0600]. *)
Example credentials_created_owner_only :
  let creds := {| AccountTag := "acc"; TunnelSecret := "c2VjcmV0"; TunnelID := "abc123" |} in
  let r := run Disk.env
             (Part_001.saveCredentials (H := GoJson.encoding_json) "./credentials.json" creds)
             {| Disk.files := ∅; Disk.umask := 18 |} in
  option_map Disk.mode (Disk.files (world r) !! "./credentials.json") = Some 384%N.
Proof. vm_compute. reflexivity. Qed.

(** ** Loading the credentials *)

(** Every call of a program built from calls, sequencing, [defer], loops and
    case distinctions satisfies a predicate that holds of each by
    computation. *)
Ltac quiet_step :=
  match goal with
  | |- AllCalls _ (Ret _) => apply AllCalls_Ret
  | |- AllCalls _ (Fatal _) => apply AllCalls_Fatal
  | |- AllCalls _ (Panic _) => apply AllCalls_Panic
  | |- AllCalls _ (Vis _ _) => apply AllCalls_Vis; [reflexivity | intros ?]
  | |- AllCalls _ (call _) => unfold call
  | |- AllCalls _ (defer _ _) => apply AllCalls_defer
  | |- AllCalls _ (for_range _ _) => apply AllCalls_for_range; intros ?
  | |- AllCalls _ (bind _ _) => apply AllCalls_bind; [| intros ?]
  | |- AllCalls _ (match ?x with _ => _ end) => destruct x
  end.
Ltac all_quiet := cbv beta zeta; repeat (quiet_step; cbv beta zeta).

Section CredentialsPart001.
Context `{EncodingJson}.
Import Part_001.



End CredentialsPart001.
Section CredentialsMainGo.
Context `{EncodingJson}.
Import Main_go.



End CredentialsMainGo.

(** ** C4: loading the API keys *)

Section LoadAPIKeys.
Context `{EncodingJson} {W : Type} (h : Handler W).

(** A key that is stored into no field, or into another field, leaves the
    bearer token as it was. *)
Lemma decode_members_keeps_token (members : list (string * json)) (k : APIKeys) (bad : bool) :
  Forall (fun kv => field_index names_APIKeys (fst kv) <> Some 0%nat) members ->
  ApiToken (fst (fold_left
    (fun acc kv =>
       match field_index names_APIKeys (fst kv) with
       | Some i => let '(s, b) := store_APIKeys i (snd kv) (fst acc) in (s, snd acc || b)
       | None => acc
       end) members (k, bad))) = ApiToken k.
Proof.
  intros Hm. revert k bad. induction Hm as [| kv members Hkv Hm IH]; intros k bad.
  - reflexivity.
  - cbn [fold_left]. destruct (field_index names_APIKeys (fst kv)) as [[| i] |].
    + contradiction.
    + cbn [store_APIKeys fst]. destruct (decode_string (snd kv) (ZoneID k)) as [s b].
      rewrite IH. reflexivity.
    + apply IH.
Qed.

(** [loadAPIKeys] of [part_001] reads the file and returns keys only when
    the file was read, its bytes decode, and both fields are non-empty. *)
Lemma run_loadAPIKeys (filePath : string) (w : W) :
  let r := run h (Part_001.loadAPIKeys filePath) w in
  trace r = [os_ReadFile filePath] /\
  world r = snd (h (os_ReadFile filePath) w) /\
  outcome r =
    Returned
      match fst (h (os_ReadFile filePath) w) with
      | Err e => Err ("failed to read API keys file: " +:+ e)
      | Ok data =>
          match Unmarshal_APIKeys data with
          | Err e => Err ("failed to unmarshal API keys: " +:+ e)
          | Ok keys =>
              if String.eqb (ApiToken keys) "" || String.eqb (ZoneID keys) ""
              then Err "ApiToken or ZoneId missing in API keys file"
              else Ok keys
          end
      end.
Proof.
  intros r. subst r. unfold Part_001.loadAPIKeys. rewrite run_call_bind.
  destruct (h (os_ReadFile filePath) w) as [[data | e] w']; cbn [fst snd].
  - destruct (Unmarshal_APIKeys data) as [keys | e].
    + destruct (String.eqb (ApiToken keys) "" || String.eqb (ZoneID keys) "");
        repeat split.
    + repeat split.
  - repeat split.
Qed.
End LoadAPIKeys.

(** The API keys loader of [part_001].  With a complete command line: keys
    are returned only with a non-empty bearer token and a non-empty zone
    identifier; a file that cannot be read, bytes that do not decode, an empty
    field and an object with no member for the bearer token all make the
    loader return an error; and on an error [main] exits after the one call
    that read the file, before any request is made. *)
Theorem part_001_loadAPIKeys_rejects_incomplete_keys `{EncodingJson} {W : Type}
    (h : Handler W) (w : W) (f : Part_001.Flags) :
  (Part_001.port f =? 0) || String.eqb (Part_001.tunnel f) ""
    || String.eqb (Part_001.domain f) "" = false ->
  let answer := fst (h (os_ReadFile (Part_001.apiKeys f)) w) in
  let r := run h (Part_001.loadAPIKeys (Part_001.apiKeys f)) w in
  (forall keys, outcome r = Returned (Ok keys) -> ApiToken keys <> "" /\ ZoneID keys <> "") /\
  (forall e, answer = Err e -> exists e', outcome r = Returned (Err e')) /\
  (forall data e, answer = Ok data -> Unmarshal_APIKeys data = Err e ->
     exists e', outcome r = Returned (Err e')) /\
  (forall data keys, answer = Ok data -> Unmarshal_APIKeys data = Ok keys ->
     ApiToken keys = "" \/ ZoneID keys = "" ->
     outcome r = Returned (Err "ApiToken or ZoneId missing in API keys file")) /\
  (forall data members, answer = Ok data -> json_scan data = Ok (JObject members) ->
     Forall (fun kv => field_index names_APIKeys (fst kv) <> Some 0%nat) members ->
     exists e', outcome r = Returned (Err e')) /\
  (forall e, outcome r = Returned (Err e) ->
     outcome (run h (Part_001.main f) w) = Exited ("Failed to load API keys: " +:+ e) /\
     trace (run h (Part_001.main f) w) = [os_ReadFile (Part_001.apiKeys f)]).
Proof.
  intros Hflags answer r.
  destruct (run_loadAPIKeys h (Part_001.apiKeys f) w) as (Ht & _ & Ho).
  cbv zeta in Ht, Ho. fold r in Ht, Ho. fold answer in Ho.
  assert (Hmissing : forall data keys, answer = Ok data -> Unmarshal_APIKeys data = Ok keys ->
            ApiToken keys = "" \/ ZoneID keys = "" ->
            outcome r = Returned (Err "ApiToken or ZoneId missing in API keys file")).
  { intros data keys Ha Hu Hk. rewrite Ho, Ha, Hu.
    destruct Hk as [-> | ->]; [reflexivity |]. rewrite orb_true_r. reflexivity. }
  split; [| split; [| split; [| split; [| split]]]].
  - intros keys Hk. rewrite Ho in Hk.
    destruct answer as [data | e]; [| discriminate].
    destruct (Unmarshal_APIKeys data) as [keys' | e]; [| discriminate].
    destruct (String.eqb (ApiToken keys') "") eqn:Ht'; [discriminate |].
    destruct (String.eqb (ZoneID keys') "") eqn:Hz; [discriminate |].
    injection Hk as <-. apply String.eqb_neq in Ht', Hz. split; assumption.
  - intros e Ha. rewrite Ho, Ha. eexists. reflexivity.
  - intros data e Ha Hu. rewrite Ho, Ha, Hu. eexists. reflexivity.
  - exact Hmissing.
  - intros data members Ha Hs Hm. unfold Unmarshal_APIKeys, Unmarshal in Hmissing.
    rewrite Ho, Ha. unfold Unmarshal_APIKeys, Unmarshal. rewrite Hs.
    pose proof (decode_members_keeps_token members zero_APIKeys false Hm) as Hk.
    cbn [decode_struct]. unfold decode_members.
    destruct (fold_left _ members (zero_APIKeys, false)) as [keys bad].
    destruct bad; [eexists; reflexivity |].
    cbn [fst] in Hk. rewrite Hk. eexists. reflexivity.
  - intros e He. unfold Part_001.main, Part_001.main_thread. rewrite Hflags.
    rewrite run_go_bind by (unfold Part_001.loadAPIKeys; all_quiet).
    rewrite run_bind. fold r.
    rewrite He, Ht. cbn [go run outcome world trace]. rewrite app_nil_r. split; reflexivity.
Qed.

(** Its witness: the keys file without a bearer token, in the example
    environment. *)
Lemma part_001_loadAPIKeys_witness :
  let r := run Fake.env (Part_001.main (H := GoJson.encoding_json) Fake.flags_001)
             Fake.keys_without_token in
  outcome r = Exited "Failed to load API keys: ApiToken or ZoneId missing in API keys file" /\
  trace r = [os_ReadFile "./api-keys.json"].
Proof.
  intros r.
  destruct (part_001_loadAPIKeys_rejects_incomplete_keys (H := GoJson.encoding_json)
              Fake.env Fake.keys_without_token Fake.flags_001 eq_refl)
    as (_ & _ & _ & _ & _ & Hmain).
  apply Hmain. vm_compute. reflexivity.
Defined.

(** C4 does not hold for the loader of [main.go], which has no check of the
    two fields.  On a keys file without [ApiToken] it returns keys with an
    empty bearer token and no error, and [main] goes on to the DNS API: its
    first request carries an empty token.  The loader of [part_001] returns an
    error on the same file. *)
Theorem C4_main_go_accepts_keys_without_token :
  let w := Fake.keys_without_token in
  fst (Fake.env (os_ReadFile "./api-keys.json") w) = Ok (json_text "{'ZoneId':'z1'}") /\
  outcome (run Fake.env (Main_go.loadAPIKeys (H := GoJson.encoding_json) "./api-keys.json") w)
  = Returned (Ok {| ApiToken := ""; ZoneID := "z1" |}) /\
  hd_error (http_requests
              (trace (run Fake.env (Main_go.main (H := GoJson.encoding_json) Fake.flags_main_go)
                        w)))
  = Some {| Method := "GET";
            URL := "https://api.cloudflare.com/client/v4/zones/z1/dns_records?name=a.test";
            Authorization := "Bearer ";
            ContentType := "application/json";
            Payload := "" |} /\
  outcome (run Fake.env (Part_001.loadAPIKeys (H := GoJson.encoding_json) "./api-keys.json") w)
  = Returned (Err "ApiToken or ZoneId missing in API keys file").
Proof. vm_compute. repeat split. Qed.

(** * The runs of [main]: calls, order and effects *)

Section Wp.
Context {W : Type} (h : Handler W).

Lemma wp_Ret {A : Type} (a : A) (w : W) (t0 : list Event) R :
  R t0 w (Returned a) -> wp h (Ret a) w t0 R.
Proof. unfold wp. simpl. rewrite app_nil_r. auto. Qed.

Lemma wp_Fatal {A : Type} (m : string) (w : W) (t0 : list Event)
    (R : list Event -> W -> Outcome A -> Prop) :
  R t0 w (Exited m) -> wp h (Fatal m) w t0 R.
Proof. unfold wp. simpl. rewrite app_nil_r. auto. Qed.

Lemma wp_Panic {A : Type} (m : string) (w : W) (t0 : list Event)
    (R : list Event -> W -> Outcome A -> Prop) :
  R t0 w (Panicked m) -> wp h (Panic m) w t0 R.
Proof. unfold wp. simpl. rewrite app_nil_r. auto. Qed.

Lemma wp_Vis {A : Type} (e : Event) (k : Resp e -> Prog A) (w : W) (t0 : list Event) R :
  (forall r w', h e w = (r, w') -> wp h (k r) w' (t0 ++ [e]) R) -> wp h (Vis e k) w t0 R.
Proof.
  unfold wp. intros Hk. simpl. destruct (h e w) as [r w'] eqn:He.
  specialize (Hk r w' eq_refl). simpl in *. rewrite <- app_assoc in Hk. exact Hk.
Qed.

Lemma wp_bind {A B : Type} (p : Prog A) (f : A -> Prog B) (w : W) (t0 : list Event) R :
  wp h p w t0 (fun t w' o =>
    match o with
    | Returned a => wp h (f a) w' t R
    | Exited m => R t w' (Exited m)
    | Panicked m => R t w' (Panicked m)
    end) ->
  wp h (bind p f) w t0 R.
Proof.
  unfold wp. cbv zeta. rewrite run_bind.
  destruct (outcome (run h p w)) as [a | m | m]; simpl; auto.
  rewrite app_assoc. auto.
Qed.

Lemma wp_defer {A : Type} (d : Prog unit) (p : Prog A) (w : W) (t0 : list Event) R :
  wp h p w t0 (fun t w' o =>
    match o with
    | Returned a =>
        wp h d w' t (fun t' w'' o' =>
          R t' w'' match o' with
                   | Returned _ => Returned a
                   | Exited m => Exited m
                   | Panicked m => Panicked m
                   end)
    | Exited m => R t w' (Exited m)
    | Panicked m =>
        wp h d w' t (fun t' w'' o' =>
          R t' w'' match o' with
                   | Returned _ => Panicked m
                   | Exited m' => Exited m'
                   | Panicked m' => Panicked m'
                   end)
    end) ->
  wp h (defer d p) w t0 R.
Proof.
  unfold wp. cbv zeta. rewrite run_defer. cbv zeta.
  destruct (run h p w) as [[a | m | m] w1 t1]; simpl; rewrite ?app_assoc; auto.
Qed.

Lemma wp_conseq {A : Type} (p : Prog A) (w : W) (t0 : list Event)
    (R R' : list Event -> W -> Outcome A -> Prop) :
  wp h p w t0 R -> (forall t w' o, R t w' o -> R' t w' o) -> wp h p w t0 R'.
Proof. unfold wp. auto. Qed.

Lemma Does_run {A : Type} (P : Event -> Prop) (Q : A -> Prop) (p : Prog A) (w : W) :
  Does P Q p ->
  Forall P (trace (run h p w)) /\
  match outcome (run h p w) with
  | Returned a => Q a
  | Exited _ => True
  | Panicked _ => False
  end.
Proof.
  intros Hp. revert w. induction Hp as [a Ha | m | e k He Hk IH]; intros w; simpl.
  - split; [constructor | exact Ha].
  - split; [constructor | exact I].
  - destruct (h e w) as [r w']. simpl. destruct (IH r w') as [Ht Ho].
    split; [constructor; assumption | exact Ho].
Qed.

(** A part of a run that is only known by its calls: the calls made so far
    are extended by calls that satisfy [P]. *)
Lemma wp_Does {A : Type} (P : Event -> Prop) (Q : A -> Prop) (p : Prog A) (w : W)
    (t0 : list Event) :
  Does P Q p ->
  wp h p w t0 (fun t _ o =>
    (exists t', t = t0 ++ t' /\ Forall P t') /\
    match o with Returned a => Q a | Exited _ => True | Panicked _ => False end).
Proof.
  intros Hp. unfold wp. cbv zeta. destruct (Does_run P Q p w Hp) as [Ht Ho].
  split; [eexists; split; [reflexivity | exact Ht] | exact Ho].
Qed.
End Wp.

Lemma Does_bind {A B : Type} (P : Event -> Prop) (Q : A -> Prop) (R : B -> Prop)
    (p : Prog A) (f : A -> Prog B) :
  Does P Q p -> (forall a, Q a -> Does P R (f a)) -> Does P R (bind p f).
Proof.
  intros Hp Hf. induction Hp as [a Ha | m | e k He Hk IH]; simpl.
  - apply Hf. exact Ha.
  - constructor.
  - constructor; [exact He | exact IH].
Qed.

Lemma Does_defer {A : Type} (P : Event -> Prop) (Q : A -> Prop) (d : Prog unit) (p : Prog A) :
  Does P (fun _ => True) d -> Does P Q p -> Does P Q (defer d p).
Proof.
  intros Hd Hp. induction Hp as [a Ha | m | e k He Hk IH]; simpl.
  - apply (Does_bind P (fun _ => True)); [exact Hd | intros; constructor; exact Ha].
  - constructor.
  - constructor; [exact He | exact IH].
Qed.

Lemma Does_for_range {T : Type} (P : Event -> Prop) (l : list T) (body : T -> Prog unit) :
  (forall x, Does P (fun _ => True) (body x)) -> Does P (fun _ => True) (for_range l body).
Proof.
  intros Hb. induction l as [| x l IH]; simpl.
  - constructor. exact I.
  - apply (Does_bind P (fun _ => True)); [apply Hb | intros; exact IH].
Qed.

Lemma Does_weaken {A : Type} (P P' : Event -> Prop) (Q Q' : A -> Prop) (p : Prog A) :
  Does P Q p -> (forall e, P e -> P' e) -> (forall a, Q a -> Q' a) -> Does P' Q' p.
Proof.
  intros Hp HP HQ. induction Hp; constructor; auto.
Qed.

(** The calls of a process are those of its main thread, those of the
    goroutine and the turns of the scheduler. *)
Lemma Does_par {A : Type} (P : Event -> Prop) (Q : A -> Prop) (p : Prog A) (g : Prog unit) :
  P go_sched -> Does P Q p -> Does P (fun _ => True) g -> Does P Q (par p g).
Proof.
  intros Hs Hp. revert g.
  induction Hp as [a Ha | m | e k He Hk IH]; intros g Hg;
    induction Hg as [u _ | mg | eg kg Heg Hkg IHg]; simpl;
    try (constructor; fail); try (constructor; assumption).
  all: constructor; [exact Hs |]; intros [|]; [ constructor; [exact Heg | exact IHg] | ].
  - constructor. exact Ha.
  - constructor.
  - constructor; [exact He |]. intros r. apply IH. constructor; assumption.
Qed.

Lemma Does_go {A : Type} (P : Event -> Prop) (Q : A -> Prop)
    (spawn : Event -> option (Prog unit)) (p : Prog A) :
  (forall e g, spawn e = Some g -> P e -> P go_sched /\ Does P (fun _ => True) g) ->
  Does P Q p -> Does P Q (go spawn p).
Proof.
  intros Hg Hp. induction Hp as [a Ha | m | e k He Hk IH]; simpl;
    try (constructor; assumption).
  destruct (spawn e) as [g |] eqn:Hse.
  - destruct (Hg e g Hse He) as [Hs Hdg].
    constructor; [exact He |]. intros r. apply Does_par; auto.
  - constructor; [exact He | exact IH].
Qed.

(** A main thread that starts no goroutine is the whole process. *)
Lemma Does_AllCalls {A : Type} (P : Event -> Prop) (Q : A -> Prop) (p : Prog A) :
  Does P Q p -> AllCalls P p.
Proof. induction 1; constructor; auto. Qed.

Lemma run_go_alone {W A : Type} (h : Handler W) (spawn : Event -> option (Prog unit))
    (P : Event -> Prop) (Q : A -> Prop) (p : Prog A) (w : W) :
  Does P Q p -> (forall e, P e -> spawn e = None) -> run h (go spawn p) w = run h p w.
Proof.
  intros Hp HP. apply run_go_free. apply Does_AllCalls in Hp.
  induction Hp; constructor; auto.
Qed.

(** ** A process and its main thread *)

Section Sim.
Context {W : Type} (h : Handler W) (spawn : Event -> option (Prog unit)) (M : string -> Prop).

Lemma par_Ret {A : Type} (p : Prog A) (u : unit) : par p (Ret u) = p.
Proof. destruct p; reflexivity. Qed.

Lemma steps_noise (e : Event) (t : list Event) : noise e = true -> steps (e :: t) = steps t.
Proof. intros He. unfold steps. simpl. rewrite He. reflexivity. Qed.

Lemma steps_step (e : Event) (t : list Event) :
  noise e = false -> steps (e :: t) = e :: steps t.
Proof. intros He. unfold steps. simpl. rewrite He. reflexivity. Qed.

Lemma simulated_cons {A : Type} (e : Event) (o : Outcome A) (w : W) (t : list Event)
    (o' : Outcome A) (w' : W * option (Prog unit)) (t' : list Event) :
  simulated M {| outcome := o; world := w; trace := t |}
            {| outcome := o'; world := w'; trace := t' |} ->
  simulated M {| outcome := o; world := w; trace := e :: t |}
            {| outcome := o'; world := w'; trace := e :: t' |}.
Proof.
  unfold simulated. cbn [outcome trace]. intros [[Ho Ht] | (m & Ho & Hm & Ht)].
  - left. split; [exact Ho |]. unfold steps in *. simpl. rewrite Ht. reflexivity.
  - right. exists m. split; [exact Ho |]. split; [exact Hm |].
    unfold steps in *. simpl. destruct (negb (noise e)); [apply prefix_cons |]; exact Ht.
Qed.

Lemma simulated_noise {A : Type} (e : Event) (o : Outcome A) (w : W) (t : list Event)
    (r' : Run A (W * option (Prog unit))) :
  noise e = true ->
  simulated M {| outcome := o; world := w; trace := t |} r' ->
  simulated M {| outcome := o; world := w; trace := e :: t |} r'.
Proof.
  unfold simulated. cbn [outcome trace]. intros He. rewrite (steps_noise e t He). auto.
Qed.

Lemma par_Vis {A : Type} (p : Prog A) (eg : Event) (kg : Resp eg -> Prog unit) :
  par p (Vis eg kg)
  = Vis go_sched (fun turn : bool =>
      if turn then Vis eg (fun r => par p (kg r))
      else match p with
           | Vis e k => Vis e (fun r => par (k r) (Vis eg kg))
           | _ => p
           end).
Proof. destruct p; reflexivity. Qed.

Lemma par_Fatal {A : Type} (p : Prog A) (m : string) : par p (Fatal m) = Fatal m.
Proof. destruct p; reflexivity. Qed.

Lemma run_Vis {A V : Type} (hv : Handler V) (e : Event) (k : Resp e -> Prog A) (w : V) :
  run hv (Vis e k) w
  = {| outcome := outcome (run hv (k (fst (hv e w))) (snd (hv e w)));
       world := world (run hv (k (fst (hv e w))) (snd (hv e w)));
       trace := e :: trace (run hv (k (fst (hv e w))) (snd (hv e w))) |}.
Proof. simpl. destruct (hv e w) as [r w']. reflexivity. Qed.

Lemma simulated_run_cons {A : Type} (e : Event) (r : Run A W)
    (r' : Run A (W * option (Prog unit))) :
  simulated M r r' ->
  simulated M {| outcome := outcome r; world := world r; trace := e :: trace r |}
            {| outcome := outcome r'; world := world r'; trace := e :: trace r' |}.
Proof. destruct r, r'. apply simulated_cons. Qed.

Lemma simulated_run_noise {A : Type} (e : Event) (r : Run A W)
    (r' : Run A (W * option (Prog unit))) :
  noise e = true ->
  simulated M r r' ->
  simulated M {| outcome := outcome r; world := world r; trace := e :: trace r |} r'.
Proof. destruct r. apply simulated_noise. Qed.

(** The scheduler gives the turn to the goroutine, which makes a call. *)
Lemma par_sim_turn {A : Type} (p : Prog A) (eg : Event) (kg : Resp eg -> Prog unit) (w : W) :
  noise eg = true ->
  fst (h go_sched w) = true ->
  (let w1 := snd (h go_sched w) in
   let r := fst (h eg w1) in
   let w2 := snd (h eg w1) in
   simulated M (run h (par p (kg r)) w2) (run (beside h spawn) p (w2, Some (kg r)))) ->
  simulated M (run h (par p (Vis eg kg)) w) (run (beside h spawn) p (w, Some (Vis eg kg))).
Proof.
  intros Heg Hturn Hin. cbv zeta in Hin. rewrite par_Vis, run_Vis.
  destruct (h go_sched w) as [turn w1] eqn:Hs. cbn [fst snd] in *. subst turn.
  cbv beta iota. rewrite run_Vis.
  assert (Hadv : forall e, beside h spawn e (w, Some (Vis eg kg))
                           = beside h spawn e (snd (h eg w1), Some (kg (fst (h eg w1))))).
  { intros e. unfold beside. cbn [snd fst advance]. rewrite Hs.
    destruct (h eg w1) as [r w2]. reflexivity. }
  assert (Hrun : outcome (run (beside h spawn) p (w, Some (Vis eg kg)))
                 = outcome (run (beside h spawn) p (snd (h eg w1), Some (kg (fst (h eg w1)))))
                 /\ trace (run (beside h spawn) p (w, Some (Vis eg kg)))
                    = trace (run (beside h spawn) p (snd (h eg w1), Some (kg (fst (h eg w1)))))).
  { destruct p as [a | e k | m | m]; try (split; reflexivity).
    rewrite 2 run_Vis, Hadv. split; reflexivity. }
  destruct Hrun as [Hro Hrt].
  unfold simulated in *. rewrite Hro, Hrt. fold (@simulated W M A) in *.
  apply simulated_run_noise; [reflexivity |]. apply simulated_run_noise; [exact Heg |].
  exact Hin.
Qed.

Lemma par_sim {A : Type} (p : Prog A) (g : Prog unit) (w : W) :
  Goroutine M g ->
  simulated M (run h (par p g) w) (run (beside h spawn) p (w, Some g)).
Proof.
  revert g w. induction p as [a | e k IH | m | m]; intros g w Hg; revert w;
    induction Hg as [u | mg Hmg | eg kg Heg Hkg IHg]; intros w.
  all: try (rewrite par_Fatal; right; exists mg; split; [reflexivity |];
            split; [exact Hmg | apply prefix_nil]).
  all: try (destruct (fst (h go_sched w)) eqn:Hturn;
            [ apply par_sim_turn; [exact Heg | exact Hturn | cbv zeta; apply IHg] | ]).
  all: try (rewrite par_Ret).
  all: try (rewrite par_Vis, run_Vis, Hturn).
  all: try (left; split; reflexivity).
  - (* a call of the main thread, the goroutine has returned *)
    rewrite 2 run_Vis.
    assert (Hb : beside h spawn e (w, Some (Ret u))
                 = (fst (h e w), (snd (h e w), Some (Ret tt)))).
    { unfold beside. cbn [snd fst advance]. destruct (h e w). reflexivity. }
    rewrite Hb. cbn [fst snd].
    specialize (IH (fst (h e w)) (Ret tt) (snd (h e w)) (Goroutine_Ret M tt)).
    rewrite par_Ret in IH. apply simulated_run_cons. exact IH.
  - (* a call of the main thread, the goroutine waits *)
    rewrite 2 run_Vis.
    assert (Hb : beside h spawn e (w, Some (Vis eg kg))
                 = (fst (h e (snd (h go_sched w))),
                    (snd (h e (snd (h go_sched w))), Some (Vis eg kg)))).
    { unfold beside. cbn [snd fst advance]. destruct (h go_sched w) as [turn w1].
      cbn [fst snd] in *. subst turn. destruct (h e w1). reflexivity. }
    rewrite Hb. cbn [fst snd].
    apply simulated_run_noise; [reflexivity |]. apply simulated_run_cons.
    apply IH. constructor; assumption.
Qed.

Lemma go_sim {A : Type} (p : Prog A) (w : W) :
  (forall e g, spawn e = Some g -> Goroutine M g) ->
  simulated M (run h (go spawn p) w) (run (beside h spawn) p (w, None)).
Proof.
  intros Hg. revert w. induction p as [a | e k IH | m | m]; intros w;
    try (left; split; reflexivity).
  assert (Hb : beside h spawn e (w, None) = (fst (h e w), (snd (h e w), spawn e))).
  { unfold beside. cbn [snd fst]. destruct (h e w). reflexivity. }
  cbn [go]. destruct (spawn e) as [g |] eqn:Hse.
  - rewrite 2 run_Vis, Hb. cbn [fst snd]. apply simulated_run_cons.
    apply par_sim. exact (Hg e g Hse).
  - rewrite 2 run_Vis, Hb. cbn [fst snd]. apply simulated_run_cons. apply IH.
Qed.
End Sim.

(** ** The calls of each function *)

(** A program built from calls, sequencing, [defer], loops and case
    distinctions: every call is shown by [tac] to satisfy the predicate. *)
Ltac does_step tac :=
  lazymatch goal with
  | |- Does _ _ (Ret _) => apply Does_Ret; first [exact I | reflexivity | tac | idtac]
  | |- Does _ _ (Fatal _) => apply Does_Fatal
  | |- Does _ _ (Vis _ _) => apply Does_Vis; [tac | intros ?]
  | |- Does _ _ (call _) => unfold call
  | |- Does _ _ (defer _ _) => apply Does_defer
  | |- Does _ _ (for_range _ _) => apply Does_for_range; intros ?
  | |- Does _ _ (bind _ _) => apply (Does_bind _ (fun _ => True)); [| intros ? _]
  | |- Does _ _ (match ?x with _ => _ end) => destruct x eqn:?
  end.
Ltac does_by tac := cbv beta zeta; repeat (does_step tac; cbv beta zeta).
Ltac does := does_by ltac:(solve [auto]).

Section DoesPart001.
Context `{EncodingJson} (P : Event -> Prop).
Hypothesis P_log : forall m, P (log_Print m).
Import Part_001.

Lemma Does_loadAPIKeys (p : string) :
  P (os_ReadFile p) -> Does P (fun _ => True) (loadAPIKeys p).
Proof. intros. unfold loadAPIKeys. does. Qed.

Lemma Does_loadCredentials (p : string) :
  P (os_ReadFile p) -> Does P (fun _ => True) (loadCredentials p).
Proof. intros. unfold loadCredentials. does. Qed.

Lemma Does_saveCredentials (p : string) (c : TunnelCredentials) :
  P (os_WriteFile p (MarshalIndent_TunnelCredentials c) perm_0600) ->
  Does P (fun _ => True) (saveCredentials p c).
Proof. intros. unfold saveCredentials. does. Qed.

Lemma Does_authenticateCloudflare :
  P (cmd_Run Calls.login) -> Does P (fun _ => True) authenticateCloudflare.
Proof. intros. unfold authenticateCloudflare. does. Qed.

Lemma Does_createTunnel (n p : string) :
  P (cmd_Run (Calls.create p n)) -> P (os_ReadFile p) ->
  Does P (fun _ => True) (createTunnel n p).
Proof. intros. unfold createTunnel, loadCredentials. does. Qed.

Lemma Does_dnsRecordExists (z d t : string) :
  P (http_Do (Spec.lookup_request z d t)) -> Does P (fun _ => True) (dnsRecordExists z d t).
Proof. intros. unfold dnsRecordExists, cloudflareAPIRequest. does. Qed.

Lemma Does_ensureDNSRecord (z d i t : string) :
  P (http_Do (Spec.lookup_request z d t)) ->
  P (http_Do (Spec.create_request z d i t)) ->
  Does P (fun _ => True) (ensureDNSRecord z d i t).
Proof. intros. unfold ensureDNSRecord, dnsRecordExists, cloudflareAPIRequest. does. Qed.

Lemma Does_startTunnel (cfg : string) :
  P (cmd_Start (Calls.tunnel_run cfg)) ->
  Does P (fun argv => argv = Calls.tunnel_run cfg) (startTunnel cfg).
Proof. intros. unfold startTunnel. does. Qed.

Lemma Does_logoutCloudflare :
  P (cmd_Run Calls.logout) -> Does P (fun _ => True) logoutCloudflare.
Proof. intros. unfold logoutCloudflare. does. Qed.

Lemma Does_writeConfigFile (i c : string) (r0 : Route) (rest : list Route) :
  P (os_Create (Spec.config_path i)) ->
  (forall chunk, P (file_Write (Spec.config_path i) chunk)) ->
  P (file_Close (Spec.config_path i)) ->
  Does P (fun p => p = Spec.config_path i) (writeConfigFile i c (r0 :: rest)).
Proof. intros. unfold writeConfigFile. does. Qed.

Lemma Does_startSocks5 (p : Z) :
  P socks5_New -> P (socks5_Serve ("127.0.0.1:" +:+ itoa p)) ->
  Does P (fun _ => True) (startSocks5 p).
Proof. intros. unfold startSocks5. does. Qed.
End DoesPart001.
(** Sequencing after a function whose calls and returned values are known. *)
Ltac does_call fn tac :=
  lazymatch goal with
  | |- Does _ _ (bind _ _) =>
      eapply Does_bind;
      [ fn tac
      | cbv beta; intros ? ?;
        repeat match goal with
               | Hq : exists _, _ |- _ => destruct Hq
               | Hq : _ /\ _ |- _ => destruct Hq
               end;
        subst ]
  | |- Does ?P _ _ =>
      first [ fn tac
            | eapply (Does_weaken P P); [fn tac | auto | cbv beta; intros; subst; auto] ]
  end.

Ltac does_001 tac :=
  lazymatch goal with
  | |- Does _ _ (Part_001.loadAPIKeys _) => apply Does_loadAPIKeys; tac
  | |- Does _ _ (Part_001.loadCredentials _) => apply Does_loadCredentials; tac
  | |- Does _ _ (Part_001.saveCredentials _ _) => apply Does_saveCredentials; tac
  | |- Does _ _ Part_001.authenticateCloudflare => apply Does_authenticateCloudflare; tac
  | |- Does _ _ (Part_001.createTunnel _ _) => apply Does_createTunnel; tac
  | |- Does _ _ (Part_001.ensureDNSRecord _ _ _ _) => apply Does_ensureDNSRecord; tac
  | |- Does _ _ (Part_001.startTunnel _) => apply Does_startTunnel; tac
  | |- Does _ _ Part_001.logoutCloudflare => apply Does_logoutCloudflare; tac
  | |- Does _ _ (Part_001.writeConfigFile _ _ (_ :: _)) => apply Does_writeConfigFile; tac
  | |- Does _ _ (Part_001.startSocks5 _) => apply Does_startSocks5; tac
  end.

Ltac does_001_by tac :=
  cbv beta zeta;
  repeat (first [ does_call does_001 tac | does_step tac ]; cbv beta zeta).

Section DoesMain001.
Context `{EncodingJson} (P : Event -> Prop).
Hypothesis P_log : forall m, P (log_Print m).
Import Part_001.

Lemma Does_resolve_credentials (f : Flags) :
  P (os_ReadFile (credentials f)) ->
  P (cmd_Run Calls.login) ->
  P (cmd_Run (Calls.create (credentials f) (tunnel f))) ->
  (forall c, P (os_WriteFile (credentials f) (MarshalIndent_TunnelCredentials c) perm_0600)) ->
  Does P (fun _ => True) (resolve_credentials f).
Proof. intros. unfold resolve_credentials. does_001_by ltac:(solve [auto]). Qed.

Lemma Does_build_routes (f : Flags) (keys : APIKeys) (creds : TunnelCredentials) :
  P (http_Do (Spec.lookup_request (ZoneID keys) (proxy_domain f) (ApiToken keys))) ->
  P (http_Do (Spec.create_request (ZoneID keys) (proxy_domain f) (TunnelID creds)
                (ApiToken keys))) ->
  Does P (fun routes => exists r0 rest, routes = r0 :: rest /\ r0 :: rest = Calls.routes_for f)
    (build_routes f keys creds).
Proof.
  intros. unfold build_routes, Calls.routes_for.
  does_001_by ltac:(solve [auto]); eexists _, _; split; reflexivity.
Qed.
End DoesMain001.

Ltac does_001_main tac :=
  lazymatch goal with
  | |- Does _ _ (Part_001.resolve_credentials _) => apply Does_resolve_credentials; tac
  | |- Does _ _ (Part_001.build_routes _ _ _) => apply Does_build_routes; tac
  | |- _ => does_001 tac
  end.

Ltac does_001_main_by tac :=
  cbv beta zeta;
  repeat (first [ does_call does_001_main tac | does_step tac ]; cbv beta zeta).

(** The side conditions of [Calls.allowed_part_001]. *)
Ltac dns_request :=
  lazymatch goal with
  | |- Calls.dns_request ?h (Spec.lookup_request ?z ?h ?t) =>
      exists z, t; left; reflexivity
  | |- Calls.dns_request ?h (Spec.create_request ?z ?h ?i ?t) =>
      exists z, t; right; exists i; reflexivity
  end.

Ltac allowed :=
  intros; cbn [Calls.allowed_part_001];
  first [ exact I
        | reflexivity
        | solve [auto 4]
        | solve [eexists; reflexivity]
        | solve [left; dns_request]
        | solve [right; dns_request]
        | match goal with
          | Hp : String.eqb _ _ = true |- _ => apply String.eqb_eq in Hp; solve [auto]
          end ].

Section Footprint001.
Context `{EncodingJson}.
Import Part_001.

Lemma Does_main_thread (f : Flags) :
  Does (Calls.allowed_part_001 f) (fun _ => True) (main_thread f).
Proof.
  unfold main_thread, main_reuse.
  does_001_main_by allowed.
Qed.

(** The calls of the relay, for a predicate that holds of its address. *)
Lemma Does_spawn (P : Event -> Prop) :
  (forall m, P (log_Print m)) ->
  (forall addr, P (socks5_Serve addr) -> P go_sched /\ P (socks5_ListenAndServe addr)) ->
  forall e g, spawn e = Some g -> P e -> P go_sched /\ Does P (fun _ => True) g.
Proof.
  intros Hlog Hrelay e g Hs He. destruct e; try discriminate Hs. injection Hs as <-.
  destruct (Hrelay addr He) as [Hsched Hserve]. split; [exact Hsched |].
  unfold relay. does.
Qed.

Lemma Does_main (f : Flags) : Does (Calls.allowed_part_001 f) (fun _ => True) (main f).
Proof.
  unfold main. apply Does_go; [| apply Does_main_thread].
  apply Does_spawn; [intros; exact I |].
  intros addr [Hp Ha]. split; [exact Hp | split; assumption].
Qed.
End Footprint001.
Section DoesMainGo.
Context `{EncodingJson} (P : Event -> Prop).
Hypothesis P_log : forall m, P (log_Print m).
Import Main_go.

Lemma Does_loadAPIKeys_main_go (p : string) :
  P (os_ReadFile p) -> Does P (fun _ => True) (loadAPIKeys p).
Proof. intros. unfold loadAPIKeys. does. Qed.

Lemma Does_loadCredentials_main_go (p : string) :
  P (os_ReadFile p) -> Does P (fun _ => True) (loadCredentials p).
Proof. intros. unfold loadCredentials. does. Qed.

Lemma Does_saveCredentials_main_go (p : string) (c : TunnelCredentials) :
  P (os_WriteFile p (MarshalIndent_TunnelCredentials c) perm_0600) ->
  Does P (fun _ => True) (saveCredentials p c).
Proof. intros. unfold saveCredentials. does. Qed.

Lemma Does_authenticateCloudflare_main_go :
  P (cmd_Run Calls.login) -> Does P (fun _ => True) authenticateCloudflare.
Proof. intros. unfold authenticateCloudflare. does. Qed.

Lemma Does_createTunnel_main_go (n p : string) :
  P (cmd_Run (Calls.create p n)) -> P (os_ReadFile p) ->
  Does P (fun _ => True) (createTunnel n p).
Proof. intros. unfold createTunnel, loadCredentials. does. Qed.

Lemma Does_dnsRecordExists_main_go (z d t : string) :
  P (http_Do (Spec.lookup_request z d t)) -> Does P (fun _ => True) (dnsRecordExists z d t).
Proof. intros. unfold dnsRecordExists, cloudflareAPIRequest. does. Qed.

Lemma Does_ensureDNSRecord_main_go (z d i t : string) :
  P (http_Do (Spec.lookup_request z d t)) ->
  P (http_Do (Spec.create_request z d i t)) ->
  Does P (fun _ => True) (ensureDNSRecord z d i t).
Proof. intros. unfold ensureDNSRecord, dnsRecordExists, cloudflareAPIRequest. does. Qed.

Lemma Does_startTunnel_main_go (cfg : string) :
  P (cmd_Start (Calls.tunnel_run cfg)) ->
  Does P (fun argv => argv = Calls.tunnel_run cfg) (startTunnel cfg).
Proof. intros. unfold startTunnel. does. Qed.

Lemma Does_writeConfigFile_main_go (n i : string) (p : Z) (d c : string) :
  P (os_Create (Spec.config_path i)) ->
  (forall chunk, P (file_Write (Spec.config_path i) chunk)) ->
  P (file_Close (Spec.config_path i)) ->
  Does P (fun path => path = Spec.config_path i) (writeConfigFile n i p d c).
Proof. intros. unfold writeConfigFile. does. Qed.
End DoesMainGo.

Ltac does_main_go tac :=
  lazymatch goal with
  | |- Does _ _ (Main_go.loadAPIKeys _) => apply Does_loadAPIKeys_main_go; tac
  | |- Does _ _ (Main_go.loadCredentials _) => apply Does_loadCredentials_main_go; tac
  | |- Does _ _ (Main_go.saveCredentials _ _) => apply Does_saveCredentials_main_go; tac
  | |- Does _ _ Main_go.authenticateCloudflare => apply Does_authenticateCloudflare_main_go; tac
  | |- Does _ _ (Main_go.createTunnel _ _) => apply Does_createTunnel_main_go; tac
  | |- Does _ _ (Main_go.ensureDNSRecord _ _ _ _) => apply Does_ensureDNSRecord_main_go; tac
  | |- Does _ _ (Main_go.startTunnel _) => apply Does_startTunnel_main_go; tac
  | |- Does _ _ (Main_go.writeConfigFile _ _ _ _ _) => apply Does_writeConfigFile_main_go; tac
  end.

Ltac does_main_go_by tac :=
  cbv beta zeta;
  repeat (first [ does_call does_main_go tac | does_step tac ]; cbv beta zeta).

Section DoesMainGoMain.
Context `{EncodingJson} (P : Event -> Prop).
Hypothesis P_log : forall m, P (log_Print m).
Import Main_go.

Lemma Does_resolve_credentials_main_go (f : Flags) :
  P (os_ReadFile (credentials f)) ->
  P (cmd_Run Calls.login) ->
  P (cmd_Run (Calls.create (credentials f) (tunnel f))) ->
  (forall c, P (os_WriteFile (credentials f) (MarshalIndent_TunnelCredentials c) perm_0600)) ->
  Does P (fun _ => True) (resolve_credentials f).
Proof. intros. unfold resolve_credentials. does_main_go_by ltac:(solve [auto]). Qed.
End DoesMainGoMain.

Section DoesPart000.
Context `{EncodingJson} `{Part_000.GoStrings} (P : Event -> Prop).
Hypothesis P_log : forall m, P (log_Print m).
Import Part_000.

Lemma Does_loadCredentials_part_000 (p : string) :
  P (os_ReadFile p) -> Does P (fun _ => True) (loadCredentials p).
Proof. intros. unfold loadCredentials. does. Qed.

Lemma Does_saveCredentials_part_000 (p : string) (c : TunnelCredentials) :
  P (os_WriteFile p (MarshalIndent_TunnelCredentials c) perm_0600) ->
  Does P (fun _ => True) (saveCredentials p c).
Proof. intros. unfold saveCredentials. does. Qed.

Lemma Does_authenticateCloudflare_part_000 :
  P (cmd_Run Calls.login) -> Does P (fun _ => True) authenticateCloudflare.
Proof. intros. unfold authenticateCloudflare. does. Qed.

Lemma Does_createTunnel_part_000 (n p : string) :
  P (cmd_Run (Calls.create p n)) -> P (os_ReadFile p) ->
  Does P (fun _ => True) (createTunnel n p).
Proof. intros. unfold createTunnel, loadCredentials. does. Qed.

Lemma Does_ensureDNSRecord_part_000 (n d : string) :
  P (cmd_Run (Calls.route_dns n d)) -> Does P (fun _ => True) (ensureDNSRecord n d).
Proof. intros. unfold ensureDNSRecord. does. Qed.

Lemma Does_startTunnel_part_000 (cfg : string) :
  P (cmd_Start (Calls.tunnel_run cfg)) ->
  Does P (fun argv => argv = Calls.tunnel_run cfg) (startTunnel cfg).
Proof. intros. unfold startTunnel. does. Qed.

Lemma Does_writeConfigFile_part_000 (n : string) (ports : list Z) (d c : string) :
  P (os_Create (Spec.config_path n)) ->
  (forall chunk, P (file_Write (Spec.config_path n) chunk)) ->
  P (file_Close (Spec.config_path n)) ->
  Does P (fun path => path = Spec.config_path n) (writeConfigFile n ports d c).
Proof. intros. unfold writeConfigFile. does. Qed.

(** The loop over the fields of [--ports] makes no call. *)
Lemma Does_parse_ports (fields : list string) (ports : list Z) :
  Does P (fun _ => True) (parse_ports fields ports).
Proof.
  revert ports. induction fields as [| s fields IH]; intros ports; simpl.
  - constructor. exact I.
  - destruct (Atoi (TrimSpace s)); [apply IH | constructor].
Qed.
End DoesPart000.

Ltac does_part_000 tac :=
  lazymatch goal with
  | |- Does _ _ (Part_000.loadCredentials _) => apply Does_loadCredentials_part_000; tac
  | |- Does _ _ (Part_000.saveCredentials _ _) => apply Does_saveCredentials_part_000; tac
  | |- Does _ _ Part_000.authenticateCloudflare => apply Does_authenticateCloudflare_part_000; tac
  | |- Does _ _ (Part_000.createTunnel _ _) => apply Does_createTunnel_part_000; tac
  | |- Does _ _ (Part_000.ensureDNSRecord _ _) => apply Does_ensureDNSRecord_part_000; tac
  | |- Does _ _ (Part_000.startTunnel _) => apply Does_startTunnel_part_000; tac
  | |- Does _ _ (Part_000.writeConfigFile _ _ _ _) => apply Does_writeConfigFile_part_000; tac
  | |- Does _ _ (Part_000.parse_ports _ _) => apply Does_parse_ports
  end.

Ltac does_part_000_by tac :=
  cbv beta zeta;
  repeat (first [ does_call does_part_000 tac | does_step tac ]; cbv beta zeta).

Section DoesPart000Main.
Context `{EncodingJson} `{Part_000.GoStrings} (P : Event -> Prop).
Hypothesis P_log : forall m, P (log_Print m).
Import Part_000.

Lemma Does_resolve_credentials_part_000 (f : Flags) :
  P (os_ReadFile (credentials f)) ->
  P (cmd_Run Calls.login) ->
  P (cmd_Run (Calls.create (credentials f) (tunnel f))) ->
  (forall c, P (os_WriteFile (credentials f) (MarshalIndent_TunnelCredentials c) perm_0600)) ->
  Does P (fun _ => True) (resolve_credentials f).
Proof. intros. unfold resolve_credentials. does_part_000_by ltac:(solve [auto]). Qed.
End DoesPart000Main.

(** The side conditions of the three lists of allowed calls. *)
Ltac allowed_in unfolds :=
  intros; unfolds;
  first [ exact I
        | reflexivity
        | solve [auto 4]
        | solve [eexists; reflexivity]
        | solve [dns_request]
        | solve [left; dns_request]
        | solve [right; dns_request]
        | match goal with
          | Hp : String.eqb _ _ = true |- _ => apply String.eqb_eq in Hp; solve [auto]
          end ].

Section Footprints.
Context `{EncodingJson}.

Lemma Does_main_go (f : Main_go.Flags) :
  Does (Calls.allowed_main_go f) (fun _ => True) (Main_go.main f).
Proof.
  unfold Main_go.main, Main_go.main_reuse, Main_go.resolve_credentials.
  does_main_go_by ltac:(allowed_in ltac:(cbn [Calls.allowed_main_go])).
Qed.

Lemma Does_main_part_000 `{Part_000.GoStrings} (f : Part_000.Flags) :
  Does (Calls.allowed_part_000 f) (fun _ => True) (Part_000.main f).
Proof.
  unfold Part_000.main, Part_000.resolve_credentials.
  does_part_000_by ltac:(allowed_in ltac:(cbn [Calls.allowed_part_000])).
Qed.
End Footprints.
Section WpDoes.
Context {W : Type} (h : Handler W).

(** Sequencing after a part of the run that is known by its calls:
    [I] holds of the calls made before, [I'] of the calls made after. *)
Lemma wp_bind_Does {A B : Type} (P : Event -> Prop) (Q : A -> Prop)
    (I' : list Event -> Prop) (p : Prog A) (f : A -> Prog B) (w : W) (t0 : list Event)
    (R : list Event -> W -> Outcome B -> Prop) :
  Does P Q p ->
  (forall t', Forall P t' -> I' (t0 ++ t')) ->
  (forall a t w', I' t -> Q a -> wp h (f a) w' t R) ->
  (forall t w' m, I' t -> R t w' (Exited m)) ->
  wp h (bind p f) w t0 R.
Proof.
  intros Hp HI Hf He. apply wp_bind.
  eapply wp_conseq; [apply (wp_Does h P Q p w t0 Hp) |].
  cbv beta. intros t w' o [(t' & -> & Ht') Ho].
  destruct o as [a | m | m]; [auto | auto | contradiction].
Qed.

Lemma wp_end_Does {A : Type} (P : Event -> Prop) (Q : A -> Prop)
    (p : Prog A) (w : W) (t0 : list Event) (R : list Event -> W -> Outcome A -> Prop) :
  Does P Q p ->
  (forall t' w' o, Forall P t' ->
     match o with Returned a => Q a | Exited _ => True | Panicked _ => False end ->
     R (t0 ++ t') w' o) ->
  wp h p w t0 R.
Proof.
  intros Hp HR. eapply wp_conseq; [apply (wp_Does h P Q p w t0 Hp) |].
  cbv beta. intros t w' o [(t' & -> & Ht') Ho]. auto.
Qed.

Lemma wp_call {e : Event} (w : W) (t0 : list Event) (R : list Event -> W -> Outcome (Resp e) -> Prop) :
  (forall r w', h e w = (r, w') -> R (t0 ++ [e]) w' (Returned r)) -> wp h (call e) w t0 R.
Proof. intros Hr. unfold call. apply wp_Vis. intros r w' He. apply wp_Ret. auto. Qed.

Lemma wp_call_bind {A : Type} (e : Event) (k : Resp e -> Prog A) (w : W)
    (t0 : list Event) (R : list Event -> W -> Outcome A -> Prop) :
  (forall r w', h e w = (r, w') -> wp h (k r) w' (t0 ++ [e]) R) ->
  wp h (bind (call e) k) w t0 R.
Proof. intros Hk. apply wp_bind. apply wp_call. exact Hk. Qed.
End WpDoes.

Import Pipeline.

Lemma StronglySorted_app {T : Type} (R : T -> T -> Prop) (l1 l2 : list T) :
  StronglySorted R l1 -> StronglySorted R l2 ->
  (forall x y, In x l1 -> In y l2 -> R x y) ->
  StronglySorted R (l1 ++ l2).
Proof.
  intros H1 H2 H12. induction H1 as [| x l1 Hl1 IH Hx]; simpl; [exact H2 |].
  constructor.
  - apply IH. intros; apply H12; [right |]; assumption.
  - apply Forall_app. split; [exact Hx |].
    apply List.Forall_forall. intros y Hy. apply H12; [left; reflexivity | exact Hy].
Qed.

Lemma staged_nil : staged 0 [].
Proof. split; constructor. Qed.

Lemma StronglySorted_constant (k : nat) (l : list nat) :
  Forall (fun a => a = k) l -> StronglySorted le l.
Proof.
  induction 1 as [| a l -> Hl IH]; constructor; [exact IH |].
  revert Hl. apply List.Forall_impl. intros ? ->. constructor.
Qed.

Lemma staged_app (k k' : nat) (t t' : list Event) :
  staged k t -> (k <= k')%nat -> Forall (in_stage k') t' -> staged k' (t ++ t').
Proof.
  intros [Hs Hk] Hle Ht'. unfold staged. rewrite omap_app.
  assert (Hall : Forall (fun a => a = k') (omap stage t')).
  { induction Ht' as [| e t' [He | He] _ IH]; simpl; rewrite ?He; [constructor | exact IH |].
    constructor; [reflexivity | exact IH]. }
  split.
  - apply StronglySorted_app; [exact Hs | exact (StronglySorted_constant k' _ Hall) |].
    intros x y Hx Hy. rewrite List.Forall_forall in Hk, Hall.
    specialize (Hk x Hx). rewrite (Hall y Hy). lia.
  - apply Forall_app. split.
    + revert Hk. apply List.Forall_impl. intros; lia.
    + revert Hall. apply List.Forall_impl. intros ? ->. constructor.
Qed.

(** The side conditions [in_stage k e]. *)
Ltac stage_side := intros; first [left; reflexivity | right; reflexivity].

(** One call: the step reached so far moves on to the step of the call. *)
Ltac staged_event k :=
  lazymatch goal with
  | Hs : staged ?k0 ?t |- context [?t ++ [?e]] =>
      let Hn := fresh "Hs" in
      assert (Hn : staged k (t ++ [e]))
        by (apply (staged_app k0); [exact Hs | lia | repeat constructor; stage_side]);
      clear Hs
  end.

(** The rules of [wp], applied to the goal as it is written. *)
Ltac wp_call :=
  lazymatch goal with
  | |- wp ?h (bind (call ?e) ?k) ?w ?t ?R =>
      apply (wp_call_bind h e k w t R); intros ? ? ?
  | |- wp ?h (call ?e) ?w ?t ?R =>
      apply (wp_call h (e := e) w t R); intros ? ? ?; cbv beta iota
  end.

Ltac wp_defer :=
  lazymatch goal with
  | |- wp ?h (defer ?d ?p) ?w ?t ?R => apply (wp_defer h d p w t R)
  end.

Ltac staged_call k := wp_call; staged_event k.

(** A function whose calls all belong to the step [k]. *)
Ltac staged_bind k does_tac :=
  lazymatch goal with
  | Hs : staged ?k0 ?t |- wp ?h (bind ?p ?f) ?w ?t ?R =>
      eapply (wp_bind_Does h (in_stage k) _ (staged k) p f w t R);
      [ does_tac
      | let Ht := fresh in intros ? Ht; apply (staged_app k0); [exact Hs | lia | exact Ht]
      | clear Hs; intros ? ? ? Hs ?; cbv beta in *; subst
      | intros; cbv beta iota; eexists; eassumption ]
  end.

Ltac staged_done :=
  lazymatch goal with
  | Hs : staged ?k ?t |- _ => first [ exists k; exact Hs | eexists; eassumption ]
  end.

Section PipelinePart000.
Context `{EncodingJson} `{Part_000.GoStrings} {W : Type} (h : Handler W).
Import Part_000.

Lemma staged_main_part_000 (f : Flags) (w : W) :
  wp h (main f) w [] (fun t _ _ => exists k, staged k t).
Proof.
  pose proof staged_nil as Hs. unfold main.
  destruct (String.eqb (ports f) ""); [apply wp_Fatal; staged_done |].
  staged_bind 1%nat ltac:(idtac; does_part_000 stage_side).
  staged_bind 1%nat ltac:(idtac; apply Does_resolve_credentials_part_000; stage_side).
  staged_bind 2%nat ltac:(idtac; does_part_000 stage_side).
  wp_defer.
  staged_bind 3%nat ltac:(idtac; does_part_000 stage_side).
  staged_bind 5%nat ltac:(idtac; does_part_000 stage_side).
  staged_call 6%nat. staged_call 6%nat. staged_call 6%nat. staged_call 7%nat.
  staged_call 7%nat. staged_call 7%nat.
  staged_done.
Qed.
End PipelinePart000.

(** A function in the last position, followed by deferred calls. *)
Ltac staged_last k does_tac :=
  lazymatch goal with
  | Hs : staged ?k0 ?t |- wp ?h ?p ?w ?t ?R =>
      eapply (wp_end_Does h (in_stage k) _ p w t R);
      [ does_tac
      | let t' := fresh "t" in
        let o := fresh "o" in
        let Ht := fresh in
        let Hn := fresh "Hs" in
        intros t' ? o Ht ?;
        assert (Hn : staged k (t ++ t'))
          by (apply (staged_app k0); [exact Hs | lia | exact Ht]);
        clear Hs Ht; destruct o; cbv beta iota in *; [| | contradiction] ]
  end.

Section PipelineMainGo.
Context `{EncodingJson} {W : Type} (h : Handler W).
Import Main_go.

Lemma staged_main_go (f : Flags) (w : W) :
  wp h (main f) w [] (fun t _ _ => exists k, staged k t).
Proof.
  pose proof staged_nil as Hs. unfold main.
  destruct ((port f =? 0) || String.eqb (tunnel f) "" || String.eqb (domain f) "").
  - unfold main_reuse. staged_call 0%nat.
    staged_bind 1%nat ltac:(idtac; does_main_go stage_side).
    match goal with |- wp _ (match ?x with _ => _ end) _ _ _ => destruct x end;
      [| apply wp_Fatal; staged_done].
    staged_call 3%nat.
    match goal with |- wp _ (match ?x with _ => _ end) _ _ _ => destruct x end;
      try (apply wp_Fatal; staged_done).
    all: staged_call 3%nat; staged_bind 5%nat ltac:(idtac; does_main_go stage_side);
      staged_call 6%nat; staged_call 6%nat; staged_call 7%nat; staged_done.
  - staged_bind 1%nat ltac:(idtac; does_main_go stage_side).
    match goal with |- wp _ (match ?x with _ => _ end) _ _ _ => destruct x end;
      [| apply wp_Fatal; staged_done].
    staged_bind 1%nat ltac:(idtac; apply Does_resolve_credentials_main_go; stage_side).
    staged_bind 2%nat ltac:(idtac; does_main_go stage_side).
    wp_defer.
    staged_bind 3%nat ltac:(idtac; does_main_go stage_side).
    staged_bind 5%nat ltac:(idtac; does_main_go stage_side).
    staged_call 6%nat. staged_call 6%nat. staged_call 6%nat. staged_call 7%nat.
    staged_call 7%nat. staged_call 7%nat.
    staged_done.
Qed.
End PipelineMainGo.

Section PipelinePart001.
Context `{EncodingJson} {W : Type} (h : Handler W).
Import Part_001.

Lemma staged_main (f : Flags) (w : W) :
  wp h (main_thread f) w [] (fun t _ _ => exists k, staged k t).
Proof.
  pose proof staged_nil as Hs. unfold main_thread.
  destruct ((port f =? 0) || String.eqb (tunnel f) "" || String.eqb (domain f) "").
  - unfold main_reuse.
    staged_bind 1%nat ltac:(idtac; does_001 stage_side).
    match goal with |- wp _ (match ?x with _ => _ end) _ _ _ => destruct x end;
      [| apply wp_Fatal; staged_done].
    staged_call 3%nat.
    match goal with |- wp _ (match ?x with _ => _ end) _ _ _ => destruct x end;
      try (apply wp_Fatal; staged_done).
    all: do 2 wp_defer; staged_bind 5%nat ltac:(idtac; does_001 stage_side);
      staged_call 6%nat; staged_call 6%nat; staged_call 7%nat;
      staged_last 8%nat ltac:(idtac; does_001 stage_side); [| staged_done];
      staged_call 8%nat; staged_done.
  - staged_bind 1%nat ltac:(idtac; does_001 stage_side).
    match goal with |- wp _ (match ?x with _ => _ end) _ _ _ => destruct x end;
      [| apply wp_Fatal; staged_done].
    staged_bind 1%nat ltac:(idtac; does_001_main stage_side).
    staged_bind 2%nat ltac:(idtac; does_001 stage_side).
    staged_bind 2%nat ltac:(idtac; does_001_main stage_side).
    match goal with Hq : exists _, _ |- _ => destruct Hq as (r0 & rest & -> & _) end.
    do 2 wp_defer.
    staged_bind 3%nat ltac:(idtac; does_001 stage_side).
    staged_bind 4%nat ltac:(idtac; destruct (String.eqb (protocol f) "all");
                              [does_001 stage_side | constructor; exact I]).
    staged_bind 5%nat ltac:(idtac; does_001 stage_side).
    staged_call 6%nat. staged_call 6%nat. staged_call 7%nat. staged_call 7%nat.
    staged_last 8%nat ltac:(idtac; does_001 stage_side); [| staged_done].
    staged_call 8%nat. staged_done.
Qed.
End PipelinePart001.

(** ** The process of [part_001] and its main thread *)

Lemma steps_app (t1 t2 : list Event) : steps (t1 ++ t2) = steps t1 ++ steps t2.
Proof. unfold steps. apply List.filter_app. Qed.

Lemma stage_noise (e : Event) : noise e = true -> stage e = None.
Proof. destruct e; intros He; try discriminate He; reflexivity. Qed.

Lemma omap_cons' {T U : Type} (f : T -> option U) (x : T) (l : list T) :
  omap f (x :: l) = match f x with Some y => y :: omap f l | None => omap f l end.
Proof. reflexivity. Qed.

Lemma stage_steps (t : list Event) : omap stage (steps t) = omap stage t.
Proof.
  induction t as [| e t IH]; [reflexivity |].
  destruct (noise e) eqn:He.
  - rewrite (steps_noise e t He), omap_cons', (stage_noise e He). exact IH.
  - rewrite (steps_step e t He), !omap_cons', IH. reflexivity.
Qed.

Lemma writes_to_steps (path : string) (t : list Event) :
  writes_to path (steps t) = writes_to path t.
Proof.
  induction t as [| e t IH]; [reflexivity |].
  destruct (noise e) eqn:He.
  - rewrite (steps_noise e t He). destruct e; try discriminate He; exact IH.
  - rewrite (steps_step e t He). unfold writes_to in *. rewrite !omap_cons', IH. reflexivity.
Qed.

Lemma http_requests_steps (t : list Event) : http_requests (steps t) = http_requests t.
Proof.
  induction t as [| e t IH]; [reflexivity |].
  destruct (noise e) eqn:He.
  - rewrite (steps_noise e t He). destruct e; try discriminate He; exact IH.
  - rewrite (steps_step e t He). unfold http_requests in *. rewrite !omap_cons', IH.
    reflexivity.
Qed.

Lemma In_steps (e : Event) (t : list Event) :
  In e (steps t) <-> In e t /\ noise e = false.
Proof.
  unfold steps. rewrite List.filter_In. split; intros [Hin He]; split; try exact Hin.
  - destruct (noise e); [discriminate He | reflexivity].
  - rewrite He. reflexivity.
Qed.

(** A trace cut at a step, when its steps are known. *)
Lemma steps_cut (t : list Event) (a b : list Event) (x : Event) :
  steps t = a ++ x :: b ->
  exists a' b', t = a' ++ x :: b' /\ steps a' = a /\ steps b' = b.
Proof.
  revert a. induction t as [| e t IH]; intros a Ht.
  - destruct a; discriminate Ht.
  - destruct (noise e) eqn:He.
    + rewrite (steps_noise e t He) in Ht. destruct (IH a Ht) as (a' & b' & -> & Ha & Hb).
      exists (e :: a'), b'. split; [reflexivity |]. split; [| exact Hb].
      rewrite (steps_noise e a' He). exact Ha.
    + rewrite (steps_step e t He) in Ht. destruct a as [| y a].
      * injection Ht as -> Hb. exists [], t. split; [reflexivity |].
        split; [reflexivity | exact Hb].
      * injection Ht as -> Ht. destruct (IH a Ht) as (a' & b' & -> & Ha & Hb).
        exists (y :: a'), b'. split; [reflexivity |]. split; [| exact Hb].
        rewrite (steps_step y a' He), Ha. reflexivity.
Qed.

(** What holds of the goroutine's calls and of the calls of the main thread
    holds of the calls of the process. *)
Lemma Forall_steps (P : Event -> Prop) (t t' : list Event) :
  (forall e, noise e = true -> P e) ->
  steps t `prefix_of` steps t' -> Forall P t' -> Forall P t.
Proof.
  intros Hn [k Hk] Ht'. apply List.Forall_forall. intros e Hin.
  destruct (noise e) eqn:He; [exact (Hn e He) |].
  rewrite List.Forall_forall in Ht'. apply Ht'.
  assert (Hs : In e (steps t')).
  { rewrite Hk. apply in_or_app. left. apply In_steps. split; assumption. }
  apply In_steps in Hs. apply Hs.
Qed.

Lemma StronglySorted_prefix (l1 l2 : list nat) :
  l1 `prefix_of` l2 -> StronglySorted le l2 -> StronglySorted le l1.
Proof.
  intros [k ->]. revert k. induction l1 as [| x l1 IH]; intros k Hs; [constructor |].
  cbn [app] in Hs. apply StronglySorted_inv in Hs. destruct Hs as [Hs Hx].
  constructor; [exact (IH k Hs) |].
  apply Forall_app in Hx. apply Hx.
Qed.

Lemma omap_prefix {T U : Type} (f : T -> option U) (l1 l2 : list T) :
  l1 `prefix_of` l2 -> omap f l1 `prefix_of` omap f l2.
Proof. intros [k ->]. rewrite omap_app. apply prefix_app_r. reflexivity. Qed.

(** Once the daemon is started no request follows. *)
Lemma sorted_after (l1 l2 : list nat) (x : nat) :
  StronglySorted le (l1 ++ x :: l2) -> Forall (fun y => x <= y)%nat l2.
Proof.
  induction l1 as [| y l1 IH]; cbn [app]; intros Hs; apply StronglySorted_inv in Hs.
  - apply Hs.
  - apply IH, Hs.
Qed.

Lemma no_request_after_start (t1 t2 : list Event) (argv : list string) :
  StronglySorted le (omap stage (t1 ++ cmd_Start argv :: t2)) -> http_requests t2 = [].
Proof.
  rewrite omap_app, omap_cons'. cbn [stage]. intros Hs. apply sorted_after in Hs.
  induction t2 as [| e t2 IH]; [reflexivity |].
  rewrite omap_cons' in Hs. unfold http_requests in *. rewrite omap_cons'.
  destruct e; cbn [stage] in Hs;
    try (apply IH; first [exact Hs | apply Forall_inv_tail in Hs; exact Hs]).
  - destruct (if Spec.is_provisioning argv0 then _ else _);
      apply IH; first [exact Hs | apply Forall_inv_tail in Hs; exact Hs].
  - apply Forall_inv in Hs. lia.
Qed.

Section Process001.
Context `{EncodingJson} {W : Type} (h : Handler W).
Import Part_001.

Lemma Goroutine_relay (addr : string) : Goroutine relay_error (relay addr).
Proof.
  unfold relay, call. cbn [bind]. constructor; [reflexivity |]. intros _.
  constructor; [reflexivity |]. intros [err |]; constructor.
  exists err. reflexivity.
Qed.

Lemma Goroutine_spawn (e : Event) (g : Prog unit) :
  spawn e = Some g -> Goroutine relay_error g.
Proof. destruct e; intros Hs; try discriminate Hs. injection Hs as <-. apply Goroutine_relay. Qed.

(** Every run of [main] is the run of its main thread in the environment
    with the relay folded in, or a part of it that the relay ended. *)
Lemma main_simulated (f : Flags) (w : W) :
  simulated relay_error (run h (main f) w)
    (run (beside h spawn) (main_thread f) (w, None)).
Proof. unfold main. apply go_sim. exact Goroutine_spawn. Qed.

Lemma main_steps (f : Flags) (w : W) :
  steps (trace (run h (main f) w))
  `prefix_of` steps (trace (run (beside h spawn) (main_thread f) (w, None))).
Proof.
  destruct (main_simulated f w) as [[_ Ht] | (m & _ & _ & Ht)]; [rewrite Ht |]; auto.
Qed.

(** The steps of the process come in the order of those of its main
    thread. *)
Lemma main_sorted (f : Flags) (w : W) :
  StronglySorted le (omap stage (trace (run h (main f) w))).
Proof.
  destruct (staged_main (beside h spawn) f (w, None)) as [k [Hs _]].
  cbn [app] in Hs. rewrite <- stage_steps in Hs |- *.
  exact (StronglySorted_prefix _ _ (omap_prefix stage _ _ (main_steps f w)) Hs).
Qed.

(** A run of [main] cut at a step: the run of the main thread has the same
    step, after the same steps. *)
Lemma main_cut (f : Flags) (w : W) (t1 t2 : list Event) (x : Event) :
  noise x = false ->
  trace (run h (main f) w) = t1 ++ x :: t2 ->
  exists a b,
    trace (run (beside h spawn) (main_thread f) (w, None)) = a ++ x :: b
    /\ steps a = steps t1.
Proof.
  intros Hx Ht. pose proof (main_steps f w) as [k Hk].
  rewrite Ht, steps_app, (steps_step x t2 Hx), <- app_assoc in Hk. cbn [app] in Hk.
  destruct (steps_cut _ _ _ _ Hk) as (a & b & Hab & Ha & _).
  exists a, b. split; assumption.
Qed.
End Process001.


(** ** The calls a run may make *)

(** X2.  Whatever the command line and the environment, every call of a run
    of [part_001] is one of these.  Files: the API keys file and the
    credentials file are read; the credentials file is written, with the mode
    0600; a file named [./<id>-config.yml] is created, written, closed or
    looked up.  Sub-processes: [cloudflared tunnel login], [cloudflared
    tunnel --credentials-file <credentials> create <tunnel>], [cloudflared
    tunnel logout] are run; [cloudflared --config ./<id>-config.yml tunnel
    run] is started and waited for.  Requests: the lookup of the records of a
    zone by name, or the creation of the CNAME record, for the hostname of
    [--domain] or of [--proxy-domain].  The SOCKS5 relay, only when the
    protocol is [all], on [127.0.0.1] and the port of [--socks5-port]: its
    creation, its start, and in its goroutine [ListenAndServe] on that
    address, with the turns the scheduler gives to the goroutine.  Log lines,
    the wait for the signal and the cancel function. *)
Theorem part_001_calls_are_listed `{EncodingJson} {W : Type} (h : Handler W) (w : W)
    (f : Part_001.Flags) :
  Forall (Calls.allowed_part_001 f) (trace (run h (Part_001.main f) w)).
Proof. exact (proj1 (Does_run h _ _ _ w (Does_main f))). Qed.

(** X3.  The calls of a run of [main.go]: as for [part_001], without the
    logout, without the relay, and with requests for the hostname of
    [--domain] only. *)
Theorem main_go_calls_are_listed `{EncodingJson} {W : Type} (h : Handler W) (w : W)
    (f : Main_go.Flags) :
  Forall (Calls.allowed_main_go f) (trace (run h (Main_go.main f) w)).
Proof. exact (proj1 (Does_run h _ _ _ w (Does_main_go f))). Qed.

(** X4.  The calls of a run of [part_000]: the credentials file is read and
    written (mode 0600), a file named [./<id>-config.yml] is created, written
    and closed, and [cloudflared] is run to log in, to create the tunnel and
    to route the DNS name ([cloudflared tunnel route dns <tunnel> <domain>]),
    then started and waited for.  No request is made and no API keys file is
    read. *)
Theorem part_000_calls_are_listed `{EncodingJson} `{Part_000.GoStrings} {W : Type}
    (h : Handler W) (w : W) (f : Part_000.Flags) :
  Forall (Calls.allowed_part_000 f) (trace (run h (Part_000.main f) w)) /\
  http_requests (trace (run h (Part_000.main f) w)) = [].
Proof.
  pose proof (proj1 (Does_run h _ _ _ w (Does_main_part_000 f))) as Ha.
  split; [exact Ha |].
  induction Ha as [| e t He _ IH]; [reflexivity |].
  destruct e; try exact IH. destruct He.
Qed.

(** ** The order of the calls *)

(** X5.  In every run of [part_001] the calls come in the order of the
    pipeline: first the API keys and the tunnel identity (files, login,
    creation of the tunnel), then the DNS records, then the ingress
    configuration, then the relay, then the start of the daemon, the wait for
    the signal, the wait for the daemon and the logout.  No call of an earlier
    step follows a call of a later one.  The calls of the relay's goroutine,
    which runs beside the later steps, belong to no step. *)
Theorem part_001_calls_follow_the_pipeline `{EncodingJson} {W : Type} (h : Handler W)
    (w : W) (f : Part_001.Flags) :
  StronglySorted le (omap stage (trace (run h (Part_001.main f) w))).
Proof. exact (main_sorted h f w). Qed.

(** X6.  The same order holds in every run of [main.go]. *)
Theorem main_go_calls_follow_the_pipeline `{EncodingJson} {W : Type} (h : Handler W)
    (w : W) (f : Main_go.Flags) :
  StronglySorted le (omap stage (trace (run h (Main_go.main f) w))).
Proof. destruct (staged_main_go h f w) as [k [Hs _]]. exact Hs. Qed.

(** X7.  The same order holds in every run of [part_000], where the DNS step
    is the call of [cloudflared tunnel route dns]. *)
Theorem part_000_calls_follow_the_pipeline `{EncodingJson} `{Part_000.GoStrings}
    {W : Type} (h : Handler W) (w : W) (f : Part_000.Flags) :
  StronglySorted le (omap stage (trace (run h (Part_000.main f) w))).
Proof. destruct (staged_main_part_000 h f w) as [k [Hs _]]. exact Hs. Qed.

(** ** Runs, call by call *)

(** One step of a run: a call, a return, an exit, a case distinction. *)
Ltac wp_step :=
  lazymatch goal with
  | |- wp ?h (Ret ?a) ?w ?t ?R => apply (wp_Ret h a w t R); cbv beta iota
  | |- wp ?h (Fatal ?m) ?w ?t ?R => apply (wp_Fatal h m w t R); cbv beta iota
  | |- wp ?h (bind (call ?e) ?k) ?w ?t ?R => wp_call
  | |- wp ?h (call ?e) ?w ?t ?R => wp_call
  | |- wp ?h (bind (Ret ?a) ?k) ?w ?t ?R => change (wp h (k a) w t R); cbv beta
  | |- wp ?h (bind (Fatal ?m) ?k) ?w ?t ?R => change (wp h (Fatal m) w t R)
  | |- wp ?h (bind (match ?x with _ => _ end) ?k) ?w ?t ?R => destruct x eqn:?
  | |- wp ?h (bind ?p ?f) ?w ?t ?R => apply (wp_bind h p f w t R)
  | |- wp ?h (defer ?d ?p) ?w ?t ?R => wp_defer
  | |- wp _ (match ?x with _ => _ end) _ _ _ => destruct x eqn:?
  end.
Ltac wp_steps := cbv beta zeta; repeat (wp_step; cbv beta zeta).

(** A function whose calls all satisfy the predicate that held so far. *)
Ltac kept_bind does_tac :=
  lazymatch goal with
  | Hs : Forall ?P ?t |- wp ?h (bind ?p ?f) ?w ?t ?R =>
      eapply (wp_bind_Does h P _ (Forall P) p f w t R);
      [ does_tac
      | let Ht := fresh in intros ? Ht; apply Forall_app; split; [exact Hs | exact Ht]
      | clear Hs; intros ? ? ? Hs ?; cbv beta in *; subst
      | intros; cbv beta iota ]
  end.

(** One call that satisfies the predicate that held so far. *)
Ltac kept_event :=
  lazymatch goal with
  | Hs : Forall ?P ?t |- context [?t ++ [?e]] =>
      let Hn := fresh "Hs" in
      assert (Hn : Forall P (t ++ [e]))
        by (apply Forall_app; split; [exact Hs | repeat constructor]);
      clear Hs
  end.
Ltac kept_call := wp_call; kept_event.

Ltac shutdown_done :=
  first
    [ assumption
    | apply Forall_app; split; [assumption | repeat constructor]
    | lazymatch goal with
      | |- context [?t0 ++ [cmd_Start ?argv]] =>
          lazymatch goal with
          | |- context [(_ ++ [cmd_Run _]) ++ [log_Print ?l]] =>
              exists t0, argv, l; split; [rewrite <- !app_assoc; reflexivity | assumption]
          end
      end ].

Section Shutdown.
Context `{EncodingJson} {W : Type} (h : Handler W).
Import Part_001.

Let clean (e : Event) : Prop := is_cleanup e = false.

Lemma wp_main_shutdown (f : Flags) (w : W) :
  wp h (main_thread f) w [] (fun t _ o =>
    match o with
    | Returned _ =>
        exists t0 argv l,
          t = t0 ++ [cmd_Start argv; log_Print "Cloudflared tunnel started."; signal_Wait;
                     ctx_cancel; cmd_Wait argv]
                 ++ (if (port f =? 0) || String.eqb (tunnel f) "" || String.eqb (domain f) ""
                     then [] else [log_Print "Cloudflare Tunnel stopped."])
                 ++ [log_Print "Logging out of Cloudflare..."; cmd_Run Calls.logout;
                     log_Print l; ctx_cancel] /\
          Forall clean t0
    | Exited _ => Forall clean t
    | Panicked _ => False
    end).
Proof.
  assert (Hs : Forall clean []) by constructor.
  assert (Hadd : forall t e, Forall clean t -> clean e -> Forall clean (t ++ [e])).
  { intros t e Ht He. apply Forall_app. split; [exact Ht | repeat constructor; exact He]. }
  unfold main_thread.
  destruct ((port f =? 0) || String.eqb (tunnel f) "" || String.eqb (domain f) "").
  - unfold main_reuse.
    kept_bind ltac:(idtac; does_001 ltac:(intros; reflexivity)); [| assumption].
    wp_step; [| wp_step; assumption].
    kept_call.
    unfold startTunnel, logoutCloudflare.
    wp_step; try (wp_step; assumption).
    all: wp_steps; shutdown_done.
  - kept_bind ltac:(idtac; does_001 ltac:(intros; reflexivity)); [| assumption].
    wp_step; [| wp_step; assumption].
    kept_bind ltac:(idtac; does_001_main ltac:(intros; reflexivity)); [| assumption].
    kept_bind ltac:(idtac; does_001 ltac:(intros; reflexivity)); [| assumption].
    kept_bind ltac:(idtac; does_001_main ltac:(intros; reflexivity)); [| assumption].
    match goal with Hq : exists _, _ |- _ => destruct Hq as (r0 & rest & -> & _) end.
    do 2 wp_defer.
    kept_bind ltac:(idtac; does_001 ltac:(intros; reflexivity)); [| assumption].
    kept_bind ltac:(idtac; destruct (String.eqb (protocol f) "all");
                    [does_001 ltac:(intros; reflexivity) | constructor; exact I]);
      [| assumption].
    unfold startTunnel, logoutCloudflare.
    wp_steps; shutdown_done.
Qed.
End Shutdown.

(** ** The configuration the daemon is started on *)

Lemma no_writes (path : string) (t : list Event) :
  Forall (fun e => Calls.is_write e = false) t -> writes_to path t = [].
Proof.
  induction 1 as [| e t He _ IH]; [reflexivity |].
  destruct e; try discriminate He; exact IH.
Qed.

Lemma no_start_split (t t1 t2 : list Event) (argv : list string) :
  Forall (fun e => Calls.is_start e = false) t -> t <> t1 ++ cmd_Start argv :: t2.
Proof.
  intros Ht ->. apply Forall_app in Ht. destruct Ht as [_ Ht].
  inversion Ht as [| ? ? He _]; subst. discriminate He.
Qed.

(** A trace with one start has one way to be cut at a start. *)
Lemma one_start_split (t t' t1 t2 : list Event) (argv argv' : list string) :
  Forall (fun e => Calls.is_start e = false) t ->
  Forall (fun e => Calls.is_start e = false) t' ->
  t ++ cmd_Start argv :: t' = t1 ++ cmd_Start argv' :: t2 ->
  t1 = t /\ argv' = argv.
Proof.
  intros Ht Ht'. revert t1. induction Ht as [| e t He _ IH]; intros t1 Heq.
  - destruct t1 as [| e1 t1]; simpl in Heq.
    + injection Heq as -> _. split; reflexivity.
    + injection Heq as <- Heq. exfalso. exact (no_start_split _ _ _ _ Ht' Heq).
  - destruct t1 as [| e1 t1]; simpl in Heq.
    + injection Heq as -> _. discriminate He.
    + injection Heq as <- Heq. destruct (IH t1 Heq) as [-> ->]. split; reflexivity.
Qed.

Lemma fallback_routes_for (f : Part_001.Flags) (r0 : Route) (rest : list Route) :
  r0 :: rest = Calls.routes_for f -> Part_001.fallback_of r0 = Calls.fallback_for f.
Proof.
  unfold Calls.routes_for, Calls.fallback_for. cbv zeta.
  destruct (String.eqb (Part_001.protocol f) "http").
  - intros [= -> _]. reflexivity.
  - destruct (String.eqb (Part_001.protocol f) "tcp"); [intros [= -> _]; reflexivity |].
    destruct (String.eqb (Part_001.protocol f) "all"); [intros [= -> _]; reflexivity |].
    discriminate.
Qed.

Section WpWriters.
Context {W : Type} (h : Handler W).

(** The loops of the writers, as [run_block_loop] has them. *)
Lemma wp_block_loop {T A : Type} (path : string) (f g : T -> string) (l : list T)
    (k : unit -> Prog A) (w : W) (t0 : list Event) (R : list Event -> W -> Outcome A -> Prop) :
  (forall w', wp h (k tt) w'
     (t0 ++ map (file_Write path) (concat (map (fun x => [f x; g x]) l))) R) ->
  wp h (bind (for_range l (fun x =>
          call (file_Write path (f x)) ;;; call (file_Write path (g x)))) k) w t0 R.
Proof.
  intros Hk. apply wp_bind. unfold wp at 1. cbv zeta.
  destruct (run_block_loop h path f g l w) as [Ho Ht]. cbv zeta in Ho, Ht.
  rewrite Ho, Ht. apply Hk.
Qed.

(** [writeConfigFile] of [part_001] on a list with a first route: the file
    is created, the whole configuration is written, the file is closed. *)
Lemma wp_writeConfigFile (tunnelID credentialsPath : string) (r0 : Route)
    (rest : list Route) (w : W) (t0 : list Event) :
  let path := Spec.config_path tunnelID in
  wp h (Part_001.writeConfigFile tunnelID credentialsPath (r0 :: rest)) w t0
    (fun t _ o =>
       match o with
       | Returned p =>
           p = path /\
           t = t0 ++ os_Create path
                  :: map (file_Write path)
                       (Spec.ingress_config tunnelID credentialsPath
                          (map (fun r => Spec.mapping_block (Hostname r) (Service r))
                             (r0 :: rest))
                          (Part_001.fallback_of r0))
                  ++ [log_Print ("Config file written to " +:+ path +:+ nl); file_Close path]
       | Exited _ => t = t0 ++ [os_Create path]
       | Panicked _ => False
       end).
Proof.
  intros path. unfold Part_001.writeConfigFile. fold (Spec.config_path tunnelID). fold path.
  cbv zeta. wp_step. wp_step; [wp_step; reflexivity |].
  wp_step. do 3 wp_step.
  lazymatch goal with
  | |- wp ?h (bind (for_range ?l _) ?k) ?w ?t ?R =>
      apply (wp_block_loop path (fun r => "  - hostname: " +:+ Hostname r +:+ nl)
               (fun r => "    service: " +:+ Service r +:+ nl) l k w t R)
  end.
  intros w1. wp_steps. split; [reflexivity |].
  unfold Spec.ingress_config. rewrite <- !app_assoc. cbn [app map concat].
  rewrite !map_app. cbn [app map]. rewrite <- !app_assoc. reflexivity.
Qed.
End WpWriters.

Lemma Forall_no_start_writes (path : string) (chunks : list string) :
  Forall (fun e => Calls.is_start e = false) (map (file_Write path) chunks).
Proof. induction chunks; constructor; [reflexivity | assumption]. Qed.

(** After calls that neither start nor write, a configuration written in
    full and closed, and more such calls: nothing was started, the chunks
    written to the file are those of the configuration, and the file is
    closed. *)
Lemma config_then_idle (t0 ts : list Event) (path l : string) (chunks : list string) :
  Forall Calls.idle t0 -> Forall Calls.idle ts ->
  let before :=
    (t0 ++ os_Create path :: map (file_Write path) chunks
        ++ [log_Print l; file_Close path]) ++ ts in
  Forall (fun e => Calls.is_start e = false) before /\
  writes_to path before = chunks /\
  In (file_Close path) before.
Proof.
  intros H0 Hs before. subst before.
  assert (Hw : forall t, Forall Calls.idle t -> Forall (fun e => Calls.is_write e = false) t).
  { intros t. apply List.Forall_impl. intros e He. apply He. }
  assert (Hn : forall t, Forall Calls.idle t -> Forall (fun e => Calls.is_start e = false) t).
  { intros t. apply List.Forall_impl. intros e He. apply He. }
  split; [| split].
  - repeat (apply Forall_app; split); auto.
    constructor; [reflexivity |]. apply Forall_app. split;
      [apply Forall_no_start_writes | repeat constructor].
  - rewrite !writes_to_app, (no_writes _ t0 (Hw _ H0)), (no_writes _ ts (Hw _ Hs)).
    rewrite writes_to_other by exact I. rewrite writes_to_app, writes_to_map.
    rewrite writes_to_other by exact I. rewrite writes_to_other by exact I.
    rewrite writes_to_nil, !app_nil_r. reflexivity.
  - apply in_or_app. left. apply in_or_app. right. right.
    apply in_or_app. right. right. left. reflexivity.
Qed.

(** A trace without a start cannot be cut at a start. *)
Ltac no_start :=
  intros;
  lazymatch goal with
  | Heq : _ = _ ++ cmd_Start _ :: _ |- _ => exfalso; revert Heq; apply no_start_split
  end;
  first [ assumption
        | match goal with
          | Hs : Forall Calls.idle ?t |- Forall _ ?t =>
              revert Hs; apply List.Forall_impl; let He := fresh in intros ? He; apply He
          | Hs : Forall Calls.idle ?t |- Forall _ (?t ++ _) =>
              apply Forall_app; split;
              [ revert Hs; apply List.Forall_impl; let He := fresh in intros ? He; apply He
              | repeat constructor ]
          end ].

(** A trace with one start, cut at a start. *)
Ltac one_start Hready Hquiet :=
  let Heq := fresh in
  intros ? ? ? Heq; rewrite <- ?app_assoc in Heq; cbn [app] in Heq;
  apply one_start_split in Heq;
  [destruct Heq as [-> ->]; exact Hready | exact Hquiet | repeat constructor].

Section StartsOnConfig.
Context `{EncodingJson} {W : Type} (h : Handler W).
Import Part_001.

(** What holds when the daemon is started with [argv] after the calls [t]:
    the configuration named by [argv] has been written in full and closed. *)
Let ready (f : Flags) (t : list Event) (argv : list string) : Prop :=
  exists creds,
    let path := Spec.config_path (TunnelID creds) in
    argv = Calls.tunnel_run path /\
    writes_to path t
    = Spec.ingress_config (TunnelID creds) (credentials f)
        (map (fun r => Spec.mapping_block (Hostname r) (Service r)) (Calls.routes_for f))
        (Calls.fallback_for f) /\
    In (file_Close path) t.

Lemma wp_main_starts_on_config (f : Flags) (w : W) :
  (port f =? 0) || String.eqb (tunnel f) "" || String.eqb (domain f) "" = false ->
  wp h (main_thread f) w [] (fun t _ _ =>
    forall t1 argv t2, t = t1 ++ cmd_Start argv :: t2 -> ready f t1 argv).
Proof.
  intros Hflags.
  assert (Hs : Forall Calls.idle []) by constructor.
  unfold main_thread. rewrite Hflags.
  kept_bind ltac:(idtac; does_001 ltac:(intros; split; reflexivity)); [| no_start].
  wp_step; [| wp_step; no_start].
  kept_bind ltac:(idtac; does_001_main ltac:(intros; split; reflexivity)); [| no_start].
  kept_bind ltac:(idtac; does_001 ltac:(intros; split; reflexivity)); [| no_start].
  kept_bind ltac:(idtac; does_001_main ltac:(intros; split; reflexivity)); [| no_start].
  match goal with Hq : exists _, _ |- _ => destruct Hq as (r0 & rest & -> & Hroutes) end.
  do 2 wp_defer.
  lazymatch goal with
  | |- wp ?h (bind ?p ?k) ?w ?t ?R => apply (wp_bind h p k w t R)
  end.
  eapply wp_conseq; [apply wp_writeConfigFile |].
  cbv beta zeta. intros t' w1 [p | m | m] Ho; [| subst t'; no_start | contradiction].
  destruct Ho as [-> ->].
  lazymatch goal with
  | |- wp ?h (bind ?p ?k) ?w ?t ?R =>
      eapply (wp_bind_Does h Calls.idle _
                (fun t' => exists ts, t' = t ++ ts /\ Forall Calls.idle ts) p k w t R)
  end.
  { destruct (String.eqb (protocol f) "all");
      [does_001 ltac:(intros; split; reflexivity) | constructor; exact I]. }
  { intros ts Hts. exists ts. split; [reflexivity | exact Hts]. }
  all: intros ? ? ? (ts & -> & Hts); cbv beta iota;
    lazymatch goal with
    | |- context [(?t0 ++ os_Create ?p :: map (file_Write ?p) ?chunks ++ [log_Print ?l; _])
                  ++ ts] =>
        destruct (config_then_idle t0 ts p l chunks Hs Hts) as (Hquiet & Hwritten & Hclosed);
        cbv zeta in Hquiet, Hwritten, Hclosed;
        assert (Hready : ready f ((t0 ++ os_Create p :: map (file_Write p) chunks
                                      ++ [log_Print l; file_Close p]) ++ ts)
                           (Calls.tunnel_run p))
          by (eexists; cbv zeta; split; [reflexivity |]; split; [| exact Hclosed];
              rewrite Hwritten, (fallback_routes_for f r0 rest Hroutes), Hroutes;
              reflexivity);
        clear Hwritten Hclosed;
        generalize dependent ((t0 ++ os_Create p :: map (file_Write p) chunks
                                  ++ [log_Print l; file_Close p]) ++ ts);
        intros before Hquiet Hready
    end.
  - intros _. unfold startTunnel, logoutCloudflare. wp_steps.
    all: one_start Hready Hquiet.
  - no_start.
Qed.
End StartsOnConfig.

(** X8.  With a complete command line, whenever a run of [part_001] starts
    the daemon, it starts [cloudflared --config ./<id>-config.yml tunnel run]
    for one tunnel ID, and by then that very file has been written in full
    and closed: the tunnel line of that ID, the credentials-file line of
    [--credentials], the ingress header, one block per route of the
    protocol ([http]: the port over HTTP; [tcp]: the port over TCP; [all]: the
    port and the relay port over TCP under the two hostnames) and the fallback
    line of the protocol. *)
Theorem part_001_daemon_starts_on_the_written_config `{EncodingJson} {W : Type}
    (h : Handler W) (w : W) (f : Part_001.Flags) (t1 t2 : list Event) (argv : list string) :
  (Part_001.port f =? 0) || String.eqb (Part_001.tunnel f) ""
    || String.eqb (Part_001.domain f) "" = false ->
  trace (run h (Part_001.main f) w) = t1 ++ cmd_Start argv :: t2 ->
  exists creds,
    let path := Spec.config_path (TunnelID creds) in
    argv = ["cloudflared"; "--config"; path; "tunnel"; "run"] /\
    writes_to path t1
    = Spec.ingress_config (TunnelID creds) (Part_001.credentials f)
        (map (fun r => Spec.mapping_block (Hostname r) (Service r)) (Calls.routes_for f))
        (Calls.fallback_for f) /\
    In (file_Close path) t1.
Proof.
  intros Hflags Hsplit.
  destruct (main_cut h f w t1 t2 (cmd_Start argv) eq_refl Hsplit) as (a & b & Hab & Ha).
  destruct (wp_main_starts_on_config (beside h Part_001.spawn) f (w, None) Hflags a argv b Hab)
    as (creds & Hargv & Hw & Hc).
  exists creds. cbv zeta in *. split; [exact Hargv |]. split.
  - rewrite <- writes_to_steps, <- Ha, writes_to_steps. exact Hw.
  - assert (Hin : In (file_Close (Spec.config_path (TunnelID creds))) (steps t1)).
    { rewrite <- Ha. apply In_steps. split; [exact Hc | reflexivity]. }
    apply In_steps in Hin. apply Hin.
Qed.

(** Its witness: a run of the example environment with the credentials in
    place, cut at the start of the daemon. *)
Lemma part_001_daemon_starts_witness :
  let t := trace (run Fake.env (Part_001.main (H := GoJson.encoding_json) Fake.flags_001)
                    Fake.provisioned) in
  let argv := ["cloudflared"; "--config"; "./abc123-config.yml"; "tunnel"; "run"] in
  t = firstn 14 t ++ cmd_Start argv :: skipn 15 t /\
  exists creds,
    let path := Spec.config_path (TunnelID creds) in
    argv = ["cloudflared"; "--config"; path; "tunnel"; "run"] /\
    writes_to path (firstn 14 t)
    = Spec.ingress_config (TunnelID creds) "./credentials.json"
        [Spec.mapping_block "a.test" "http://localhost:8080"] "http_status:404" /\
    In (file_Close path) (firstn 14 t).
Proof.
  intros t argv.
  assert (Hsplit : t = firstn 14 t ++ cmd_Start argv :: skipn 15 t)
    by (vm_compute; reflexivity).
  split; [exact Hsplit |].
  exact (part_001_daemon_starts_on_the_written_config (H := GoJson.encoding_json)
           Fake.env Fake.provisioned Fake.flags_001 _ _ _ eq_refl Hsplit).
Defined.

(** ** The end of a run *)

Lemma filter_none {T : Type} (p : T -> bool) (l : list T) :
  Forall (fun x => p x = false) l -> List.filter p l = [].
Proof. induction 1 as [| x l Hx _ IH]; [reflexivity |]. simpl. rewrite Hx. exact IH. Qed.

(** X9.  A run of [part_001] returns only through the shutdown sequence.
    Of the calls of the main thread, log lines apart, the last six of a run
    that returns are: the daemon started, the signal received, the context
    cancelled, the daemon waited for, then (deferred) [cloudflared tunnel
    logout] and the context cancelled once more; and no logout and no cancel
    comes before them.  A run that ends through [log.Fatal] in the main thread
    has neither logged out nor cancelled: the deferred calls are skipped.  The
    only other way a run ends is the relay: when [ListenAndServe] returns an
    error in the goroutine of [startSocks5], the process exits with "SOCKS5
    server error: ..." wherever the main thread is, the shutdown included.  No
    run panics. *)
Theorem part_001_logout_ends_a_returning_run `{EncodingJson} {W : Type} (h : Handler W)
    (w : W) (f : Part_001.Flags) :
  let r := run h (Part_001.main f) w in
  match outcome r with
  | Returned _ =>
      exists t0 argv,
        steps (trace r)
        = t0 ++ [cmd_Start argv; signal_Wait; ctx_cancel; cmd_Wait argv;
                 cmd_Run ["cloudflared"; "tunnel"; "logout"]; ctx_cancel] /\
        List.filter is_cleanup t0 = []
  | Exited m =>
      List.filter is_cleanup (trace r) = []
      \/ exists err, m = "SOCKS5 server error: " +:+ err
  | Panicked _ => False
  end.
Proof.
  intros r.
  pose proof (wp_main_shutdown (beside h Part_001.spawn) f (w, None)) as Hr.
  unfold wp in Hr. cbv zeta in Hr. cbn [app] in Hr.
  pose proof (main_steps h f w) as Hpre. fold r in Hpre.
  destruct (main_simulated h f w) as [[Ho Ht] | (m & Ho & Hm & _)]; fold r in Ho.
  - fold r in Ht. rewrite Ho.
    destruct (outcome (run (beside h Part_001.spawn) (Part_001.main_thread f) (w, None)))
      as [a | m | m].
    + destruct Hr as (t0 & argv & l & Ht' & Hc). exists (steps t0), argv.
      rewrite Ht, Ht', !steps_app. split.
      * destruct ((Part_001.port f =? 0) || String.eqb (Part_001.tunnel f) ""
                  || String.eqb (Part_001.domain f) ""); reflexivity.
      * apply filter_none. apply List.Forall_forall. intros e He.
        apply In_steps in He. rewrite List.Forall_forall in Hc. apply Hc, He.
    + left. apply filter_none.
      apply (Forall_steps (fun e => is_cleanup e = false) _ _
               (fun e He => ltac:(destruct e; try discriminate He; reflexivity)) Hpre Hr).
    + exact Hr.
  - rewrite Ho. right. exact Hm.
Qed.

(** ** [part_000]: the ports of the command line *)

Section Ports.
Context `{EncodingJson} `{Part_000.GoStrings}.
Import Part_000.

(** The field [s] is the number [n]. *)
Let is_port (s : string) (n : Z) : Prop := Atoi (TrimSpace s) = Ok n.

(** The loop over the fields makes no call: on fields that are all numbers
    it is the program that returns them in order, after the ports it was
    given. *)
Lemma parse_ports_numbers (fields : list string) (ns ports : list Z) :
  Forall2 is_port fields ns -> parse_ports fields ports = Ret (ports ++ ns).
Proof.
  intros Hf. revert ports. induction Hf as [| s n fields ns Hs _ IH]; intros ports; simpl.
  - rewrite app_nil_r. reflexivity.
  - unfold is_port in Hs. rewrite Hs, IH, <- app_assoc. reflexivity.
Qed.

(** On the first field that is not a number it is the program that exits
    with that field, as it was given. *)
Lemma parse_ports_not_a_number (good : list string) (ns : list Z) (bad : string)
    (e : error) (rest : list string) (ports : list Z) :
  Forall2 is_port good ns -> Atoi (TrimSpace bad) = Err e ->
  parse_ports (good ++ bad :: rest) ports = Fatal ("Invalid port specified: " +:+ bad).
Proof.
  intros Hg Hb. revert ports. induction Hg as [| s n good ns Hs _ IH]; intros ports; simpl.
  - rewrite Hb. reflexivity.
  - unfold is_port in Hs. rewrite Hs. apply IH.
Qed.

Lemma Split_not_empty (s : string) (sep : ascii) : Split s sep <> [].
Proof.
  destruct s as [| c s]; simpl; [discriminate |].
  destruct (Ascii.eqb c sep); [discriminate |]. destruct (Split s sep); discriminate.
Qed.

(** The fields of a string joined by the separator are the string: nothing
    is lost and nothing is added by [Split]. *)
Lemma Split_join (s : string) (sep : ascii) :
  String.concat (String sep EmptyString) (Split s sep) = s.
Proof.
  induction s as [| c s IH]; [reflexivity |]. simpl.
  pose proof (Split_not_empty s sep) as Hne.
  destruct (Split s sep) as [| x l]; [contradiction |].
  destruct (Ascii.eqb c sep) eqn:Hc.
  - apply Ascii.eqb_eq in Hc. subst c. rewrite <- IH. reflexivity.
  - rewrite <- IH. destruct l; reflexivity.
Qed.
End Ports.

(** X10.  [part_000] checks the [--ports] flag before it makes any call.  An
    empty flag ends the process at once.  Otherwise the flag is cut at its
    commas and the fields are read from left to right; the first field that is
    not a number (after [TrimSpace], by [Atoi]) ends the process with a message
    that shows that field as it was given, and nothing has been read, run or
    written by then.  When all fields are numbers the run goes on: its first
    call reads the credentials file. *)
Theorem part_000_ports_are_checked_first `{EncodingJson} `{Part_000.GoStrings} {W : Type}
    (h : Handler W) (w : W) (f : Part_000.Flags) :
  let r := run h (Part_000.main f) w in
  let is_port (s : string) (n : Z) := Part_000.Atoi (Part_000.TrimSpace s) = Ok n in
  (Part_000.ports f = "" ->
   outcome r = Exited "No ports specified. Use --ports to specify ports." /\ trace r = []) /\
  (forall good ns bad e rest,
     Part_000.ports f <> "" ->
     Part_000.Split (Part_000.ports f) "," = good ++ bad :: rest ->
     Forall2 is_port good ns ->
     Part_000.Atoi (Part_000.TrimSpace bad) = Err e ->
     outcome r = Exited ("Invalid port specified: " +:+ bad) /\ trace r = []) /\
  (forall ns,
     Part_000.ports f <> "" ->
     Forall2 is_port (Part_000.Split (Part_000.ports f) ",") ns ->
     hd_error (trace r) = Some (os_ReadFile (Part_000.credentials f))).
Proof.
  intros r is_port. subst r. unfold Part_000.main. split; [| split].
  - intros ->. split; reflexivity.
  - intros good ns bad e rest Hne Hs Hg Hb. apply String.eqb_neq in Hne. rewrite Hne, Hs.
    rewrite (parse_ports_not_a_number good ns bad e rest [] Hg Hb). split; reflexivity.
  - intros ns Hne Hf. apply String.eqb_neq in Hne. rewrite Hne.
    rewrite (parse_ports_numbers _ ns [] Hf). cbn [bind app].
    unfold Part_000.resolve_credentials, Part_000.loadCredentials, call.
    cbn [bind run]. destruct (h (os_ReadFile (Part_000.credentials f)) w). reflexivity.
Qed.

(** Its witness: a flag whose second field is not a number. *)
Lemma part_000_ports_witness :
  let f := {| Part_000.ports := "3000, x1,5173"; Part_000.tunnel := "t1";
              Part_000.domain := "a.test"; Part_000.credentials := "./credentials.json" |} in
  let r := run Fake.env (Part_000.main (H := GoJson.encoding_json)
                           (H0 := AsciiStrings.go_strings) f) Fake.fresh in
  Part_000.Split (Part_000.ports f) "," = ["3000"] ++ " x1" :: ["5173"] /\
  outcome r = Exited ("Invalid port specified:  x1") /\ trace r = [].
Proof.
  intros f r. split; [reflexivity |].
  destruct (part_000_ports_are_checked_first (H := GoJson.encoding_json)
              (H0 := AsciiStrings.go_strings) Fake.env Fake.fresh f) as (_ & Hbad & _).
  apply (Hbad ["3000"] [3000] " x1"
           ("strconv.Atoi: parsing " +:+ dq +:+ "x1" +:+ dq +:+ ": invalid syntax") ["5173"]).
  - discriminate.
  - reflexivity.
  - repeat constructor.
  - reflexivity.
Defined.

Section WpOtherWriters.
Context {W : Type} (h : Handler W).

(** [writeConfigFile] of [main.go]: one block for the port over HTTP. *)
Lemma wp_writeConfigFile_main_go (tunnelName tunnelID : string) (port : Z)
    (domain credentialsPath : string) (w : W) (t0 : list Event) :
  let path := Spec.config_path tunnelID in
  wp h (Main_go.writeConfigFile tunnelName tunnelID port domain credentialsPath) w t0
    (fun t _ o =>
       match o with
       | Returned p =>
           p = path /\
           t = t0 ++ os_Create path
                  :: map (file_Write path)
                       (Spec.ingress_config tunnelID credentialsPath
                          [Spec.mapping_block domain ("http://localhost:" +:+ itoa port)]
                          "http_status:404")
                  ++ [log_Print ("Config file created at: " +:+ path +:+ nl); file_Close path]
       | Exited _ => t = t0 ++ [os_Create path]
       | Panicked _ => False
       end).
Proof.
  intros path. unfold Main_go.writeConfigFile. fold (Spec.config_path tunnelID). fold path.
  cbv zeta. wp_step. wp_step; [wp_step; reflexivity |].
  wp_steps. split; [reflexivity |]. rewrite <- !app_assoc. reflexivity.
Qed.

(** [writeConfigFile] of [part_000]: one block per port over HTTP. *)
Lemma wp_writeConfigFile_part_000 (tunnelName : string) (ports : list Z)
    (domain credentialsPath : string) (w : W) (t0 : list Event) :
  let path := Spec.config_path tunnelName in
  wp h (Part_000.writeConfigFile tunnelName ports domain credentialsPath) w t0
    (fun t _ o =>
       match o with
       | Returned p =>
           p = path /\
           t = t0 ++ os_Create path
                  :: map (file_Write path)
                       (Spec.ingress_config tunnelName credentialsPath
                          (map (fun port =>
                                  Spec.mapping_block domain ("http://localhost:" +:+ itoa port))
                             ports)
                          "http_status:404")
                  ++ [log_Print ("Config file created at: " +:+ path +:+ nl); file_Close path]
       | Exited _ => t = t0 ++ [os_Create path]
       | Panicked _ => False
       end).
Proof.
  intros path. unfold Part_000.writeConfigFile. fold (Spec.config_path tunnelName). fold path.
  cbv zeta. wp_step. wp_step; [wp_step; reflexivity |].
  wp_step. do 3 wp_step.
  lazymatch goal with
  | |- wp ?h (bind (for_range ?l _) ?k) ?w ?t ?R =>
      apply (wp_block_loop h path (fun _ : Z => "  - hostname: " +:+ domain +:+ nl)
               (fun port => "    service: http://localhost:" +:+ itoa port +:+ nl) l k w t R)
  end.
  intros w1. wp_steps. split; [reflexivity |].
  unfold Spec.ingress_config. rewrite <- !app_assoc. cbn [app map concat].
  rewrite !map_app. cbn [app map]. rewrite <- !app_assoc. reflexivity.
Qed.
End WpOtherWriters.

Section PortsDoes.
Context `{Part_000.GoStrings} (P : Event -> Prop).
Import Part_000.

(** The loop over the fields returns the numbers of the fields, in order,
    after the ports it was given. *)
Lemma Does_parse_ports_numbers (fields : list string) (ports : list Z) :
  Does P (fun out => exists ns,
            out = ports ++ ns /\ Forall2 (fun s n => Atoi (TrimSpace s) = Ok n) fields ns)
    (parse_ports fields ports).
Proof.
  revert ports. induction fields as [| s fields IH]; intros ports; simpl.
  - constructor. exists []. split; [rewrite app_nil_r; reflexivity | constructor].
  - destruct (Atoi (TrimSpace s)) as [n | e] eqn:Hs; [| constructor].
    eapply Does_weaken; [apply IH | auto |].
    cbv beta. intros out (ns & -> & Hns). exists (n :: ns).
    split; [rewrite <- app_assoc; reflexivity | constructor; assumption].
Qed.
End PortsDoes.

Section StartsOnConfigMainGo.
Context `{EncodingJson} {W : Type} (h : Handler W).
Import Main_go.

Let ready (f : Flags) (t : list Event) (argv : list string) : Prop :=
  exists creds,
    let path := Spec.config_path (TunnelID creds) in
    argv = Calls.tunnel_run path /\
    writes_to path t
    = Spec.ingress_config (TunnelID creds) (credentials f)
        [Spec.mapping_block (domain f) ("http://localhost:" +:+ itoa (port f))]
        "http_status:404" /\
    In (file_Close path) t.

Lemma wp_main_go_starts_on_config (f : Flags) (w : W) :
  (port f =? 0) || String.eqb (tunnel f) "" || String.eqb (domain f) "" = false ->
  wp h (main f) w [] (fun t _ _ =>
    forall t1 argv t2, t = t1 ++ cmd_Start argv :: t2 -> ready f t1 argv).
Proof.
  intros Hflags.
  assert (Hs : Forall Calls.idle []) by constructor.
  unfold main. rewrite Hflags.
  kept_bind ltac:(idtac; does_main_go ltac:(intros; split; reflexivity)); [| no_start].
  wp_step; [| wp_step; no_start].
  kept_bind ltac:(idtac; apply Does_resolve_credentials_main_go; intros; split; reflexivity);
    [| no_start].
  kept_bind ltac:(idtac; does_main_go ltac:(intros; split; reflexivity)); [| no_start].
  wp_defer.
  lazymatch goal with
  | |- wp ?h (bind ?p ?k) ?w ?t ?R => apply (wp_bind h p k w t R)
  end.
  eapply wp_conseq; [apply wp_writeConfigFile_main_go |].
  cbv beta zeta. intros t' w1 [p | m | m] Ho; [| subst t'; no_start | contradiction].
  destruct Ho as [-> ->].
  unfold startTunnel. cbv zeta. do 2 wp_step.
  lazymatch goal with
  | |- context [(?t0 ++ os_Create ?p :: map (file_Write ?p) ?chunks ++ [log_Print ?l; _])
                ++ ?ts] =>
      assert (Hts : Forall Calls.idle ts) by (repeat constructor);
      destruct (config_then_idle t0 ts p l chunks Hs Hts) as (Hquiet & Hwritten & Hclosed);
      cbv zeta in Hquiet, Hwritten, Hclosed;
      assert (Hready : ready f ((t0 ++ os_Create p :: map (file_Write p) chunks
                                    ++ [log_Print l; file_Close p]) ++ ts)
                         (Calls.tunnel_run p))
        by (eexists; cbv zeta; split; [reflexivity |]; split; [| exact Hclosed];
            rewrite Hwritten; reflexivity);
      clear Hwritten Hclosed Hts;
      generalize dependent ((t0 ++ os_Create p :: map (file_Write p) chunks
                                ++ [log_Print l; file_Close p]) ++ ts);
      intros before Hquiet Hready
  end.
  wp_steps.
  all: one_start Hready Hquiet.
Qed.
End StartsOnConfigMainGo.

Section StartsOnConfigPart000.
Context `{EncodingJson} `{Part_000.GoStrings} {W : Type} (h : Handler W).
Import Part_000.

Let ready (f : Flags) (t : list Event) (argv : list string) : Prop :=
  exists creds port_list,
    let path := Spec.config_path (TunnelID creds) in
    Forall2 (fun s n => Atoi (TrimSpace s) = Ok n) (Split (ports f) ",") port_list /\
    argv = Calls.tunnel_run path /\
    writes_to path t
    = Spec.ingress_config (TunnelID creds) (credentials f)
        (map (fun port => Spec.mapping_block (domain f) ("http://localhost:" +:+ itoa port))
           port_list)
        "http_status:404" /\
    In (file_Close path) t.

Lemma wp_main_part_000_starts_on_config (f : Flags) (w : W) :
  wp h (main f) w [] (fun t _ _ =>
    forall t1 argv t2, t = t1 ++ cmd_Start argv :: t2 -> ready f t1 argv).
Proof.
  assert (Hs : Forall Calls.idle []) by constructor.
  unfold main.
  destruct (String.eqb (ports f) ""); [wp_step; no_start |].
  kept_bind ltac:(idtac; apply Does_parse_ports_numbers); [| no_start].
  match goal with Hq : exists _, _ |- _ => destruct Hq as (ns & -> & Hns) end.
  cbn [app].
  kept_bind ltac:(idtac; apply Does_resolve_credentials_part_000; intros; split; reflexivity);
    [| no_start].
  kept_bind ltac:(idtac; does_part_000 ltac:(intros; split; reflexivity)); [| no_start].
  wp_defer.
  lazymatch goal with
  | |- wp ?h (bind ?p ?k) ?w ?t ?R => apply (wp_bind h p k w t R)
  end.
  eapply wp_conseq; [apply wp_writeConfigFile_part_000 |].
  cbv beta zeta. intros t' w1 [p | m | m] Ho; [| subst t'; no_start | contradiction].
  destruct Ho as [-> ->].
  unfold startTunnel. cbv zeta. do 2 wp_step.
  lazymatch goal with
  | |- context [(?t0 ++ os_Create ?p :: map (file_Write ?p) ?chunks ++ [log_Print ?l; _])
                ++ ?ts] =>
      assert (Hts : Forall Calls.idle ts) by (repeat constructor);
      destruct (config_then_idle t0 ts p l chunks Hs Hts) as (Hquiet & Hwritten & Hclosed);
      cbv zeta in Hquiet, Hwritten, Hclosed;
      assert (Hready : ready f ((t0 ++ os_Create p :: map (file_Write p) chunks
                                    ++ [log_Print l; file_Close p]) ++ ts)
                         (Calls.tunnel_run p))
        by (eexists _, ns; cbv zeta; split; [exact Hns |]; split; [reflexivity |];
            split; [| exact Hclosed]; rewrite Hwritten; reflexivity);
      clear Hwritten Hclosed Hts;
      generalize dependent ((t0 ++ os_Create p :: map (file_Write p) chunks
                                ++ [log_Print l; file_Close p]) ++ ts);
      intros before Hquiet Hready
  end.
  wp_steps.
  all: one_start Hready Hquiet.
Qed.
End StartsOnConfigPart000.

(** X11.  With a complete command line, whenever a run of [main.go] starts
    the daemon, it starts it on [./<id>-config.yml] for one tunnel ID, and by
    then that file has been written in full and closed: the three leading
    lines (with that ID as the tunnel), one block that maps the hostname of
    [--domain] to [http://localhost:<port>], and the 404 fallback. *)
Theorem main_go_daemon_starts_on_the_written_config `{EncodingJson} {W : Type}
    (h : Handler W) (w : W) (f : Main_go.Flags) (t1 t2 : list Event) (argv : list string) :
  (Main_go.port f =? 0) || String.eqb (Main_go.tunnel f) ""
    || String.eqb (Main_go.domain f) "" = false ->
  trace (run h (Main_go.main f) w) = t1 ++ cmd_Start argv :: t2 ->
  exists creds,
    let path := Spec.config_path (TunnelID creds) in
    argv = ["cloudflared"; "--config"; path; "tunnel"; "run"] /\
    writes_to path t1
    = Spec.ingress_config (TunnelID creds) (Main_go.credentials f)
        [Spec.mapping_block (Main_go.domain f)
           ("http://localhost:" +:+ itoa (Main_go.port f))]
        "http_status:404" /\
    In (file_Close path) t1.
Proof.
  intros Hflags Hsplit. exact (wp_main_go_starts_on_config h f w Hflags t1 argv t2 Hsplit).
Qed.

(** Its witness: a run of the example environment with the credentials in
    place, cut at the start of the daemon. *)
Lemma main_go_daemon_starts_witness :
  let t := trace (run Fake.env (Main_go.main (H := GoJson.encoding_json) Fake.flags_main_go)
                    Fake.provisioned) in
  let argv := ["cloudflared"; "--config"; "./abc123-config.yml"; "tunnel"; "run"] in
  t = firstn 17 t ++ cmd_Start argv :: skipn 18 t /\
  exists creds,
    let path := Spec.config_path (TunnelID creds) in
    argv = ["cloudflared"; "--config"; path; "tunnel"; "run"] /\
    writes_to path (firstn 17 t)
    = Spec.ingress_config (TunnelID creds) "./credentials.json"
        [Spec.mapping_block "a.test" "http://localhost:8080"] "http_status:404" /\
    In (file_Close path) (firstn 17 t).
Proof.
  intros t argv.
  assert (Hsplit : t = firstn 17 t ++ cmd_Start argv :: skipn 18 t)
    by (vm_compute; reflexivity).
  split; [exact Hsplit |].
  exact (main_go_daemon_starts_on_the_written_config (H := GoJson.encoding_json)
           Fake.env Fake.provisioned Fake.flags_main_go _ _ _ eq_refl Hsplit).
Defined.

(** X12.  Whenever a run of [part_000] starts the daemon, every field of
    [--ports] is a number, the daemon is started on [./<id>-config.yml] for
    one tunnel ID, and by then that file has been written in full and closed:
    the three leading lines (with that ID as the tunnel), one block per
    field of [--ports], in the order of the flag, that maps the hostname of
    [--domain] to [http://localhost:<number>], and the 404 fallback. *)
Theorem part_000_daemon_starts_on_the_written_config `{EncodingJson}
    `{Part_000.GoStrings} {W : Type} (h : Handler W) (w : W) (f : Part_000.Flags)
    (t1 t2 : list Event) (argv : list string) :
  trace (run h (Part_000.main f) w) = t1 ++ cmd_Start argv :: t2 ->
  exists creds port_list,
    let path := Spec.config_path (TunnelID creds) in
    Forall2 (fun s n => Part_000.Atoi (Part_000.TrimSpace s) = Ok n)
      (Part_000.Split (Part_000.ports f) ",") port_list /\
    argv = ["cloudflared"; "--config"; path; "tunnel"; "run"] /\
    writes_to path t1
    = Spec.ingress_config (TunnelID creds) (Part_000.credentials f)
        (map (fun port =>
                Spec.mapping_block (Part_000.domain f) ("http://localhost:" +:+ itoa port))
           port_list)
        "http_status:404" /\
    In (file_Close path) t1.
Proof.
  intros Hsplit. exact (wp_main_part_000_starts_on_config h f w t1 argv t2 Hsplit).
Qed.

(** Its witness: two ports, the second after a space, in the example
    environment with the credentials in place. *)
Lemma part_000_daemon_starts_witness :
  let t := trace (run Fake.env (Part_000.main (H := GoJson.encoding_json)
                                  (H0 := AsciiStrings.go_strings) flags_part_000)
                    Fake.provisioned) in
  let argv := ["cloudflared"; "--config"; "./abc123-config.yml"; "tunnel"; "run"] in
  t = firstn 17 t ++ cmd_Start argv :: skipn 18 t /\
  writes_to "./abc123-config.yml" (firstn 17 t)
  = [ "tunnel: abc123" +:+ nl; "credentials-file: ./credentials.json" +:+ nl;
      "ingress:" +:+ nl;
      "  - hostname: a.test" +:+ nl; "    service: http://localhost:3000" +:+ nl;
      "  - hostname: a.test" +:+ nl; "    service: http://localhost:5173" +:+ nl;
      "  - service: http_status:404" +:+ nl ] /\
  exists creds port_list,
    let path := Spec.config_path (TunnelID creds) in
    Forall2 (fun s n => AsciiStrings.atoi (AsciiStrings.trim_space s) = Ok n)
      ["3000"; " 5173"] port_list /\
    argv = ["cloudflared"; "--config"; path; "tunnel"; "run"] /\
    writes_to path (firstn 17 t)
    = Spec.ingress_config (TunnelID creds) "./credentials.json"
        (map (fun port => Spec.mapping_block "a.test" ("http://localhost:" +:+ itoa port))
           port_list)
        "http_status:404" /\
    In (file_Close path) (firstn 17 t).
Proof.
  intros t argv.
  assert (Hsplit : t = firstn 17 t ++ cmd_Start argv :: skipn 18 t)
    by (vm_compute; reflexivity).
  split; [exact Hsplit |]. split; [vm_compute; reflexivity |].
  exact (part_000_daemon_starts_on_the_written_config (H := GoJson.encoding_json)
           (H0 := AsciiStrings.go_strings) Fake.env Fake.provisioned flags_part_000
           _ _ _ Hsplit).
Defined.

(** ** The previous configuration, reused *)

Section Reuse.
Context `{EncodingJson} {W : Type} (h : Handler W).

Lemma Does_main_reuse (f : Part_001.Flags) :
  Does (Calls.reused_part_001 f) (fun _ => True) (Part_001.main_reuse f).
Proof.
  unfold Part_001.main_reuse.
  does_001_main_by ltac:(allowed_in ltac:(cbn [Calls.reused_part_001])).
Qed.

Lemma Does_main_reuse_main_go (f : Main_go.Flags) :
  Does (Calls.reused_main_go f) (fun _ => True) (Main_go.main_reuse f).
Proof.
  unfold Main_go.main_reuse.
  does_main_go_by ltac:(allowed_in ltac:(cbn [Calls.reused_main_go])).
Qed.

(** The reuse branch of [part_001], by the answers of the environment. *)
Lemma wp_main_reuse (f : Part_001.Flags) (w : W) :
  wp h (Part_001.main_reuse f) w [] (fun t _ o =>
    match fst (h (os_ReadFile (Part_001.credentials f)) w) with
    | Err e =>
        o = Exited ("Previous configuration not found: failed to read credentials file: "
                    +:+ e) /\
        t = [os_ReadFile (Part_001.credentials f)]
    | Ok data =>
        match Unmarshal_TunnelCredentials data with
        | Err e =>
            o = Exited ("Previous configuration not found: failed to unmarshal credentials: "
                        +:+ e) /\
            t = [os_ReadFile (Part_001.credentials f)]
        | Ok creds =>
            let cfg := Spec.config_path (TunnelID creds) in
            match fst (h (os_Stat cfg) (snd (h (os_ReadFile (Part_001.credentials f)) w))) with
            | StatNotExist =>
                o = Exited ("Config " +:+ cfg +:+ " not found") /\
                t = [os_ReadFile (Part_001.credentials f); os_Stat cfg]
            | _ =>
                exists t', t = os_ReadFile (Part_001.credentials f) :: os_Stat cfg
                               :: cmd_Start (Calls.tunnel_run cfg) :: t'
            end
        end
    end).
Proof.
  unfold Part_001.main_reuse, Part_001.loadCredentials, Part_001.startTunnel,
    Part_001.logoutCloudflare.
  fold (Spec.config_path).
  wp_step. wp_step.
  match goal with Hr : h _ w = _ |- _ => rewrite Hr end. cbn [fst snd].
  wp_steps.
  all: unfold Spec.config_path, Calls.tunnel_run in *;
    repeat match goal with
           | Hh : h ?e ?w0 = _ |- context [h ?e ?w0] => rewrite Hh
           end;
    cbn [fst snd];
    first [ split; reflexivity | eexists; rewrite <- ?app_assoc; reflexivity ].
Qed.

(** The reuse branch of [main.go], by the answers of the environment. *)
Lemma wp_main_reuse_main_go (f : Main_go.Flags) (w : W) :
  let w0 := snd (h (log_Print
                      "No arguments provided, attempting to load previous configuration.") w) in
  wp h (Main_go.main_reuse f) w [] (fun t _ o =>
    match fst (h (os_ReadFile (Main_go.credentials f)) w0) with
    | Err e =>
        o = Exited ("Previous configuration not found and required arguments not passed: "
                    +:+ e) /\
        commands t = []
    | Ok data =>
        match Unmarshal_TunnelCredentials data with
        | Err e =>
            o = Exited ("Previous configuration not found and required arguments not passed: "
                        +:+ e) /\
            commands t = []
        | Ok creds =>
            let cfg := Spec.config_path (TunnelID creds) in
            match fst (h (os_Stat cfg) (snd (h (os_ReadFile (Main_go.credentials f)) w0))) with
            | StatNotExist =>
                o = Exited ("Previous config file " +:+ cfg +:+ " not found.") /\
                commands t = []
            | _ => commands t = [Calls.tunnel_run cfg]
            end
        end
    end).
Proof.
  intros w0. subst w0.
  unfold Main_go.main_reuse, Main_go.loadCredentials, Main_go.startTunnel.
  wp_step.
  match goal with Hr : h _ w = _ |- _ => rewrite Hr end. cbn [fst snd].
  wp_step. wp_step.
  match goal with Hr : h (os_ReadFile _) _ = _ |- _ => rewrite Hr end. cbn [fst snd].
  wp_steps.
  all: unfold Spec.config_path, Calls.tunnel_run in *;
    repeat match goal with
           | Hh : h ?e ?w0 = _ |- context [h ?e ?w0] => rewrite Hh
           end;
    cbn [fst snd];
    first [ split; reflexivity | reflexivity ].
Qed.
End Reuse.

(** X13.  When the port, the tunnel name or the domain is missing from the
    command line, [part_001] reuses the previous configuration.  It reads the
    credentials file and nothing else: no API keys, no request, no login, no
    tunnel creation, no file written.  When the file cannot be read or does
    not decode, the process exits after that one call.  Otherwise it looks up
    [./<id>-config.yml] for the tunnel ID of the file: when the file does not
    exist the process exits; in every other case, an error of [os.Stat] other
    than "does not exist" included, the daemon is started on that path. *)
Theorem part_001_reuses_the_previous_configuration `{EncodingJson} {W : Type}
    (h : Handler W) (w : W) (f : Part_001.Flags) :
  (Part_001.port f =? 0) || String.eqb (Part_001.tunnel f) ""
    || String.eqb (Part_001.domain f) "" = true ->
  let r := run h (Part_001.main f) w in
  let credentials := Part_001.credentials f in
  Forall (Calls.reused_part_001 f) (trace r) /\
  match fst (h (os_ReadFile credentials) w) with
  | Err e =>
      outcome r
      = Exited ("Previous configuration not found: failed to read credentials file: " +:+ e) /\
      trace r = [os_ReadFile credentials]
  | Ok data =>
      match Unmarshal_TunnelCredentials data with
      | Err e =>
          outcome r
          = Exited ("Previous configuration not found: failed to unmarshal credentials: "
                    +:+ e) /\
          trace r = [os_ReadFile credentials]
      | Ok creds =>
          let cfg := "./" +:+ TunnelID creds +:+ "-config.yml" in
          match fst (h (os_Stat cfg) (snd (h (os_ReadFile credentials) w))) with
          | StatNotExist =>
              outcome r = Exited ("Config " +:+ cfg +:+ " not found") /\
              trace r = [os_ReadFile credentials; os_Stat cfg]
          | StatOk | StatOtherError =>
              exists t', trace r = os_ReadFile credentials :: os_Stat cfg
                                   :: cmd_Start ["cloudflared"; "--config"; cfg; "tunnel"; "run"]
                                   :: t'
          end
      end
  end.
Proof.
  intros Hflags r credentials. subst r credentials.
  assert (Hrun : run h (Part_001.main f) w = run h (Part_001.main_reuse f) w).
  { unfold Part_001.main, Part_001.main_thread. rewrite Hflags.
    apply (run_go_alone h _ _ _ _ w (Does_main_reuse f)).
    intros e He. destruct e; first [reflexivity | destruct He]. }
  rewrite Hrun. split.
  - exact (proj1 (Does_run h _ _ _ w (Does_main_reuse f))).
  - exact (wp_main_reuse h f w).
Qed.

(** Its witness: the credentials are in place and [os.Stat] fails with an
    error other than "does not exist"; the daemon is started, and the run
    ends with the logout. *)
Lemma part_001_reuse_witness :
  let h := with_stat StatOtherError Fake.env in
  let r := run h (Part_001.main (H := GoJson.encoding_json) flags_reuse_001) Fake.provisioned in
  commands (trace r)
  = [ ["cloudflared"; "--config"; "./abc123-config.yml"; "tunnel"; "run"];
      ["cloudflared"; "tunnel"; "logout"] ] /\
  exists t', trace r = os_ReadFile "./credentials.json" :: os_Stat "./abc123-config.yml"
                       :: cmd_Start ["cloudflared"; "--config"; "./abc123-config.yml";
                                     "tunnel"; "run"]
                       :: t'.
Proof.
  intros h r. split; [vm_compute; reflexivity |].
  destruct (part_001_reuses_the_previous_configuration (H := GoJson.encoding_json)
              h Fake.provisioned flags_reuse_001 eq_refl) as [_ Hcases].
  exact Hcases.
Defined.

(** X14.  The same branch of [main.go]: the credentials file is the only
    file read, nothing is requested, provisioned or written, and there is no
    logout and no cancel.  Without credentials that decode, or when the
    configuration of their tunnel ID does not exist, the process exits
    without a sub-process; in every other case the one sub-process of the run
    is the daemon on [./<id>-config.yml]. *)
Theorem main_go_reuses_the_previous_configuration `{EncodingJson} {W : Type}
    (h : Handler W) (w : W) (f : Main_go.Flags) :
  (Main_go.port f =? 0) || String.eqb (Main_go.tunnel f) ""
    || String.eqb (Main_go.domain f) "" = true ->
  let r := run h (Main_go.main f) w in
  let credentials := Main_go.credentials f in
  let w0 := snd (h (log_Print
                      "No arguments provided, attempting to load previous configuration.") w) in
  Forall (Calls.reused_main_go f) (trace r) /\
  match fst (h (os_ReadFile credentials) w0) with
  | Err e =>
      outcome r
      = Exited ("Previous configuration not found and required arguments not passed: " +:+ e) /\
      commands (trace r) = []
  | Ok data =>
      match Unmarshal_TunnelCredentials data with
      | Err e =>
          outcome r
          = Exited ("Previous configuration not found and required arguments not passed: "
                    +:+ e) /\
          commands (trace r) = []
      | Ok creds =>
          let cfg := "./" +:+ TunnelID creds +:+ "-config.yml" in
          match fst (h (os_Stat cfg) (snd (h (os_ReadFile credentials) w0))) with
          | StatNotExist =>
              outcome r = Exited ("Previous config file " +:+ cfg +:+ " not found.") /\
              commands (trace r) = []
          | StatOk | StatOtherError =>
              commands (trace r) = [["cloudflared"; "--config"; cfg; "tunnel"; "run"]]
          end
      end
  end.
Proof.
  intros Hflags r credentials w0. subst r credentials w0. unfold Main_go.main.
  rewrite Hflags. split.
  - exact (proj1 (Does_run h _ _ _ w (Does_main_reuse_main_go f))).
  - exact (wp_main_reuse_main_go h f w).
Qed.

(** Its witness: the credentials are in place and the configuration is not;
    the process exits without starting anything. *)
Lemma main_go_reuse_witness :
  let r := run Fake.env (Main_go.main (H := GoJson.encoding_json) flags_reuse_main_go)
             Fake.provisioned in
  outcome r = Exited "Previous config file ./abc123-config.yml not found." /\
  commands (trace r) = [].
Proof.
  intros r.
  destruct (main_go_reuses_the_previous_configuration (H := GoJson.encoding_json)
              Fake.env Fake.provisioned flags_reuse_main_go eq_refl) as [_ Hcases].
  exact Hcases.
Defined.

(** ** The protocol of the command line *)

Section Protocol.
Context `{EncodingJson} {W : Type} (h : Handler W).
Import Part_001.

Variable f : Flags.
Hypothesis complete :
  (port f =? 0) || String.eqb (tunnel f) "" || String.eqb (domain f) "" = false.
Hypothesis not_http : String.eqb (protocol f) "http" = false.
Hypothesis not_tcp : String.eqb (protocol f) "tcp" = false.
Hypothesis no_proxy : String.eqb (protocol f) "all" = true -> proxy_domain f = "".

(** With such a command line [main] never gets beyond the routes. *)
Lemma Does_main_without_routes :
  Does (fun e => Calls.is_launch e = false) (fun _ => False) (main_thread f).
Proof.
  unfold main_thread. rewrite complete.
  does_call does_001 ltac:(intros; reflexivity).
  does_step ltac:(idtac); [| does_step ltac:(idtac)].
  does_call does_001_main ltac:(intros; reflexivity).
  does_call does_001 ltac:(intros; reflexivity).
  unfold build_routes. rewrite not_http, not_tcp.
  destruct (String.eqb (protocol f) "all").
  - rewrite (no_proxy eq_refl). cbn. constructor.
  - constructor.
Qed.

(** Its exit message, when the run gets to the routes. *)
Let message : string :=
  if String.eqb (protocol f) "all" then "proxy-domain is required when protocol=all"
  else "Unsupported protocol: " +:+ protocol f.

Lemma wp_main_without_routes (w : W) :
  wp h (main_thread f) w [] (fun t _ o =>
    o = Exited message ->
    exists keys,
      hd_error (http_requests t)
      = Some (Spec.lookup_request (ZoneID keys) (domain f) (ApiToken keys))).
Proof.
  unfold main_thread. rewrite complete.
  unfold loadAPIKeys, resolve_credentials, loadCredentials, authenticateCloudflare,
    createTunnel, saveCredentials, ensureDNSRecord, dnsRecordExists, cloudflareAPIRequest,
    build_routes, loadCredentials.
  rewrite not_http, not_tcp. subst message.
  destruct (String.eqb (protocol f) "all").
  - rewrite (no_proxy eq_refl). cbn [String.eqb].
    wp_steps.
    all: intros Hm; first [ discriminate Hm | eexists; reflexivity ].
  - wp_steps.
    all: intros Hm; first [ discriminate Hm | eexists; reflexivity ].
Qed.
End Protocol.

(** X15.  [part_001] looks at the protocol only after the credentials are
    resolved and the DNS record of the domain is ensured.  With a complete
    command line whose protocol is none of [http], [tcp], [all], or is [all]
    without a [--proxy-domain], every run ends through [log.Fatal]; it never
    creates or writes a configuration file, never starts the relay or the
    daemon and never waits for the signal; and when it ends with the message
    about the protocol, its first request, the lookup of the records of the
    domain, has already been made. *)
Theorem part_001_protocol_is_checked_after_the_dns_record `{EncodingJson} {W : Type}
    (h : Handler W) (w : W) (f : Part_001.Flags) :
  (Part_001.port f =? 0) || String.eqb (Part_001.tunnel f) ""
    || String.eqb (Part_001.domain f) "" = false ->
  String.eqb (Part_001.protocol f) "http" = false ->
  String.eqb (Part_001.protocol f) "tcp" = false ->
  (String.eqb (Part_001.protocol f) "all" = true -> Part_001.proxy_domain f = "") ->
  let r := run h (Part_001.main f) w in
  let message :=
    if String.eqb (Part_001.protocol f) "all" then "proxy-domain is required when protocol=all"
    else "Unsupported protocol: " +:+ Part_001.protocol f in
  (exists m, outcome r = Exited m) /\
  List.filter Calls.is_launch (trace r) = [] /\
  (outcome r = Exited message ->
   exists keys,
     hd_error (http_requests (trace r))
     = Some (Spec.lookup_request (ZoneID keys) (Part_001.domain f) (ApiToken keys))).
Proof.
  intros Hc Hh Ht Hp r message.
  assert (Hrun : r = run h (Part_001.main_thread f) w).
  { subst r. unfold Part_001.main.
    apply (run_go_alone h _ _ _ _ w (Does_main_without_routes f Hc Hh Ht Hp)).
    intros e He. destruct e; first [reflexivity | discriminate He]. }
  destruct (Does_run h _ _ _ w (Does_main_without_routes f Hc Hh Ht Hp)) as [Hcalls Hend].
  rewrite <- Hrun in Hcalls, Hend. split; [| split].
  - destruct (outcome r) as [a | m | m]; [destruct Hend | eexists; reflexivity | destruct Hend].
  - apply filter_none. exact Hcalls.
  - rewrite Hrun. exact (wp_main_without_routes h f Hc Hh Ht Hp w).
Qed.

(** Its witness: the protocol [udp] in the example environment.  By the time
    the protocol is refused the tunnel has been created and the DNS record
    too. *)
Lemma part_001_protocol_witness :
  let r := run Fake.env (Part_001.main (H := GoJson.encoding_json) flags_udp) Fake.fresh in
  outcome r = Exited "Unsupported protocol: udp" /\
  length (Spec.create_calls (trace r)) = 1%nat /\
  exists keys,
    hd_error (http_requests (trace r))
    = Some (Spec.lookup_request (ZoneID keys) "a.test" (ApiToken keys)).
Proof.
  intros r.
  assert (Ho : outcome r = Exited "Unsupported protocol: udp") by (vm_compute; reflexivity).
  split; [exact Ho |]. split; [vm_compute; reflexivity |].
  destruct (part_001_protocol_is_checked_after_the_dns_record (H := GoJson.encoding_json)
              Fake.env Fake.fresh flags_udp eq_refl eq_refl eq_refl)
    as (_ & _ & Hlate).
  - discriminate.
  - exact (Hlate Ho).
Defined.

Lemma offline_requests (t : list Event) : Forall offline t -> http_requests t = [].
Proof.
  induction 1 as [| e t [He _] _ IH]; [reflexivity |].
  destruct e; try discriminate He; exact IH.
Qed.

Lemma offline_no_start (t : list Event) (argv : list string) :
  Forall offline t -> ~ In (cmd_Start argv) t.
Proof.
  intros Ht Hin. rewrite List.Forall_forall in Ht. destruct (Ht _ Hin) as [_ Hs]. discriminate Hs.
Qed.

Lemma no_request_requests (t : list Event) :
  Forall (fun e => is_request e = false) t -> http_requests t = [].
Proof.
  induction 1 as [| e t He _ IH]; [reflexivity |].
  destruct e; try discriminate He; exact IH.
Qed.

Lemma no_start_not_in (t : list Event) (argv : list string) :
  Forall (fun e => Calls.is_start e = false) t -> ~ In (cmd_Start argv) t.
Proof.
  intros Ht Hin. rewrite List.Forall_forall in Ht. specialize (Ht _ Hin). discriminate Ht.
Qed.

Section EnsureRequests.
Context `{EncodingJson} {W : Type} (h : Handler W).

(** [ensureDNSRecord] as a step of a run: its requests and what else it
    calls. *)
Lemma wp_ensureDNSRecord (keys : APIKeys) (creds : TunnelCredentials) (host : string)
    (w : W) (t0 : list Event) (R : list Event -> W -> Outcome unit -> Prop) :
  (forall t' w' o,
     ensured keys creds host (http_requests t') ->
     Forall (fun e => Calls.is_start e = false) t' ->
     match o with Panicked _ => False | _ => True end ->
     R (t0 ++ t') w' o) ->
  wp h (Part_001.ensureDNSRecord (ZoneID keys) host (TunnelID creds) (ApiToken keys)) w t0 R.
Proof.
  intros HR. unfold wp. cbv zeta. apply HR.
  - pose proof (run_ensureDNSRecord h (ZoneID keys) host (TunnelID creds) (ApiToken keys) w)
      as Hc.
    cbv zeta in Hc. unfold ensured.
    destruct (outcome (run h (Part_001.dnsRecordExists _ _ _) w)) as [[|] | m | m];
      [left | right | left | destruct Hc]; apply Hc.
  - apply (Does_run h (fun e => Calls.is_start e = false) (fun _ => True)).
    apply Does_ensureDNSRecord; reflexivity.
  - pose proof (Does_run h (fun _ => True) (fun _ => True) _ w
                  (Does_ensureDNSRecord (fun _ => True) (fun _ => I) (ZoneID keys) host
                     (TunnelID creds) (ApiToken keys) I I)) as [_ Ho].
    destruct (outcome _); [exact I | exact I | exact Ho].
Qed.

Lemma wp_ensureDNSRecord_main_go (keys : APIKeys) (creds : TunnelCredentials)
    (host : string) (w : W) (t0 : list Event) (R : list Event -> W -> Outcome unit -> Prop) :
  (forall t' w' o,
     ensured keys creds host (http_requests t') ->
     Forall (fun e => Calls.is_start e = false) t' ->
     match o with Panicked _ => False | _ => True end ->
     R (t0 ++ t') w' o) ->
  wp h (Main_go.ensureDNSRecord (ZoneID keys) host (TunnelID creds) (ApiToken keys)) w t0 R.
Proof.
  intros HR. unfold wp. cbv zeta. apply HR.
  - pose proof (run_ensureDNSRecord_main_go h (ZoneID keys) host (TunnelID creds)
                  (ApiToken keys) w) as Hc.
    cbv zeta in Hc. unfold ensured.
    destruct (outcome (run h (Main_go.dnsRecordExists _ _ _) w)) as [[|] | m | m];
      [left | right | left | destruct Hc]; apply Hc.
  - apply (Does_run h (fun e => Calls.is_start e = false) (fun _ => True)).
    apply Does_ensureDNSRecord_main_go; reflexivity.
  - pose proof (Does_run h (fun _ => True) (fun _ => True) _ w
                  (Does_ensureDNSRecord_main_go (fun _ => True) (fun _ => I) (ZoneID keys)
                     host (TunnelID creds) (ApiToken keys) I I)) as [_ Ho].
    destruct (outcome _); [exact I | exact I | exact Ho].
Qed.
End EnsureRequests.

Ltac offline_side := intros; split; reflexivity.
Ltac no_request_side := intros; reflexivity.

Section RequestsInOrder.
Context `{EncodingJson}.

Lemma ensured_inhabited (keys : APIKeys) (creds : TunnelCredentials) (host : string) :
  exists l, ensured keys creds host l.
Proof. eexists. left. reflexivity. Qed.

Lemma ensured_part_001_inhabited (f : Part_001.Flags) (keys : APIKeys)
    (creds : TunnelCredentials) :
  exists l, ensured_part_001 f keys creds l.
Proof.
  unfold ensured_part_001.
  destruct (ensured_inhabited keys creds (Part_001.domain f)) as [l1 H1].
  destruct (ensured_inhabited keys creds (Part_001.proxy_domain f)) as [l2 H2].
  destruct (String.eqb (Part_001.protocol f) "all").
  - exists (l1 ++ l2), l1. split; [exact H1 |]. exists l2. split; [exact H2 | reflexivity].
  - exists l1, l1. split; [exact H1 | reflexivity].
Qed.

(** Before the first request. *)
Lemma requests_none (complete : list Request -> Prop) (t : list Event) :
  (exists full, complete full) -> Forall offline t -> requests_in_order complete t.
Proof.
  intros [full Hf] Ht. exists full. split; [exact Hf |].
  rewrite (offline_requests t Ht). split; [apply prefix_nil |].
  intros argv Hin. destruct (offline_no_start t argv Ht Hin).
Qed.

(** Among the requests, before the daemon is started. *)
Lemma requests_some (complete : list Request -> Prop) (t0 t : list Event)
    (l full : list Request) :
  complete full -> l `prefix_of` full ->
  Forall offline t0 -> http_requests t = l ->
  Forall (fun e => Calls.is_start e = false) t ->
  requests_in_order complete (t0 ++ t).
Proof.
  intros Hf Hp H0 Hl Hn. exists full. split; [exact Hf |].
  rewrite http_requests_app, (offline_requests t0 H0), Hl. split; [exact Hp |].
  intros argv Hin. apply in_app_or in Hin. destruct Hin as [Hin | Hin].
  - destruct (offline_no_start t0 argv H0 Hin).
  - destruct (no_start_not_in t argv Hn Hin).
Qed.

(** After the last request. *)
Lemma requests_all (complete : list Request -> Prop) (t0 t t' : list Event)
    (full : list Request) :
  complete full ->
  Forall offline t0 -> http_requests t = full ->
  Forall (fun e => is_request e = false) t' ->
  requests_in_order complete ((t0 ++ t) ++ t').
Proof.
  intros Hf H0 Hl Hn. exists full. split; [exact Hf |].
  rewrite !http_requests_app, (offline_requests t0 H0), Hl, (no_request_requests t' Hn).
  rewrite app_nil_r. split; [reflexivity | reflexivity].
Qed.
End RequestsInOrder.

Section RequestsMainGo.
Context `{EncodingJson} {W : Type} (h : Handler W).
Import Main_go.

Let complete (f : Flags) (l : list Request) : Prop :=
  exists keys creds, ensured keys creds (domain f) l.

Lemma complete_inhabited (f : Flags) : exists full, complete f full.
Proof.
  destruct (ensured_inhabited zero_APIKeys zero_TunnelCredentials (domain f)) as [l Hl].
  exists l, zero_APIKeys, zero_TunnelCredentials. exact Hl.
Qed.

Lemma wp_main_go_requests (f : Flags) (w : W) :
  (port f =? 0) || String.eqb (tunnel f) "" || String.eqb (domain f) "" = false ->
  wp h (main f) w [] (fun t _ _ => requests_in_order (complete f) t).
Proof.
  intros Hflags.
  assert (Hs : Forall offline []) by constructor.
  unfold main. rewrite Hflags.
  kept_bind ltac:(idtac; does_main_go offline_side);
    [| apply requests_none; [apply complete_inhabited | assumption]].
  wp_step; [| wp_step; apply requests_none; [apply complete_inhabited | assumption]].
  kept_bind ltac:(idtac; apply Does_resolve_credentials_main_go; offline_side);
    [| apply requests_none; [apply complete_inhabited | assumption]].
  lazymatch goal with
  | |- wp ?h (bind ?p ?k) ?w ?t ?R => apply (wp_bind h p k w t R)
  end.
  apply wp_ensureDNSRecord_main_go. intros t' w1 o He Hn Ho.
  destruct o as [[] | m | m]; [| | destruct Ho].
  - eapply wp_end_Does with (P := fun e => is_request e = false) (Q := fun _ => True).
    + does_main_go_by no_request_side.
    + intros t'' w2 o2 Ht'' _.
      apply (requests_all (complete f) _ _ _ (http_requests t')); auto.
      eexists _, _; exact He.
  - apply (requests_some (complete f) _ _ (http_requests t') (http_requests t')); auto.
    eexists _, _; exact He.
Qed.
End RequestsMainGo.

Section RequestsPart001.
Context `{EncodingJson} {W : Type} (h : Handler W).
Import Part_001.

Let complete (f : Flags) (l : list Request) : Prop :=
  exists keys creds, ensured_part_001 f keys creds l.

Lemma complete_part_001_inhabited (f : Flags) : exists full, complete f full.
Proof.
  destruct (ensured_part_001_inhabited f zero_APIKeys zero_TunnelCredentials) as [l Hl].
  exists l, zero_APIKeys, zero_TunnelCredentials. exact Hl.
Qed.

Lemma complete_after_the_domain (f : Flags) (keys : APIKeys) (creds : TunnelCredentials)
    (l1 : list Request) :
  ensured keys creds (domain f) l1 ->
  exists full, complete f full /\ l1 `prefix_of` full.
Proof.
  intros H1. unfold complete, ensured_part_001.
  destruct (ensured_inhabited keys creds (proxy_domain f)) as [l2 H2].
  destruct (String.eqb (protocol f) "all").
  - exists (l1 ++ l2). split; [| apply prefix_app_r; reflexivity].
    exists keys, creds, l1. split; [exact H1 |]. exists l2. split; [exact H2 | reflexivity].
  - exists l1. split; [| reflexivity].
    exists keys, creds, l1. split; [exact H1 | reflexivity].
Qed.

Lemma complete_without_proxy (f : Flags) (keys : APIKeys) (creds : TunnelCredentials)
    (l1 : list Request) :
  String.eqb (protocol f) "all" = false ->
  ensured keys creds (domain f) l1 -> complete f l1.
Proof.
  intros Hall H1. exists keys, creds, l1. split; [exact H1 |]. rewrite Hall. reflexivity.
Qed.

Lemma complete_with_proxy (f : Flags) (keys : APIKeys) (creds : TunnelCredentials)
    (l1 l2 : list Request) :
  String.eqb (protocol f) "all" = true ->
  ensured keys creds (domain f) l1 -> ensured keys creds (proxy_domain f) l2 ->
  complete f (l1 ++ l2).
Proof.
  intros Hall H1 H2. exists keys, creds, l1. split; [exact H1 |]. rewrite Hall.
  exists l2. split; [exact H2 | reflexivity].
Qed.

Lemma wp_main_requests (f : Flags) (w : W) :
  (port f =? 0) || String.eqb (tunnel f) "" || String.eqb (domain f) "" = false ->
  wp h (main_thread f) w [] (fun t _ _ => requests_in_order (complete f) t).
Proof.
  intros Hflags.
  assert (Hs : Forall offline []) by constructor.
  unfold main_thread. rewrite Hflags.
  kept_bind ltac:(idtac; does_001 offline_side);
    [| apply requests_none; [apply complete_part_001_inhabited | assumption]].
  wp_step; [| wp_step; apply requests_none; [apply complete_part_001_inhabited | assumption]].
  kept_bind ltac:(idtac; does_001_main offline_side);
    [| apply requests_none; [apply complete_part_001_inhabited | assumption]].
  lazymatch goal with
  | |- wp ?h (bind ?p ?k) ?w ?t ?R => apply (wp_bind h p k w t R)
  end.
  apply wp_ensureDNSRecord. intros t1 w1 o He Hn Ho.
  destruct o as [[] | m | m]; [| | destruct Ho].
  2: { destruct (complete_after_the_domain f _ _ _ He) as (full & Hfull & Hpre).
       apply (requests_some (complete f) _ _ (http_requests t1) full); auto. }
  unfold build_routes.
  destruct (String.eqb (protocol f) "http") eqn:Hhttp.
  { assert (Hall : String.eqb (protocol f) "all" = false)
      by (apply String.eqb_eq in Hhttp; rewrite Hhttp; reflexivity).
    wp_step.
    eapply wp_end_Does with (P := fun e => is_request e = false) (Q := fun _ => True).
    { rewrite Hall. does_001_main_by no_request_side. }
    intros t2 w2 o2 Ht2 _.
    apply (requests_all (complete f) _ _ _ (http_requests t1)); auto.
    exact (complete_without_proxy f _ _ _ Hall He). }
  destruct (String.eqb (protocol f) "tcp") eqn:Htcp.
  { assert (Hall : String.eqb (protocol f) "all" = false)
      by (apply String.eqb_eq in Htcp; rewrite Htcp; reflexivity).
    wp_step.
    eapply wp_end_Does with (P := fun e => is_request e = false) (Q := fun _ => True).
    { rewrite Hall. does_001_main_by no_request_side. }
    intros t2 w2 o2 Ht2 _.
    apply (requests_all (complete f) _ _ _ (http_requests t1)); auto.
    exact (complete_without_proxy f _ _ _ Hall He). }
  destruct (String.eqb (protocol f) "all") eqn:Hall.
  2: { do 2 wp_step.
       apply (requests_some (complete f) _ _ (http_requests t1) (http_requests t1)); [| reflexivity | assumption | reflexivity | assumption].
       exact (complete_without_proxy f _ _ _ Hall He). }
  destruct (String.eqb (proxy_domain f) "").
  { do 2 wp_step.
    destruct (complete_after_the_domain f _ _ _ He) as (full & Hfull & Hpre).
    apply (requests_some (complete f) _ _ (http_requests t1) full); auto. }
  lazymatch goal with
  | |- wp ?h (bind ?p ?k) ?w ?t ?R => apply (wp_bind h p k w t R)
  end.
  lazymatch goal with
  | |- wp ?h (bind ?p ?k) ?w ?t ?R => apply (wp_bind h p k w t R)
  end.
  apply wp_ensureDNSRecord. intros t2 w2 o He2 Hn2 Ho2.
  assert (Hn12 : Forall (fun e => Calls.is_start e = false) (t1 ++ t2))
    by (apply Forall_app; split; assumption).
  assert (He12 : http_requests (t1 ++ t2) = http_requests t1 ++ http_requests t2)
    by apply http_requests_app.
  rewrite <- (app_assoc _ t1 t2).
  destruct o as [[] | m | m]; [| | destruct Ho2].
  2: { apply (requests_some (complete f) _ _ (http_requests (t1 ++ t2))
                (http_requests t1 ++ http_requests t2)); auto.
       - exact (complete_with_proxy f _ _ _ _ Hall He He2).
       - rewrite He12. reflexivity. }
  cbv beta. wp_step. cbn [app].
  eapply wp_end_Does with (P := fun e => is_request e = false) (Q := fun _ => True).
  + does_001_main_by no_request_side.
  + intros t3 w3 o3 Ht3 _.
    apply (requests_all (complete f) _ _ _ (http_requests t1 ++ http_requests t2)); auto.
    exact (complete_with_proxy f _ _ _ _ Hall He He2).
Qed.
End RequestsPart001.

(** X17.  The requests of [part_001] come in one order.  With a complete
    command line, in every environment, there are a zone, a token and a tunnel
    ID such that the requests of the run are the first ones of this list: the
    lookup of the domain, the create call of its CNAME record if the lookup
    found none, and with the protocol [all] the same two for the proxy domain;
    every request carries that zone and that token and every create call
    points to that tunnel ID.  A run that starts the daemon has made the whole
    list, so it has looked up every hostname of its configuration. *)
Theorem part_001_requests_are_made_in_order `{EncodingJson} {W : Type} (h : Handler W)
    (w : W) (f : Part_001.Flags) :
  (Part_001.port f =? 0) || String.eqb (Part_001.tunnel f) ""
    || String.eqb (Part_001.domain f) "" = false ->
  requests_in_order (fun l => exists keys creds, ensured_part_001 f keys creds l)
    (trace (run h (Part_001.main f) w)).
Proof.
  intros Hflags.
  destruct (wp_main_requests (beside h Part_001.spawn) f (w, None) Hflags)
    as (full & Hfull & Hpre & Hall).
  cbn [app] in Hpre, Hall. exists full. split; [exact Hfull |]. split.
  - rewrite <- http_requests_steps. etransitivity; [| exact Hpre].
    rewrite <- (http_requests_steps (trace (run (beside h Part_001.spawn) _ _))).
    apply omap_prefix. apply main_steps.
  - intros argv Hin. apply in_split in Hin. destruct Hin as (t1 & t2 & Ht).
    destruct (main_cut h f w t1 t2 (cmd_Start argv) eq_refl Ht) as (a & b & Hab & Ha).
    pose proof (main_sorted h f w) as Hs. rewrite Ht in Hs.
    destruct (staged_main (beside h Part_001.spawn) f (w, None)) as [k [Hs' _]].
    cbn [app] in Hs'. rewrite Hab in Hs'.
    rewrite <- (Hall argv) by (rewrite Hab; apply in_elt).
    rewrite Ht, Hab, !http_requests_app.
    change (http_requests (cmd_Start argv :: ?l)) with (http_requests l).
    rewrite (no_request_after_start _ _ _ Hs), (no_request_after_start _ _ _ Hs').
    rewrite <- (http_requests_steps t1), <- Ha, http_requests_steps. reflexivity.
Qed.

(** Its witness: the protocol [all] in the example environment, where both
    records are missing: four requests. *)
Lemma part_001_requests_witness :
  let t := trace (run Fake.env (Part_001.main (H := GoJson.encoding_json) flags_all)
                    Fake.fresh) in
  length (http_requests t) = 4%nat /\
  requests_in_order
    (fun l => exists keys creds,
       ensured_part_001 (H := GoJson.encoding_json) flags_all keys creds l) t.
Proof.
  intros t. split; [vm_compute; reflexivity |].
  exact (part_001_requests_are_made_in_order (H := GoJson.encoding_json) Fake.env Fake.fresh
           flags_all eq_refl).
Defined.

(** X18.  The requests of [main.go] come in one order.  With a complete
    command line, in every environment, the requests of the run are none, or
    the lookup of the domain, or that lookup and the create call of its CNAME
    record, with one zone and one token; a run that starts the daemon has made
    the lookup. *)
Theorem main_go_requests_are_made_in_order `{EncodingJson} {W : Type} (h : Handler W)
    (w : W) (f : Main_go.Flags) :
  (Main_go.port f =? 0) || String.eqb (Main_go.tunnel f) ""
    || String.eqb (Main_go.domain f) "" = false ->
  requests_in_order (fun l => exists keys creds, ensured keys creds (Main_go.domain f) l)
    (trace (run h (Main_go.main f) w)).
Proof. intros Hflags. exact (wp_main_go_requests h f w Hflags). Qed.

(** Its witness: the example environment with the record missing. *)
Lemma main_go_requests_witness :
  let t := trace (run Fake.env (Main_go.main (H := GoJson.encoding_json) Fake.flags_main_go)
                    Fake.fresh) in
  length (http_requests t) = 2%nat /\
  requests_in_order
    (fun l => exists keys creds,
       ensured (H := GoJson.encoding_json) keys creds "a.test" l) t.
Proof.
  intros t. split; [vm_compute; reflexivity |].
  exact (main_go_requests_are_made_in_order (H := GoJson.encoding_json) Fake.env Fake.fresh
           Fake.flags_main_go eq_refl).
Defined.

(** ** C3: an existing credentials file is reused *)

(** The side conditions of [Calls.reusing]. *)
Ltac reusing_side :=
  intros; cbn [Calls.reusing];
  lazymatch goal with
  | |- True => exact I
  | |- exists _ _ _, Spec.lookup_request ?z ?d ?t = _ \/ _ =>
      exists z, d, t; left; reflexivity
  | |- exists _ _ _, Spec.create_request ?z ?d ?i ?t = _ \/ _ =>
      exists z, d, t; right; reflexivity
  | |- _ = _ => reflexivity
  end.

Section Reusing.
Context `{EncodingJson} {W : Type} (h : Handler W).





End Reusing.




(** ** The answers of a run *)

Section Wpa.
Context {W : Type} (h : Handler W).

Lemma replay_app {A : Type} (p : Prog A) (w : W) (t : list Event) :
  replay h w (trace (run h p w) ++ t)
  = replay h w (trace (run h p w)) ++ replay h (world (run h p w)) t.
Proof.
  revert w. induction p as [a | e k IH | m | m]; intros w; simpl; try reflexivity.
  destruct (h e w) as [r w'] eqn:He. cbn [trace world app replay]. rewrite He. cbn [fst snd].
  rewrite IH. reflexivity.
Qed.

Lemma asked_replay (w : W) (t : list Event) : map asked (replay h w t) = t.
Proof.
  revert w. induction t as [| e t IH]; intros w; simpl; [reflexivity |].
  rewrite IH. reflexivity.
Qed.

Lemma Forall_replay (P : Event -> Prop) (w : W) (t : list Event) :
  Forall P t -> Forall (fun x => P (asked x)) (replay h w t).
Proof.
  intros Ht. revert w. induction Ht as [| e t He _ IH]; intros w; simpl; constructor.
  - exact He.
  - apply IH.
Qed.

Lemma wpa_Ret {A : Type} (a : A) (w : W) (l0 : list Answered) R :
  R l0 w (Returned a) -> wpa h (Ret a) w l0 R.
Proof. unfold wpa. simpl. rewrite app_nil_r. auto. Qed.

Lemma wpa_Fatal {A : Type} (m : string) (w : W) (l0 : list Answered)
    (R : list Answered -> W -> Outcome A -> Prop) :
  R l0 w (Exited m) -> wpa h (Fatal m) w l0 R.
Proof. unfold wpa. simpl. rewrite app_nil_r. auto. Qed.

Lemma wpa_Vis {A : Type} (e : Event) (k : Resp e -> Prog A) (w : W) (l0 : list Answered) R :
  (forall r w', h e w = (r, w') -> wpa h (k r) w' (l0 ++ [got e r]) R) ->
  wpa h (Vis e k) w l0 R.
Proof.
  unfold wpa. intros Hk. simpl. destruct (h e w) as [r w'] eqn:He.
  specialize (Hk r w' eq_refl). cbn [trace world outcome replay] in *. rewrite He.
  cbn [fst snd]. rewrite <- app_assoc in Hk. exact Hk.
Qed.

Lemma wpa_bind {A B : Type} (p : Prog A) (f : A -> Prog B) (w : W) (l0 : list Answered) R :
  wpa h p w l0 (fun l w' o =>
    match o with
    | Returned a => wpa h (f a) w' l R
    | Exited m => R l w' (Exited m)
    | Panicked m => R l w' (Panicked m)
    end) ->
  wpa h (bind p f) w l0 R.
Proof.
  unfold wpa. cbv zeta. rewrite run_bind.
  destruct (outcome (run h p w)) as [a | m | m]; cbn [trace world outcome]; auto.
  rewrite replay_app, app_assoc. auto.
Qed.

Lemma wpa_call_bind {A : Type} (e : Event) (k : Resp e -> Prog A) (w : W)
    (l0 : list Answered) (R : list Answered -> W -> Outcome A -> Prop) :
  (forall r w', h e w = (r, w') -> wpa h (k r) w' (l0 ++ [got e r]) R) ->
  wpa h (bind (call e) k) w l0 R.
Proof. intros Hk. apply wpa_bind. unfold call. apply wpa_Vis. intros r w' He. apply wpa_Ret. auto. Qed.

Lemma wpa_call {e : Event} (w : W) (l0 : list Answered)
    (R : list Answered -> W -> Outcome (Resp e) -> Prop) :
  (forall r w', h e w = (r, w') -> R (l0 ++ [got e r]) w' (Returned r)) -> wpa h (call e) w l0 R.
Proof. intros Hr. unfold call. apply wpa_Vis. intros r w' He. apply wpa_Ret. auto. Qed.

Lemma wpa_conseq {A : Type} (p : Prog A) (w : W) (l0 : list Answered)
    (R R' : list Answered -> W -> Outcome A -> Prop) :
  wpa h p w l0 R -> (forall l w' o, R l w' o -> R' l w' o) -> wpa h p w l0 R'.
Proof. unfold wpa. auto. Qed.

Lemma wpa_shift {A : Type} (p : Prog A) (w : W) (l0 : list Answered)
    (R : list Answered -> W -> Outcome A -> Prop) :
  wpa h p w [] (fun l w' o => R (l0 ++ l) w' o) -> wpa h p w l0 R.
Proof. unfold wpa. auto. Qed.

Lemma wpa_Does {A : Type} (P : Event -> Prop) (Q : A -> Prop) (p : Prog A) (w : W)
    (l0 : list Answered) (R : list Answered -> W -> Outcome A -> Prop) :
  Does P Q p ->
  (forall l w' o, Forall (fun x => P (asked x)) l ->
     match o with Returned a => Q a | Exited _ => True | Panicked _ => False end ->
     R (l0 ++ l) w' o) ->
  wpa h p w l0 R.
Proof.
  intros Hp HR. unfold wpa. cbv zeta. destruct (Does_run h P Q p w Hp) as [Ht Ho].
  apply HR; [apply Forall_replay; exact Ht | exact Ho].
Qed.

Lemma wpa_go_bind {A B : Type} (spawn : Event -> option (Prog unit)) (p : Prog A)
    (k : A -> Prog B) (w : W) (l0 : list Answered) R :
  AllCalls (fun e => spawn e = None) p ->
  wpa h (bind p (fun a => go spawn (k a))) w l0 R ->
  wpa h (go spawn (bind p k)) w l0 R.
Proof. intros Hp. unfold wpa. rewrite (run_go_bind h spawn p k w Hp). auto. Qed.
End Wpa.

Lemma unlogged_app (l1 l2 : list Answered) : unlogged (l1 ++ l2) = unlogged l1 ++ unlogged l2.
Proof. apply List.filter_app. Qed.

Lemma Forall_unlogged (P : Answered -> Prop) (l : list Answered) :
  Forall P l -> Forall P (unlogged l).
Proof.
  intros Hl. induction Hl as [| x l Hx _ IH]; [constructor |].
  unfold unlogged. cbn [List.filter]. destruct (negb (is_log (asked x))); [constructor |]; assumption.
Qed.

Ltac wpa_step :=
  lazymatch goal with
  | |- wpa ?h (Ret ?a) ?w ?l ?R => apply (wpa_Ret h a w l R); cbv beta iota
  | |- wpa ?h (Fatal ?m) ?w ?l ?R => apply (wpa_Fatal h m w l R); cbv beta iota
  | |- wpa ?h (bind (call ?e) ?k) ?w ?l ?R => apply (wpa_call_bind h e k w l R); intros ? ? ?
  | |- wpa ?h (call ?e) ?w ?l ?R =>
      apply (wpa_call h (e := e) w l R); intros ? ? ?; cbv beta iota
  | |- wpa ?h (bind (Ret ?a) ?k) ?w ?l ?R => change (wpa h (k a) w l R); cbv beta
  | |- wpa ?h (bind (Fatal ?m) ?k) ?w ?l ?R => change (wpa h (Fatal m) w l R)
  | |- wpa ?h (bind (match ?x with _ => _ end) ?k) ?w ?l ?R => destruct x eqn:?
  | |- wpa ?h (bind (bind ?p ?f) ?k) ?w ?l ?R => apply (wpa_bind h (bind p f) k w l R)
  | |- wpa ?h (go ?s (Fatal ?m)) ?w ?l ?R => change (wpa h (Fatal m) w l R)
  | |- wpa _ (go _ (match ?x with _ => _ end)) _ _ _ => destruct x eqn:?
  | |- wpa _ (match ?x with _ => _ end) _ _ _ => destruct x eqn:?
  end.
Ltac wpa_steps := cbv beta zeta; repeat (wpa_step; cbv beta zeta).

(** The end of the resolution: the calls made, then what follows. *)
Ltac resolution_side :=
  first [ exact I | eassumption | eexists; eassumption ].

Ltac resolved_end :=
  lazymatch goal with
  | Hk : forall creds : TunnelCredentials, Does _ _ _ |- wpa ?h (?k ?c) ?w ?l ?R =>
      apply (wpa_Does h _ _ (k c) w l R (Hk c));
      let rest := fresh "rest" in
      let Hrest := fresh "Hrest" in
      intros rest ? ? Hrest _; cbv beta;
      rewrite unlogged_app;
      lazymatch goal with
      | |- context [unlogged ?made ++ unlogged rest] =>
          let step := eval cbn [app unlogged List.filter asked got projT1 is_log negb]
                      in (unlogged made) in
          exists step, (unlogged rest), (Some c)
      end;
      split; [reflexivity |];
      split; [ first [ apply resolution_loaded | apply resolution_saved ]; resolution_side
             | apply Forall_unlogged; exact Hrest ]
  | |- _ =>
      cbn [app unlogged List.filter asked got projT1 is_log negb];
      eexists _, [], None;
      split; [rewrite app_nil_r; reflexivity |];
      split; [ first [ apply resolution_login_failed | apply resolution_create_failed
                     | apply resolution_reload_failed | apply resolution_save_failed ];
               resolution_side
             | split; [reflexivity | eexists; reflexivity] ]
  end.

Section ResolvesThen.
Context `{EncodingJson} {W : Type} (h : Handler W).

Lemma wpa_resolve_credentials (f : Part_001.Flags) (k : TunnelCredentials -> Prog unit)
    (later : TunnelCredentials -> Event -> Prop) (w : W) :
  (forall creds, Does (later creds) (fun _ => True) (k creds)) ->
  wpa h (bind (Part_001.resolve_credentials f) k) w [] (fun l _ o =>
    resolves_then (Part_001.credentials f) (Part_001.tunnel f) later (unlogged l) o).
Proof.
  intros Hk.
  unfold Part_001.resolve_credentials, Part_001.loadCredentials,
    Part_001.authenticateCloudflare, Part_001.createTunnel, Part_001.saveCredentials,
    Part_001.loadCredentials, resolves_then.
  wpa_steps.
  all: resolved_end.
Qed.

Lemma wpa_resolve_credentials_main_go (f : Main_go.Flags) (k : TunnelCredentials -> Prog unit)
    (later : TunnelCredentials -> Event -> Prop) (w : W) :
  (forall creds, Does (later creds) (fun _ => True) (k creds)) ->
  wpa h (bind (Main_go.resolve_credentials f) k) w [] (fun l _ o =>
    resolves_then (Main_go.credentials f) (Main_go.tunnel f) later (unlogged l) o).
Proof.
  intros Hk.
  unfold Main_go.resolve_credentials, Main_go.loadCredentials,
    Main_go.authenticateCloudflare, Main_go.createTunnel, Main_go.saveCredentials,
    Main_go.loadCredentials, resolves_then.
  wpa_steps.
  all: resolved_end.
Qed.

Lemma wpa_resolve_credentials_part_000 `{Part_000.GoStrings} (f : Part_000.Flags)
    (k : TunnelCredentials -> Prog unit) (later : TunnelCredentials -> Event -> Prop) (w : W) :
  (forall creds, Does (later creds) (fun _ => True) (k creds)) ->
  wpa h (bind (Part_000.resolve_credentials f) k) w [] (fun l _ o =>
    resolves_then (Part_000.credentials f) (Part_000.tunnel f) later (unlogged l) o).
Proof.
  intros Hk.
  unfold Part_000.resolve_credentials, Part_000.loadCredentials,
    Part_000.authenticateCloudflare, Part_000.createTunnel, Part_000.saveCredentials,
    Part_000.loadCredentials, resolves_then.
  wpa_steps.
  all: resolved_end.
Qed.

(** The whole of [main]: the API keys, then the credentials, then the rest
    on the resolved identity. *)
Lemma wpa_main (f : Part_001.Flags) (w : W) :
  (Part_001.port f =? 0) || String.eqb (Part_001.tunnel f) ""
    || String.eqb (Part_001.domain f) "" = false ->
  wpa h (Part_001.main f) w [] (fun l _ o =>
    exists a l',
      unlogged l = got (os_ReadFile (Part_001.apiKeys f)) a :: l' /\
      ((l' = [] /\ exists m, o = Exited m)
       \/ resolves_then (Part_001.credentials f) (Part_001.tunnel f) Calls.reusing l' o)).
Proof.
  intros Hflags. unfold Part_001.main, Part_001.main_thread. rewrite Hflags.
  apply wpa_go_bind; [unfold Part_001.loadAPIKeys; all_quiet |].
  unfold Part_001.loadAPIKeys. wpa_steps.
  all: try (eexists _, []; split; [reflexivity | left; split; [reflexivity |]];
            eexists; reflexivity).
  apply wpa_go_bind;
    [apply (Does_AllCalls _ (fun _ => True)); apply Does_resolve_credentials;
     intros; reflexivity |].
  apply wpa_shift. eapply wpa_conseq.
  - apply (wpa_resolve_credentials f _ Calls.reusing). intros creds.
    apply Does_go; [apply Does_spawn; [intros; exact I | intros addr _; split; exact I] |].
    does_001_main_by reusing_side.
  - cbv beta. intros l w2 o Hres. eexists _, (unlogged l). split.
    + rewrite unlogged_app. reflexivity.
    + right. exact Hres.
Qed.

Lemma wpa_main_go (f : Main_go.Flags) (w : W) :
  (Main_go.port f =? 0) || String.eqb (Main_go.tunnel f) ""
    || String.eqb (Main_go.domain f) "" = false ->
  wpa h (Main_go.main f) w [] (fun l _ o =>
    exists a l',
      unlogged l = got (os_ReadFile (Main_go.apiKeys f)) a :: l' /\
      ((l' = [] /\ exists m, o = Exited m)
       \/ resolves_then (Main_go.credentials f) (Main_go.tunnel f) Calls.reusing l' o)).
Proof.
  intros Hflags. unfold Main_go.main. rewrite Hflags.
  unfold Main_go.loadAPIKeys. wpa_steps.
  all: try (eexists _, []; split; [reflexivity | left; split; [reflexivity |]];
            eexists; reflexivity).
  apply wpa_shift. eapply wpa_conseq.
  - apply (wpa_resolve_credentials_main_go f _ Calls.reusing). intros creds.
    does_main_go_by reusing_side.
  - cbv beta. intros l w2 o Hres. eexists _, (unlogged l). split.
    + rewrite unlogged_app. reflexivity.
    + right. exact Hres.
Qed.

Lemma wpa_main_part_000 `{Part_000.GoStrings} (f : Part_000.Flags) (w : W) :
  wpa h (Part_000.main f) w [] (fun l _ o =>
    (unlogged l = [] /\ exists m, o = Exited m)
    \/ resolves_then (Part_000.credentials f) (Part_000.tunnel f) (Calls.reusing_part_000 f)
         (unlogged l) o).
Proof.
  unfold Part_000.main. destruct (String.eqb (Part_000.ports f) "").
  - apply wpa_Fatal. left. split; [reflexivity | eexists; reflexivity].
  - apply wpa_bind.
    apply (wpa_Does h (fun _ => False) (fun _ => True) _ w []
             _ (Does_parse_ports (fun _ => False) _ _)).
    intros l w1 o Hl Ho.
    assert (Hnil : l = []) by (destruct Hl as [| x l []]; reflexivity).
    subst l. cbn [app]. destruct o as [ports | m | m]; [| | destruct Ho].
    + eapply wpa_conseq.
      * apply (wpa_resolve_credentials_part_000 f _ (Calls.reusing_part_000 f)).
        intros creds. does_part_000_by ltac:(intros; cbn [Calls.reusing_part_000]; auto).
      * cbv beta. intros l w2 o Hres. right. exact Hres.
    + left. split; [reflexivity | eexists; reflexivity].
Qed.
End ResolvesThen.

(** X16.  A new identity is made in a fixed order, and only when the
    credentials file does not load.  Take any environment and the calls of a
    run with the answers the environment gave them, log lines apart.  In
    [part_001] and [main.go] with a complete command line the first call is
    the read of the API keys file, and either the run ends there through
    [log.Fatal], or the calls that follow begin in one of six ways.  The
    credentials file is read and decodes: the run goes on with that identity.
    Or the read fails or the bytes do not decode, and then: [cloudflared
    tunnel login] fails, and the run ends there; or the login succeeds and
    [cloudflared tunnel --credentials-file <path> create <tunnel>] fails, and
    the run ends there; or the tunnel is created and the second load of the
    file fails, and the run ends there; or the file loads and [os.WriteFile]
    of the same path, with the indented encoding of the loaded identity and
    mode 0600, fails, and the run ends there; or the write succeeds and the
    run goes on with the loaded identity.  Where the run ends it ends through
    [log.Fatal] with no further call.  Where it goes on, no later call logs
    in, creates a tunnel or writes the credentials file, and the
    configuration file, the daemon and the CNAME records are those of the
    tunnel ID of that identity.  In [part_000] the same holds from the first
    call on, unless the ports are refused before any call; its later calls
    are the DNS route of the tunnel name, the configuration file of the
    tunnel ID and the daemon on that file. *)
Theorem credentials_are_provisioned_in_order `{EncodingJson} `{Part_000.GoStrings}
    {W : Type} (h : Handler W) (w : W) :
  (forall f : Part_001.Flags,
     (Part_001.port f =? 0) || String.eqb (Part_001.tunnel f) ""
       || String.eqb (Part_001.domain f) "" = false ->
     let r := run h (Part_001.main f) w in
     exists a l,
       answers h w r = got (os_ReadFile (Part_001.apiKeys f)) a :: l /\
       ((l = [] /\ exists m, outcome r = Exited m)
        \/ resolves_then (Part_001.credentials f) (Part_001.tunnel f) Calls.reusing l
             (outcome r)))
  /\ (forall f : Main_go.Flags,
        (Main_go.port f =? 0) || String.eqb (Main_go.tunnel f) ""
          || String.eqb (Main_go.domain f) "" = false ->
        let r := run h (Main_go.main f) w in
        exists a l,
          answers h w r = got (os_ReadFile (Main_go.apiKeys f)) a :: l /\
          ((l = [] /\ exists m, outcome r = Exited m)
           \/ resolves_then (Main_go.credentials f) (Main_go.tunnel f) Calls.reusing l
                (outcome r)))
  /\ (forall f : Part_000.Flags,
        let r := run h (Part_000.main f) w in
        (answers h w r = [] /\ exists m, outcome r = Exited m)
        \/ resolves_then (Part_000.credentials f) (Part_000.tunnel f)
             (Calls.reusing_part_000 f) (answers h w r) (outcome r)).
Proof.
  split; [| split]; intros f.
  - intros Hflags. exact (wpa_main h f w Hflags).
  - intros Hflags. exact (wpa_main_go h f w Hflags).
  - exact (wpa_main_part_000 h f w).
Qed.

(** Its witness: the example environment with no credentials file. *)
Lemma credentials_provisioned_witness :
  let r := run Fake.env (Part_001.main (H := GoJson.encoding_json) Fake.flags_001)
             Fake.fresh in
  exists a l,
    answers Fake.env Fake.fresh r
    = got (os_ReadFile (Part_001.apiKeys Fake.flags_001)) a :: l /\
    ((l = [] /\ exists m, outcome r = Exited m)
     \/ resolves_then (H := GoJson.encoding_json) (Part_001.credentials Fake.flags_001)
          (Part_001.tunnel Fake.flags_001) (Calls.reusing (H := GoJson.encoding_json)) l
          (outcome r)).
Proof.
  destruct (credentials_are_provisioned_in_order (H := GoJson.encoding_json)
              (H0 := AsciiStrings.go_strings) Fake.env Fake.fresh) as [Hmain _].
  exact (Hmain Fake.flags_001 eq_refl).
Defined.

(** In that run the credentials file is missing, the login and the creation
    succeed and the file that [cloudflared] wrote is loaded and written
    back. *)
Example fresh_directory_is_provisioned :
  let r := run Fake.env (Part_001.main (H := GoJson.encoding_json) Fake.flags_001)
             Fake.fresh in
  firstn 5 (tl (answers Fake.env Fake.fresh r))
  = [ got (os_ReadFile "./credentials.json")
        (Err "open ./credentials.json: no such file or directory");
      got (cmd_Run Calls.login) None;
      got (cmd_Run (Calls.create "./credentials.json" "t1")) None;
      got (os_ReadFile "./credentials.json")
        (Ok (MarshalIndent_TunnelCredentials (H := GoJson.encoding_json)
               (Fake.new_identity Fake.fresh)));
      got (os_WriteFile "./credentials.json"
             (MarshalIndent_TunnelCredentials (H := GoJson.encoding_json)
                (Fake.new_identity Fake.fresh)) perm_0600) None ].
Proof. vm_compute. reflexivity. Qed.
